(* ===== verification/_CoqProject ===== *)
-Q . S2P
Prelude.v
FrameStore.v
Convert.v
Sync.v
Setup.v
Scanout.v
Boot.v
Witnesses.v
