(* ===== verification/Prelude.v ===== *)
(** * A verification library for the esp32s3vga VGA driver

    The program (src/src/VGA.h, src/src/VGA.cpp) drives a VGA monitor from an
    ESP32-S3 LCD peripheral working in "bounce buffer" mode. The application
    draws into a small logical frame buffer, at half or full resolution and
    with 8-bit or packed 3-bit pixels. The peripheral driver calls back into
    the class once per bounce-buffer chunk. The callback expands the visible
    logical buffer into the physical byte stream, and near the end of each
    frame it swaps the two logical buffers when the drawing task has
    finished a frame.

    Parts of the program and where they are modelled:

    - [Prelude] (this file): notations for the C bit operations in
      [vga_scope], and the memory model. A C byte buffer is a [list Z] read
      through a pointer offset ([rd]), and [memcpy] from it is [slice].
      Also here: the [vga] hint database, the [vlia] tactic (lia with
      [Nat.div] and [Nat.modulo] turned into equations), and the shared
      lemmas on [seq], [map], [concat] and bytes.
    - [FrameStore]: the object, class [VGA] of VGA.h, as a Record with
      all its data members. Also the constructor with its member
      initialisers ([VGA_default]), the public accessors, the size of a
      frame buffer ([fbSize]), the assignments the operations make, and
      [VGA::getDrawBuffer].
    - [Convert]: the pixel conversion of [VGA::bounceEvent]
      (VGA.cpp 180-365). Its four branches are kept as the source writes
      them: the [memcpy] branch, and three partially unrolled loops whose
      single unrolled step is a Definition ([unpack1], [unpack2], [dup8])
      iterated as often as the source repeats it. The [for] loops are
      Fixpoints ([for_x] with fuel, [for_y] on the line count). The
      abstract specification [produce_ref] is the nearest-neighbour
      upscaling and depth expansion the spec describes, pixel by pixel.
    - [Sync]: the two binary semaphores, [VGA::vsyncWait] (split at its
      two semaphore operations, the only points where the interleaving
      matters) and the swap at the end of [bounceEvent] (VGA.cpp 367-376).
      The producer task and the interrupt are composed as an executable
      [step] on the shared state, [reachable] is its reflexive-transitive
      closure from [initial], and [VGA::vsyncEvent] (which only returns
      [true]) is a Definition of its own. An abstract rendezvous machine
      ([AFrame], [astep]: signal, swap, resume) states what the two
      semaphores promise. The relation [matches] ties a system state to
      the abstract state it implements: the same front index, and the
      token state of the two semaphores that the abstract phase allows.
    - [Setup]: [VGA::init] (VGA.cpp 22-160), all of it. The FreeRTOS,
      ESP-IDF and heap calls it makes are the fields of the class
      [Platform], the interface the theorems are proved against; the
      witnesses instantiate it. [init] runs in a small monad [M] of the
      file. [M] records each call in order and aborts at a failed
      [assert], at an [ESP_ERROR_CHECK] of an error, at a division by
      zero and at an out-of-bounds [memset]. Every stage of the function
      is a Definition: semaphores, panel configuration, allocation loop,
      [memset] and panel start. [init] also registers [vsyncEvent] and
      [bounceEvent] of [Sync] as the driver's callbacks.
    - [Scanout]: the whole [bounceEvent] (conversion, then swap), and the
      peripheral's schedule of chunk requests over one frame. Its
      theorems: a frame is scanned out from one buffer only, and a
      completed [vsyncWait] hands the drawn frame to the screen.
    - [Boot]: [Setup] composed with [Sync] and [Scanout]: the first frame
      after [init], and the mode of the table that breaks.
    - [Witnesses]: small concrete objects (a 10x10 3-bit and a 40x10
      8-bit logical frame, both at scale 2, a waiting producer, and three
      platforms: one where every call succeeds, one without heap and one
      whose panel creation fails). Every theorem with a hypothesis is
      applied to them, with its hypotheses discharged by evaluation.

    The theorems come in groups:

    - Conversion. With a supported geometry and a request aligned to whole
      logical lines, the bytes [bounce_fill] writes are exactly
      [produce_ref], the per-pixel specification; their number is the
      requested length; at scale 2 every physical line is written twice;
      and the output depends only on the first [fbSize] bytes of the
      front buffer, so no read leaves the allocated block. At scale 2 and
      8 bits, the number of bytes written is given for every width. It is
      [lines * (80 * ceil (frameWidth / 40) + screenWidth)].
    - Counterexamples. A one-line request at scale 2 writes nothing, an
      odd-line request at scale 2 reads the wrong logical line, and the
      640x350 mode at scale 2 therefore corrupts the picture. A frame
      width that is not a multiple of 40 makes a scale-2 request of whole
      lines overrun the bounce buffer. [init] with 3-bit colour overruns
      frame buffer 0 in its [memset].
    - Synchronisation. Every reachable state satisfies an invariant linking
      the producer's program point to the two semaphores, so a swap
      happens only while the producer is blocked in [vsyncWait], a pending
      frame is always taken at the next boundary chunk, and the drawing
      buffer is never the scanned-out one. [matches] is a simulation.
      From a state that matches an abstract state, every event leads to a
      state that matches that state or its successor in the rendezvous.
      So a take that keeps its token, or a swap without both token moves,
      would break it. Once the task has given [sem_gui_ready], exactly one
      chunk of a frame, the last, passes the swap check. A producer that
      does not give [sem_gui_ready] never sees a swap.
    - Hand-off. A task that draws [b], calls [vsyncWait] and is released
      finds exactly [b] in front. Its next draw buffer is the old front.
      A waiting task is released within one frame of chunk requests, and
      those requests never block.
    - Set-up. Whatever the platform answers, [init] makes its calls in
      the source order and returns only after all of them. It registers
      the callbacks only if every earlier call succeeded: both
      semaphores, the panel, both allocations, and a buffer 0 large
      enough for the [memset]. It returns only if the three panel calls
      after that succeeded. With every call successful,
      an 8-bit [init] returns the object the synchronisation theorems
      start from. A [NULL] allocation aborts at its [assert], and a panel
      error at its [ESP_ERROR_CHECK]. With 3-bit colour the [memset]
      overflows buffer 0. [init] does not check the resolution. Off the
      timing table it returns with a 0 Hz pixel clock and zero porches.
    - End to end. In the modes of the table that tile the frame, the first
      frame after [init] is 255 in every byte, whatever the task draws.
      [init] also accepts a scale or depth that [bounceEvent] does not
      convert. It returns normally, and then no chunk gets any byte.
    - Data. Packing two 3-bit pixels into a byte and unpacking it with
      either unrolled step of the source gives the pixels back, in column
      order (each one twice at scale 2), for all 64 pixel pairs.
    - End to end. Over one frame of chunk requests, with producer steps
      interleaved anywhere, the bytes sent to the panel are [produce_ref]
      of the buffer that was in front when the frame began.

    Bounds and fuel. Indices and sizes are [nat]. The C code computes them
    in [int], and for the four supported modes no value exceeds
    800*600 = 480000, far below 2^31, so no C expression wraps. This
    is a modelling assumption, not a theorem of the library. Bytes are
    [Z] values; the theorems on the 3-bit format state the range
    they need ([pix3]). A read outside a buffer is
    undefined behaviour in C; [rd] returns 0 there. The in-bounds theorem
    shows the supported paths never take that branch. [for_x] gets fuel
    [frameWidth], which is at least its iteration count
    [ceil (frameWidth / stride)] for any positive stride.

    Not modelled: the inside of the ESP-IDF panel driver, FreeRTOS and
    the heap. They are libraries the sources only call, and appear as
    the results of the [Platform] calls. Also not modelled: [ESP_LOGI],
    which only logs, and FreeRTOS scheduling beyond the semaphore
    semantics. A task blocked in [xSemaphoreTake] is the [Waiting]
    program point; time and priorities are not modelled. The chunk
    schedule of the peripheral is an assumption ([frame_chunks]): one
    request per bounce buffer, in screen order.
    The members declared in VGA.h but not
    defined in VGA.cpp ([initWithSize], [deinit], [validConfig],
    [swapBuffers]) have no code to model. *)

From Stdlib Require Export List Arith ZArith Lia ZifyNat Bool.
Export ListNotations.

(** ** Notation for the C bit operations on [uint8_t] *)

Declare Scope vga_scope.
Delimit Scope vga_scope with vga.
Notation "x &&& y" := (Z.land x y) (at level 40, left associativity) : vga_scope.
Notation "x >>> n" := (Z.shiftr x n) (at level 35, right associativity) : vga_scope.
Open Scope vga_scope.

(** ** Automation *)

Create HintDb vga discriminated.
Create Rewrite HintDb vga.

(** [lia] over [nat] with [/] and [mod] by constants or by variables that
    the goal relates linearly. *)
Ltac vlia := zify; Z.div_mod_to_equations; lia.
Ltac vnia := zify; Z.div_mod_to_equations; nia.

(** ** Bytes and buffers *)

(** [*(p + i)] for a buffer [mem] ([uint8_t*]). Out of range: 0. *)
Definition rd (mem : list Z) (i : nat) : Z := nth i mem 0%Z.

(** The [n] bytes at [mem + start], as [memcpy(dst, mem + start, n)]
    copies them. *)
Definition slice (mem : list Z) (start n : nat) : list Z :=
  map (fun k => rd mem (start + k)) (seq 0 n).

(** ** Generic lemmas on lists, [seq] and division *)

Lemma length_slice mem start n : length (slice mem start n) = n.
Proof. unfold slice. now rewrite length_map, length_seq. Qed.
#[export] Hint Rewrite length_slice : vga.

Lemma rd_app_l l1 l2 i : i < length l1 -> rd (l1 ++ l2) i = rd l1 i.
Proof. intros H. unfold rd. now apply app_nth1. Qed.

Lemma rd_app_r l1 l2 i : rd (l1 ++ l2) (length l1 + i) = rd l2 i.
Proof.
  unfold rd. rewrite app_nth2 by lia. f_equal. lia.
Qed.

Lemma rd_map_seq (f : nat -> Z) n i : i < n -> rd (map f (seq 0 n)) i = f i.
Proof.
  intros H. unfold rd.
  rewrite nth_indep with (d' := f 0) by (rewrite length_map, length_seq; lia).
  rewrite map_nth, seq_nth by lia. reflexivity.
Qed.

(** A [memcpy] of a whole block just written: the block itself. *)
Lemma slice_app_block pre l : slice (pre ++ l) (length pre) (length l) = l.
Proof.
  unfold slice. apply nth_ext with (d := 0%Z) (d' := 0%Z).
  - now rewrite length_map, length_seq.
  - intros k Hk. rewrite length_map, length_seq in Hk.
    change (rd (map (fun k => rd (pre ++ l) (length pre + k)) (seq 0 (length l))) k
            = rd l k).
    rewrite rd_map_seq by lia. apply rd_app_r.
Qed.

Lemma seq_offset s n : seq s n = map (Nat.add s) (seq 0 n).
Proof.
  revert s. induction n as [|n IH]; intros s; [reflexivity|].
  simpl. f_equal; [lia|]. rewrite IH, (IH 1), map_map. apply map_ext. lia.
Qed.

(** Flattening a two-dimensional traversal: [m] rows of [w] values each,
    visited row by row, are the values at [j / w], [j mod w]. *)
Lemma concat_map_seq {A} (g : nat -> nat -> A) w m :
  concat (map (fun i => map (g i) (seq 0 w)) (seq 0 m))
  = map (fun j => g (j / w) (j mod w)) (seq 0 (m * w)).
Proof.
  induction m as [|m IH]; [reflexivity|].
  rewrite seq_S, map_app, concat_app, IH. cbn [map concat]. rewrite app_nil_r.
  replace (S m * w) with (m * w + w) by lia.
  rewrite seq_app, map_app. f_equal.
  rewrite (seq_offset (_ + m * w)), map_map. apply map_ext_in.
  intros j Hj. apply in_seq in Hj. f_equal.
  - apply Nat.div_unique with (r := j); lia.
  - apply Nat.mod_unique with (q := m); lia.
Qed.

(** Reading a row-by-row traversal whose rows all have width [w]. *)
Lemma length_concat_uniform {A} (F : nat -> list A) w m :
  (forall i, i < m -> length (F i) = w) ->
  length (concat (map F (seq 0 m))) = m * w.
Proof.
  induction m as [|m IH]; intros HF; [reflexivity|].
  rewrite seq_S, map_app, concat_app, length_app, IH by (intros; apply HF; lia).
  cbn [map concat]. rewrite app_nil_r, HF by lia. lia.
Qed.

Lemma rd_concat_uniform (F : nat -> list Z) w m j :
  (forall i, i < m -> length (F i) = w) -> j < m * w ->
  rd (concat (map F (seq 0 m))) j = rd (F (j / w)) (j mod w).
Proof.
  revert j. induction m as [|m IH]; intros j HF Hj; [lia|].
  rewrite seq_S, map_app, concat_app. cbn [map concat]. rewrite app_nil_r.
  assert (Hlen : length (concat (map F (seq 0 m))) = m * w)
    by (apply length_concat_uniform; intros; apply HF; lia).
  destruct (Nat.lt_ge_cases j (m * w)) as [Hlt | Hge].
  - rewrite rd_app_l by lia. apply IH; [intros; apply HF; lia | exact Hlt].
  - replace j with (length (concat (map F (seq 0 m))) + (j - m * w)) by lia.
    rewrite rd_app_r, Hlen.
    replace (m * w + (j - m * w)) with j by lia.
    assert (w <> 0) by lia.
    assert (Hq : j / w = m) by (symmetry; apply Nat.div_unique with (r := j - m * w); lia).
    assert (Hr : j mod w = j - m * w)
      by (symmetry; apply Nat.mod_unique with (q := m); lia).
    now rewrite Hq, Hr.
Qed.

(** A block written twice in a row. *)
Lemma rd_dup (l : list Z) j :
  j < 2 * length l -> rd (l ++ l) j = rd l (j mod length l).
Proof.
  intros Hj. destruct (Nat.lt_ge_cases j (length l)) as [Hlt | Hge].
  - rewrite rd_app_l, Nat.mod_small by lia. reflexivity.
  - replace j with (length l + (j - length l)) at 1 by lia.
    rewrite rd_app_r. f_equal.
    apply Nat.mod_unique with (q := 1); lia.
Qed.

Lemma iter_mul {A} (f : A -> A) a b x :
  Nat.iter a (Nat.iter b f) x = Nat.iter (a * b) f x.
Proof.
  induction a as [|a IH]; [reflexivity|].
  change (Nat.iter b f (Nat.iter a (Nat.iter b f) x) = Nat.iter (S a * b) f x).
  rewrite IH. replace (S a * b) with (b + a * b) by lia.
  now rewrite Nat.iter_add.
Qed.

Lemma slice_app_block_len pre l n :
  n = length l -> slice (pre ++ l) (length pre) n = l.
Proof. intros ->. apply slice_app_block. Qed.

Lemma iter_ext {A} (f g : A -> A) n x :
  (forall y, f y = g y) -> Nat.iter n f x = Nat.iter n g x.
Proof.
  intros H. induction n as [|n IH]; [reflexivity|].
  change (f (Nat.iter n f x) = g (Nat.iter n g x)). now rewrite IH, H.
Qed.

(** Ceiling division: one more round of a loop of stride [s]. *)
Lemma ceil_div_step fw x s :
  0 < s -> x < fw ->
  (fw - x + s - 1) / s = S ((fw - (x + s) + s - 1) / s).
Proof.
  intros Hs Hx. destruct (Nat.le_gt_cases (fw - x) s) as [Hle | Hgt].
  - replace (fw - (x + s) + s - 1) with (s - 1) by lia.
    rewrite (Nat.div_small (s - 1)) by lia.
    symmetry. apply Nat.div_unique with (r := fw - x - 1); lia.
  - replace (fw - x + s - 1) with ((fw - (x + s) + s - 1) + 1 * s) by lia.
    rewrite Nat.div_add by lia. lia.
Qed.

Lemma ceil_div_exact q s : 0 < s -> (q * s + s - 1) / s = q.
Proof.
  intros Hs. symmetry. apply Nat.div_unique with (r := s - 1); lia.
Qed.

(** Two buffers with the same bytes. *)
Lemma rd_ext (l l' : list Z) :
  length l = length l' -> (forall j, j < length l -> rd l j = rd l' j) -> l = l'.
Proof. intros Hl H. apply nth_ext with (d := 0%Z) (d' := 0%Z); auto. Qed.

(** The row and column of a flattened offset inside a block of [s] rows. *)
Lemma offset_split s sw r j :
  0 < sw -> 0 < s ->
  (r * (s * sw) + j) / sw / s = r + j / (s * sw)
  /\ (r * (s * sw) + j) mod sw = j mod (s * sw) mod sw.
Proof.
  intros Hsw Hs. split.
  - rewrite Nat.Div0.div_div, (Nat.mul_comm sw s).
    apply Nat.div_add_l. lia.
  - replace (r * (s * sw) + j) with (j + (r * s) * sw) by lia.
    rewrite Nat.Div0.mod_add, (Nat.mul_comm s sw), Nat.Div0.mod_mul_r.
    replace (j mod sw + sw * ((j / sw) mod s)) with (j mod sw + ((j / sw) mod s) * sw) by lia.
    now rewrite Nat.Div0.mod_add, Nat.Div0.mod_mod.
Qed.

(** A logical index at an even width: its byte and its nibble. *)
Lemma half_split a h c :
  (a * (2 * h) + c) / 2 = a * h + c / 2 /\ (a * (2 * h) + c) mod 2 = c mod 2.
Proof.
  replace (a * (2 * h) + c) with (c + (a * h) * 2) by lia.
  rewrite Nat.div_add, Nat.Div0.mod_add by lia. split; lia.
Qed.

Lemma mod4_div2 c : (c mod 4) / 2 = (c / 2) mod 2.
Proof. vlia. Qed.

(** Every byte a [memcpy] copies is a byte of the source, or the value an
    out-of-range read gives. *)
Lemma Forall_slice (P : Z -> Prop) l s n :
  Forall P l -> P 0%Z -> Forall P (slice l s n).
Proof.
  intros Hl H0. unfold slice. apply Forall_map, Forall_forall. intros k _.
  unfold rd. destruct (Nat.lt_ge_cases (s + k) (length l)) as [Hlt | Hge].
  - apply Forall_forall with (l := l); [exact Hl|]. apply nth_In, Hlt.
  - rewrite nth_overflow by exact Hge. exact H0.
Qed.

(** [b & 0b111] is a 3-bit value. *)
Lemma land7_range (x : Z) : (0 <= x &&& 7 < 8)%Z.
Proof.
  change 7%Z with (Z.ones 3). rewrite Z.land_ones by lia.
  apply Z.mod_pos_bound. lia.
Qed.
#[export] Hint Resolve land7_range : vga.

(** In a sequence of blocks each written twice, byte [k] of a first copy
    equals byte [k + w] of the second copy. *)
Lemma rd_concat_dup (F : nat -> list Z) w n k :
  (forall y, length (F y) = w) -> k < n * (2 * w) -> k mod (2 * w) < w ->
  rd (concat (map (fun y => F y ++ F y) (seq 0 n))) (k + w)
  = rd (concat (map (fun y => F y ++ F y) (seq 0 n))) k.
Proof.
  intros HF Hk Hm.
  assert (Hlen : forall i, i < n -> length (F i ++ F i) = 2 * w)
    by (intros i _; rewrite length_app, HF; lia).
  assert (Hw : 0 < w) by lia.
  pose proof (Nat.div_mod_eq k (2 * w)) as Hdm.
  set (q := k / (2 * w)) in *. set (t := k mod (2 * w)) in *.
  assert (Hq : q < n) by (apply Nat.Div0.div_lt_upper_bound; lia).
  assert (Hk2 : k + w < n * (2 * w)).
  { assert (H1 : S q * (2 * w) <= n * (2 * w)) by (apply Nat.mul_le_mono_r; lia).
    rewrite Nat.mul_succ_l in H1. lia. }
  assert (Hq' : (k + w) / (2 * w) = q)
    by (symmetry; apply Nat.div_unique with (r := t + w); lia).
  assert (Hr' : (k + w) mod (2 * w) = w + t)
    by (symmetry; apply Nat.mod_unique with (q := q); lia).
  rewrite !(rd_concat_uniform _ (2 * w) n) by (exact Hlen || lia).
  fold q t. rewrite Hq', Hr'.
  replace (w + t) with (length (F q) + t) by (rewrite HF; reflexivity).
  rewrite rd_app_r, rd_app_l by (rewrite HF; lia). reflexivity.
Qed.

(** Chunks of [B] lines of width [sw]: chunk [k] starts at [k * (B * sw)];
    the last of [K] starts [B] lines before the end. *)
Lemma last_chunk_start K B sw : 0 < K -> sw * (K * B - B) = (K - 1) * (B * sw).
Proof.
  intros HK. destruct K as [|K]; [lia|].
  rewrite Nat.mul_succ_l. replace (K * B + B - B) with (K * B) by lia.
  replace (S K - 1) with K by lia. ring.
Qed.

Lemma chunk_before_last k K B sw :
  0 < B * sw -> k < K - 1 -> k * (B * sw) < (K - 1) * (B * sw).
Proof. intros Hp Hk. apply Nat.mul_lt_mono_pos_r; lia. Qed.

Lemma block_multiple k s t sw : (k * (s * t * sw)) mod (s * sw) = 0.
Proof.
  replace (k * (s * t * sw)) with ((k * t) * (s * sw)) by ring.
  apply Nat.Div0.mod_mul.
Qed.

Lemma filter_none {A} (f : A -> bool) l : Forall (fun x => f x = false) l -> filter f l = [].
Proof. induction 1 as [|x l Hx _ IH]; cbn; [reflexivity|]. now rewrite Hx. Qed.

Lemma nth_map_seq {A} (f : nat -> A) n k d : k < n -> nth k (map f (seq 0 n)) d = f k.
Proof.
  intros Hk. rewrite nth_indep with (d' := f 0) by (rewrite length_map, length_seq; exact Hk).
  now rewrite map_nth, seq_nth.
Qed.

Lemma rd_repeat c n i : i < n -> rd (repeat c n) i = c.
Proof. intros H. unfold rd. rewrite nth_indep with (d' := c) by (now rewrite repeat_length). apply nth_repeat. Qed.

(** The logical sample of physical offset [off] of an [s]-times upscaled
    [fw] x [fh] frame lies inside the frame. *)
Lemma pixel_index_bound s fw fh off :
  0 < s -> off < s * fw * (s * fh) ->
  off / (s * fw) / s * fw + off mod (s * fw) / s < fw * fh.
Proof.
  intros Hs Hoff.
  assert (Hfw : 0 < fw) by (destruct fw; [lia | lia]).
  assert (Hrow : off / (s * fw) < s * fh) by (apply Nat.Div0.div_lt_upper_bound; lia).
  assert (Hr : off / (s * fw) / s < fh) by (apply Nat.Div0.div_lt_upper_bound; lia).
  assert (Hcol : off mod (s * fw) < s * fw) by (apply Nat.mod_upper_bound; lia).
  assert (Hc : off mod (s * fw) / s < fw) by (apply Nat.Div0.div_lt_upper_bound; lia).
  revert Hr Hc. generalize (off / (s * fw) / s) (off mod (s * fw) / s). intros a b Ha Hb. nia.
Qed.

Lemma half_index li n : li < n -> n mod 2 = 0 -> li / 2 < n / 2.
Proof. intros H1 H2. vlia. Qed.

Lemma even_product a b : a mod 10 = 0 -> (a * b) mod 2 = 0.
Proof.
  intros H. apply Nat.Div0.mod_divides in H as [k ->].
  replace (10 * k * b) with (5 * k * b * 2) by ring. apply Nat.Div0.mod_mul.
Qed.
