(* ===== verification/FrameStore.v ===== *)
(** * FrameStore: the object of class [VGA]

    [VGA] is the class of VGA.h as a Record with all its data members, in
    the order of the header. Two modelling choices:
    - A [SemaphoreHandle_t] is a FreeRTOS binary semaphore. It holds 0 or
      1 token, so a member of that type is the [bool] "holds its token".
    - [_panel_handle] is [None] for [NULL] or [Some h] for the driver's
      handle [h].
    The public accessors [frameWidth()], [frameHeight()] and
    [colorBits()] (VGA.h 19-29) return a member. The Record's projections
    already have those names, so the accessors are [get_frameWidth] and
    the like. The setters below are the assignments that the operations
    of the other files perform. [VGA::getDrawBuffer] is here
    because it only reads the object. *)

From S2P Require Import Prelude.

Module FrameStore.

(** ** The object *)

Record VGA := mkVGA {
  sem_vsync_end : bool;            (** [_sem_vsync_end] holds its token *)
  sem_gui_ready : bool;            (** [_sem_gui_ready] holds its token *)
  panel_handle : option nat;       (** [_panel_handle] *)
  frameBuffer0 : list Z;           (** [_frameBuffers[0]] *)
  frameBuffer1 : list Z;           (** [_frameBuffers[1]] *)
  frameBufferIndex : nat;          (** [_frameBufferIndex]: the front buffer *)
  frameWidth : nat;
  frameHeight : nat;
  screenWidth : nat;
  screenHeight : nat;
  frameScale : nat;
  colorBits : nat;
  bounceBufferLines : nat;
  hBorder : nat;
  vBorder : nat;
  lastBounceBufferPos : nat;
  frameBuffersInPsram : bool
}.

(** [VGA() {}] with the member initialisers of VGA.h 34-47. The C code
    leaves the two semaphore handles and [_frameBuffers] indeterminate,
    and [init] assigns all three before anything reads them (VGA.cpp 45,
    47, 137/140). Here they are an empty semaphore and an empty block. *)
Definition VGA_default : VGA := {|
  sem_vsync_end := false; sem_gui_ready := false;
  panel_handle := None;
  frameBuffer0 := []; frameBuffer1 := [];
  frameBufferIndex := 0;
  frameWidth := 0; frameHeight := 0; screenWidth := 0; screenHeight := 0;
  frameScale := 2; colorBits := 8; bounceBufferLines := 0;
  hBorder := 0; vBorder := 0; lastBounceBufferPos := 0;
  frameBuffersInPsram := false |}.

(** [_frameBuffers[i]]. An index other than 0 or 1 is outside the array
    (undefined behaviour in C); the model gives an empty block. *)
Definition frameBuffer (v : VGA) (i : nat) : list Z :=
  match i with
  | 0 => frameBuffer0 v
  | 1 => frameBuffer1 v
  | _ => []
  end.

(** VGA.cpp 130-133: the size in bytes of one frame buffer, as [init]
    allocates it. *)
Definition fbSize (v : VGA) : nat :=
  let n := frameWidth v * frameHeight v in
  if colorBits v =? 3 then n / 2 else n.

(** VGA.h 19-29: the accessors the application draws with. *)
Definition get_frameWidth (v : VGA) : nat := frameWidth v.
Definition get_frameHeight (v : VGA) : nat := frameHeight v.
Definition get_colorBits (v : VGA) : nat := colorBits v.

(** ** Assignments to members *)

(** [_frameBufferIndex = i]. *)
Definition set_frameBufferIndex (v : VGA) (i : nat) : VGA :=
  {| sem_vsync_end := sem_vsync_end v; sem_gui_ready := sem_gui_ready v;
     panel_handle := panel_handle v;
     frameBuffer0 := frameBuffer0 v; frameBuffer1 := frameBuffer1 v;
     frameBufferIndex := i;
     frameWidth := frameWidth v; frameHeight := frameHeight v;
     screenWidth := screenWidth v; screenHeight := screenHeight v;
     frameScale := frameScale v; colorBits := colorBits v;
     bounceBufferLines := bounceBufferLines v;
     hBorder := hBorder v; vBorder := vBorder v;
     lastBounceBufferPos := lastBounceBufferPos v;
     frameBuffersInPsram := frameBuffersInPsram v |}.

(** The token state of the two semaphores after a give or a take. *)
Definition set_sems (v : VGA) (vsync_end gui_ready : bool) : VGA :=
  {| sem_vsync_end := vsync_end; sem_gui_ready := gui_ready;
     panel_handle := panel_handle v;
     frameBuffer0 := frameBuffer0 v; frameBuffer1 := frameBuffer1 v;
     frameBufferIndex := frameBufferIndex v;
     frameWidth := frameWidth v; frameHeight := frameHeight v;
     screenWidth := screenWidth v; screenHeight := screenHeight v;
     frameScale := frameScale v; colorBits := colorBits v;
     bounceBufferLines := bounceBufferLines v;
     hBorder := hBorder v; vBorder := vBorder v;
     lastBounceBufferPos := lastBounceBufferPos v;
     frameBuffersInPsram := frameBuffersInPsram v |}.

(** [_frameBuffers[i] = b], or new contents written through the pointer
    [_frameBuffers[i]]. *)
Definition set_frameBuffer (v : VGA) (i : nat) (b : list Z) : VGA :=
  {| sem_vsync_end := sem_vsync_end v; sem_gui_ready := sem_gui_ready v;
     panel_handle := panel_handle v;
     frameBuffer0 := if i =? 0 then b else frameBuffer0 v;
     frameBuffer1 := if i =? 1 then b else frameBuffer1 v;
     frameBufferIndex := frameBufferIndex v;
     frameWidth := frameWidth v; frameHeight := frameHeight v;
     screenWidth := screenWidth v; screenHeight := screenHeight v;
     frameScale := frameScale v; colorBits := colorBits v;
     bounceBufferLines := bounceBufferLines v;
     hBorder := hBorder v; vBorder := vBorder v;
     lastBounceBufferPos := lastBounceBufferPos v;
     frameBuffersInPsram := frameBuffersInPsram v |}.

(** [_panel_handle] as [esp_lcd_new_rgb_panel] writes it. *)
Definition set_panel_handle (v : VGA) (h : nat) : VGA :=
  {| sem_vsync_end := sem_vsync_end v; sem_gui_ready := sem_gui_ready v;
     panel_handle := Some h;
     frameBuffer0 := frameBuffer0 v; frameBuffer1 := frameBuffer1 v;
     frameBufferIndex := frameBufferIndex v;
     frameWidth := frameWidth v; frameHeight := frameHeight v;
     screenWidth := screenWidth v; screenHeight := screenHeight v;
     frameScale := frameScale v; colorBits := colorBits v;
     bounceBufferLines := bounceBufferLines v;
     hBorder := hBorder v; vBorder := vBorder v;
     lastBounceBufferPos := lastBounceBufferPos v;
     frameBuffersInPsram := frameBuffersInPsram v |}.

(** [VGA::getDrawBuffer] (VGA.cpp 168-174). It returns the pointer
    [_frameBuffers[1]] or [_frameBuffers[0]], modelled by the index of
    the buffer it points to. *)
Definition getDrawBuffer (v : VGA) : nat :=
  if frameBufferIndex v =? 0 then 1 else 0.

End FrameStore.
