(* ===== verification/Convert.v ===== *)
(** * Convert: the pixel conversion of [VGA::bounceEvent]

    VGA.cpp 180-365. The callback gets the physical position [pos_px] of
    the chunk and its length [len_bytes], and writes the chunk's bytes
    into [bounce_buf] from the front logical buffer
    [_frameBuffers[_frameBufferIndex]]. A [cursor] holds the source
    pointer [pptr] (an offset into the front buffer) and the bytes written
    so far, [out], so [bbptr] is [length out]. One unrolled step of each
    loop is a Definition, applied as often as the source repeats it.
    [produce_ref] is the specification: each physical pixel is the
    depth-expanded logical pixel under it. *)

From S2P Require Import Prelude FrameStore.
Import FrameStore.

Module Convert.

(** ** The implementation *)

Record cursor := mkCursor { pptr : nat; out : list Z }.

(** [*(bbptr++) = b] *)
Definition emit (b : Z) (c : cursor) : cursor :=
  mkCursor (pptr c) (out c ++ [b]).

(** [pptr++] *)
Definition incr (c : cursor) : cursor := mkCursor (S (pptr c)) (out c).

(** VGA.cpp 202-206: one source byte, two packed 3-bit pixels. *)
Definition unpack1 (src : list Z) (c : cursor) : cursor :=
  let pixelBits := rd src (pptr c) in
  let c := emit (pixelBits &&& 7) c in
  let pixelBits := pixelBits >>> 4 in
  let c := emit (pixelBits &&& 7) c in
  incr c.

(** VGA.cpp 326-332: the same, each pixel written twice. *)
Definition unpack2 (src : list Z) (c : cursor) : cursor :=
  let pixelBits := rd src (pptr c) in
  let c := emit (pixelBits &&& 7) c in
  let c := emit (pixelBits &&& 7) c in
  let pixelBits := pixelBits >>> 4 in
  let c := emit (pixelBits &&& 7) c in
  let c := emit (pixelBits &&& 7) c in
  incr c.

(** VGA.cpp 235-236: [*(bbptr++) = *pptr; *(bbptr++) = *(pptr++);] *)
Definition dup8 (src : list Z) (c : cursor) : cursor :=
  let c := emit (rd src (pptr c)) c in
  let c := emit (rd src (pptr c)) c in
  incr c.

(** The bodies of the unrolled inner loops. *)
Definition body_s1_b3 (src : list Z) : cursor -> cursor := Nat.iter 5 (unpack1 src).
Definition body_s2_b8 (src : list Z) : cursor -> cursor := Nat.iter 40 (dup8 src).
Definition body_s2_b3 (src : list Z) : cursor -> cursor := Nat.iter 5 (unpack2 src).

(** [for (x = ...; x < frameWidth; x += stride) body], with fuel. *)
Fixpoint for_x (fuel x frameWidth stride : nat) (body : cursor -> cursor)
    (c : cursor) : cursor :=
  match fuel with
  | 0 => c
  | S fuel' =>
    if x <? frameWidth
    then for_x fuel' (x + stride) frameWidth stride body (body c)
    else c
  end.

(** The inner loop of each line, from [x = 0], with fuel [frameWidth]. *)
Definition x_loop (frameWidth stride : nat) (body : cursor -> cursor)
    (c : cursor) : cursor :=
  for_x frameWidth 0 frameWidth stride body c.

(** [memcpy(bbptr, lineptr, screenWidth); bbptr += screenWidth;] *)
Definition copy_line (lineptr screenWidth : nat) (c : cursor) : cursor :=
  mkCursor (pptr c) (out c ++ slice (out c) lineptr screenWidth).

(** One line at scale 2 (VGA.cpp 232-317 and 323-363): remember
    [lineptr], convert a physical line, then copy it once more. *)
Definition line_x2 (frameWidth screenWidth stride : nat)
    (body : cursor -> cursor) (c : cursor) : cursor :=
  let lineptr := length (out c) in
  copy_line lineptr screenWidth (x_loop frameWidth stride body c).

(** [for (y = 0; y < lines; y++) f] *)
Fixpoint for_y (lines : nat) (f : cursor -> cursor) (c : cursor) : cursor :=
  match lines with
  | 0 => c
  | S n => for_y n f (f c)
  end.

(** The bytes [VGA::bounceEvent] writes into [bounce_buf], from its start
    (VGA.cpp 183-365). An unsupported scale or depth writes nothing. *)
Definition bounce_fill (v : VGA) (pos_px len_bytes : nat) : list Z :=
  let div := frameScale v * frameScale v in
  let pixelsPerByte := if colorBits v =? 3 then 2 else 1 in
  let src := frameBuffer v (frameBufferIndex v) in
  let p := pos_px / (div * pixelsPerByte) in
  let pixelsToCopy := len_bytes / div in
  let lines := pixelsToCopy / frameWidth v in
  let c0 := mkCursor p [] in
  if (frameScale v =? 1) && (colorBits v =? 8) then
    slice src p len_bytes
  else if (frameScale v =? 1) && (colorBits v =? 3) then
    out (for_y lines (x_loop (frameWidth v) 10 (body_s1_b3 src)) c0)
  else if (frameScale v =? 2) && (colorBits v =? 8) then
    out (for_y lines
           (line_x2 (frameWidth v) (screenWidth v) 40 (body_s2_b8 src)) c0)
  else if (frameScale v =? 2) && (colorBits v =? 3) then
    out (for_y lines
           (line_x2 (frameWidth v) (screenWidth v) 10 (body_s2_b3 src)) c0)
  else [].

(** ** The specification *)

(** Logical sample [li] of a buffer: a byte in [Direct8]; in [Packed3x2]
    the low three bits of byte [li / 2] for even [li], bits 4-6 for odd. *)
Definition depth_expand (bits : nat) (src : list Z) (li : nat) : Z :=
  if bits =? 3 then
    let b := rd src (li / 2) in
    if li mod 2 =? 0 then b &&& 7 else (b >>> 4) &&& 7
  else rd src li.

(** The physical pixel at flattened offset [off] of the screen. *)
Definition phys_pixel (v : VGA) (off : nat) : Z :=
  let row := off / screenWidth v in
  let col := off mod screenWidth v in
  depth_expand (colorBits v) (frameBuffer v (frameBufferIndex v))
    (row / frameScale v * frameWidth v + col / frameScale v).

Definition produce_ref (v : VGA) (pos len : nat) : list Z :=
  map (phys_pixel v) (seq pos len).

(** The modes the code converts, and the unrolling of each. *)
Definition supported (v : VGA) : bool :=
  ((frameScale v =? 1) || (frameScale v =? 2))
  && ((colorBits v =? 3) || (colorBits v =? 8)).

Definition unroll (v : VGA) : nat :=
  if (frameScale v =? 1) && (colorBits v =? 8) then 1
  else if (frameScale v =? 2) && (colorBits v =? 8) then 40
  else 10.

Definition geometry_ok (v : VGA) : bool :=
  supported v && (0 <? frameWidth v)
  && (screenWidth v =? frameScale v * frameWidth v)
  && (frameWidth v mod unroll v =? 0).

(** A request of whole logical lines. *)
Definition aligned (v : VGA) (pos len : nat) : bool :=
  let blk := frameScale v * screenWidth v in
  (pos mod blk =? 0) && (len mod blk =? 0).

(** The [Packed3x2] layout of the spec (section 3): pixel [a] in bits
    0-2, pixel [b] in bits 4-6 of one byte. The drawing code that packs
    is the application's, not this driver's. *)
Definition pack3x2 (a b : Z) : Z := Z.lor a (Z.shiftl b 4).

(** ** Shapes used by the proofs *)

(** What every unrolled step does: read the source byte at [pptr], write
    [f] of it, advance [pptr]. *)
Definition consume (f : Z -> list Z) (src : list Z) (c : cursor) : cursor :=
  mkCursor (S (pptr c)) (out c ++ f (rd src (pptr c))).

Definition twice (b : Z) : list Z := [b; b].
Definition nibbles (b : Z) : list Z := [b &&& 7; (b >>> 4) &&& 7].
Definition nibbles_x2 (b : Z) : list Z :=
  [b &&& 7; b &&& 7; (b >>> 4) &&& 7; (b >>> 4) &&& 7].

(** The bytes written for [m] source bytes from [p]. *)
Definition run (f : Z -> list Z) (src : list Z) (p m : nat) : list Z :=
  concat (map (fun i => f (rd src (p + i))) (seq 0 m)).

(** A 3-bit pixel value. *)
Definition pix3 (x : Z) : Prop := (0 <= x < 8)%Z.

(** ** The unrolled steps *)

Lemma unpack1_consume src c : unpack1 src c = consume nibbles src c.
Proof. unfold unpack1, consume, emit, incr, nibbles. simpl. now rewrite <- !app_assoc. Qed.

Lemma unpack2_consume src c : unpack2 src c = consume nibbles_x2 src c.
Proof. unfold unpack2, consume, emit, incr, nibbles_x2. simpl. now rewrite <- !app_assoc. Qed.

Lemma dup8_consume src c : dup8 src c = consume twice src c.
Proof. unfold dup8, consume, emit, incr, twice. simpl. now rewrite <- !app_assoc. Qed.

Lemma run_S f src p m : run f src p (S m) = run f src p m ++ f (rd src (p + m)).
Proof.
  unfold run. rewrite seq_S, map_app, concat_app. cbn [map concat].
  now rewrite app_nil_r.
Qed.

Lemma iter_consume f src m p o :
  Nat.iter m (consume f src) (mkCursor p o) = mkCursor (p + m) (o ++ run f src p m).
Proof.
  induction m as [|m IH].
  - cbn. now rewrite Nat.add_0_r, app_nil_r.
  - change (consume f src (Nat.iter m (consume f src) (mkCursor p o))
            = mkCursor (p + S m) (o ++ run f src p (S m))).
    rewrite IH, run_S. unfold consume. cbn [pptr out].
    rewrite app_assoc. f_equal. lia.
Qed.

Lemma length_run f w src p m :
  (forall b, length (f b) = w) -> length (run f src p m) = m * w.
Proof. intros Hf. apply length_concat_uniform. intros. apply Hf. Qed.

Lemma rd_run f w src p m j :
  (forall b, length (f b) = w) -> j < m * w ->
  rd (run f src p m) j = rd (f (rd src (p + j / w))) (j mod w).
Proof. intros Hf Hj. unfold run. now rewrite (rd_concat_uniform _ w m). Qed.

(** ** Termination of the inner loop *)

Lemma for_x_count fuel x fw stride body c :
  0 < stride -> fw - x <= fuel ->
  for_x fuel x fw stride body c = Nat.iter ((fw - x + stride - 1) / stride) body c.
Proof.
  revert x c. induction fuel as [|fuel IH]; intros x c Hs Hf.
  - cbn. rewrite Nat.div_small by lia. reflexivity.
  - cbn [for_x]. destruct (Nat.ltb_spec x fw) as [Hx | Hx].
    + rewrite IH by lia. rewrite (ceil_div_step fw x stride) by lia.
      now rewrite Nat.iter_succ_r.
    + rewrite Nat.div_small by lia. reflexivity.
Qed.

Lemma x_loop_iter fw stride body c :
  0 < stride -> fw mod stride = 0 ->
  x_loop fw stride body c = Nat.iter (fw / stride) body c.
Proof.
  intros Hs Hm. unfold x_loop. rewrite for_x_count by lia.
  rewrite Nat.sub_0_r. set (q := fw / stride).
  assert (Hq : fw = q * stride).
  { pose proof (Nat.div_mod_eq fw stride). subst q. lia. }
  replace ((fw + stride - 1) / stride) with q; [reflexivity|].
  rewrite Hq. now rewrite ceil_div_exact.
Qed.

(** One line's inner loop over an unrolled body of [k] steps. *)
Lemma x_loop_run step f src fw stride k p o :
  (forall c, step c = consume f src c) -> 0 < stride -> fw mod stride = 0 ->
  x_loop fw stride (Nat.iter k step) (mkCursor p o)
  = mkCursor (p + fw / stride * k) (o ++ run f src p (fw / stride * k)).
Proof.
  intros Hstep Hs Hm. rewrite x_loop_iter, iter_mul by assumption.
  rewrite (iter_ext _ (consume f src)) by exact Hstep.
  apply iter_consume.
Qed.

(** A scale-2 line: the converted physical line, then its copy. *)
Lemma line_x2_run step f w src fw sw stride k p o :
  (forall c, step c = consume f src c) -> (forall b, length (f b) = w) ->
  0 < stride -> fw mod stride = 0 -> fw / stride * k * w = sw ->
  line_x2 fw sw stride (Nat.iter k step) (mkCursor p o)
  = mkCursor (p + fw / stride * k)
      (o ++ (run f src p (fw / stride * k) ++ run f src p (fw / stride * k))).
Proof.
  intros Hstep Hw Hs Hm Hsw. unfold line_x2, copy_line. cbn [out].
  rewrite (x_loop_run step f src) by assumption. cbn [pptr out].
  rewrite slice_app_block_len by (rewrite (length_run f w) by exact Hw; lia).
  now rewrite app_assoc.
Qed.

(** The outer loop over [lines] lines, each advancing [pptr] by [step]. *)
Lemma for_y_lines (f : cursor -> cursor) (step : nat) (F : nat -> list Z) n p o :
  (forall p o, f (mkCursor p o) = mkCursor (p + step) (o ++ F p)) ->
  for_y n f (mkCursor p o)
  = mkCursor (p + n * step) (o ++ concat (map (fun y => F (p + y * step)) (seq 0 n))).
Proof.
  intros Hf. revert p o. induction n as [|n IH]; intros p o.
  - cbn. now rewrite Nat.add_0_r, app_nil_r.
  - cbn [for_y]. rewrite Hf, IH. cbn [seq map concat].
    rewrite <- seq_shift, map_map, <- app_assoc, Nat.add_0_r. f_equal; [lia|].
    do 3 f_equal. apply map_ext. intros y. f_equal. lia.
Qed.

(** How many bytes the loops write, whether or not the unrolling divides
    the width. *)
Lemma length_for_y n f w c :
  (forall c, length (out (f c)) = length (out c) + w) ->
  length (out (for_y n f c)) = length (out c) + n * w.
Proof.
  intros Hf. revert c. induction n as [|n IH]; intros c; cbn [for_y]; [lia|].
  rewrite IH, Hf. lia.
Qed.

Lemma length_line_x2 step f w src fw sw stride k c :
  (forall c, step c = consume f src c) -> (forall b, length (f b) = w) -> 0 < stride ->
  length (out (line_x2 fw sw stride (Nat.iter k step) c))
  = length (out c) + (fw + stride - 1) / stride * k * w + sw.
Proof.
  intros Hstep Hw Hs. destruct c as [p o].
  unfold line_x2, copy_line, x_loop. rewrite for_x_count by lia.
  rewrite iter_mul, (iter_ext _ (consume f src)) by exact Hstep.
  rewrite iter_consume. cbn [out]. rewrite !length_app, length_slice.
  rewrite (length_run f w) by exact Hw. rewrite Nat.sub_0_r. lia.
Qed.

(** ** The branches of [bounce_fill] as lines of converted bytes *)

Lemma rd_twice b t : t < 2 -> rd (twice b) t = b.
Proof. intros. destruct t as [|[|t]]; [reflexivity|reflexivity|lia]. Qed.

Lemma rd_nibbles b t :
  t < 2 -> rd (nibbles b) t = if t =? 0 then b &&& 7 else (b >>> 4) &&& 7.
Proof. intros. destruct t as [|[|t]]; [reflexivity|reflexivity|lia]. Qed.

Lemma rd_nibbles_x2 b t :
  t < 4 -> rd (nibbles_x2 b) t = if t / 2 =? 0 then b &&& 7 else (b >>> 4) &&& 7.
Proof. intros. destruct t as [|[|[|[|t]]]]; try reflexivity; lia. Qed.

Lemma length_twice b : length (twice b) = 2.
Proof. reflexivity. Qed.
Lemma length_nibbles b : length (nibbles b) = 2.
Proof. reflexivity. Qed.
Lemma length_nibbles_x2 b : length (nibbles_x2 b) = 4.
Proof. reflexivity. Qed.

Lemma for_y_x1 step f src fw stride k m n p :
  (forall c, step c = consume f src c) ->
  0 < stride -> fw mod stride = 0 -> fw / stride * k = m ->
  out (for_y n (x_loop fw stride (Nat.iter k step)) (mkCursor p []))
  = concat (map (fun y => run f src (p + y * m) m) (seq 0 n)).
Proof.
  intros Hstep Hs Hm Hk. subst m.
  rewrite (for_y_lines _ (fw / stride * k) (fun p => run f src p (fw / stride * k))).
  - reflexivity.
  - intros p' o. now apply (x_loop_run step f src).
Qed.

Lemma for_y_x2 step f w src fw sw stride k m n p :
  (forall c, step c = consume f src c) -> (forall b, length (f b) = w) ->
  0 < stride -> fw mod stride = 0 -> fw / stride * k = m -> m * w = sw ->
  out (for_y n (line_x2 fw sw stride (Nat.iter k step)) (mkCursor p []))
  = concat (map (fun y => run f src (p + y * m) m ++ run f src (p + y * m) m)
                (seq 0 n)).
Proof.
  intros Hstep Hw Hs Hm Hk Hsw. subst m.
  rewrite (for_y_lines _ (fw / stride * k)
             (fun p => run f src p (fw / stride * k) ++ run f src p (fw / stride * k))).
  - reflexivity.
  - intros p' o. now apply (line_x2_run step f w src).
Qed.

Section Branches.
Variable v : VGA.
Let src := frameBuffer v (frameBufferIndex v).
Let fw := frameWidth v.

Lemma bounce_fill_s1b8 pos len :
  frameScale v = 1 -> colorBits v = 8 ->
  bounce_fill v pos len = slice src pos len.
Proof.
  intros Hs Hb. unfold bounce_fill. rewrite Hs, Hb. cbn -[Nat.div].
  now rewrite Nat.div_1_r.
Qed.

Lemma bounce_fill_s1b3 pos len :
  frameScale v = 1 -> colorBits v = 3 -> fw mod 10 = 0 ->
  bounce_fill v pos len
  = concat (map (fun y => run nibbles src (pos / 2 + y * (fw / 2)) (fw / 2))
                (seq 0 (len / fw))).
Proof.
  intros Hs Hb Hu. unfold bounce_fill. rewrite Hs, Hb. cbn -[Nat.div x_loop].
  rewrite Nat.div_1_r.
  apply (for_y_x1 (unpack1 src)); [apply unpack1_consume | lia | exact Hu | vlia].
Qed.

Lemma bounce_fill_s2b8 pos len :
  frameScale v = 2 -> colorBits v = 8 -> screenWidth v = 2 * fw ->
  fw mod 40 = 0 ->
  bounce_fill v pos len
  = concat (map (fun y => run twice src (pos / 4 + y * fw) fw
                          ++ run twice src (pos / 4 + y * fw) fw)
                (seq 0 (len / 4 / fw))).
Proof.
  intros Hs Hb Hsw Hu. unfold bounce_fill. rewrite Hs, Hb. cbn -[Nat.div line_x2].
  apply (for_y_x2 (dup8 src) twice 2);
    [apply dup8_consume | apply length_twice | lia | exact Hu | vlia | lia].
Qed.

Lemma bounce_fill_s2b3 pos len :
  frameScale v = 2 -> colorBits v = 3 -> screenWidth v = 2 * fw ->
  fw mod 10 = 0 ->
  bounce_fill v pos len
  = concat (map (fun y => run nibbles_x2 src (pos / 8 + y * (fw / 2)) (fw / 2)
                          ++ run nibbles_x2 src (pos / 8 + y * (fw / 2)) (fw / 2))
                (seq 0 (len / 4 / fw))).
Proof.
  intros Hs Hb Hsw Hu. unfold bounce_fill. rewrite Hs, Hb. cbn -[Nat.div line_x2].
  apply (for_y_x2 (unpack2 src) nibbles_x2 4);
    [apply unpack2_consume | apply length_nibbles_x2 | lia | exact Hu | vlia | vlia].
Qed.
End Branches.

(** ** Agreement with the specification, branch by branch *)

Lemma length_produce_ref v pos len : length (produce_ref v pos len) = len.
Proof. unfold produce_ref. now rewrite length_map, length_seq. Qed.

Lemma rd_produce_ref v pos len j :
  j < len -> rd (produce_ref v pos len) j = phys_pixel v (pos + j).
Proof.
  intros Hj. unfold produce_ref. rewrite seq_offset, map_map.
  now rewrite (rd_map_seq (fun x => phys_pixel v (pos + x))).
Qed.

(** The specified picture of an 8-bit front buffer filled with [c]. *)
Lemma produce_ref_const v c :
  colorBits v = 8 -> 0 < frameScale v ->
  screenWidth v = frameScale v * frameWidth v ->
  screenHeight v = frameScale v * frameHeight v ->
  frameBuffer v (frameBufferIndex v) = repeat c (frameWidth v * frameHeight v) ->
  produce_ref v 0 (screenWidth v * screenHeight v) = repeat c (screenWidth v * screenHeight v).
Proof.
  intros Hb Hs Hsw Hsh Hf. unfold produce_ref.
  replace (repeat c (screenWidth v * screenHeight v))
    with (map (fun _ => c) (seq 0 (screenWidth v * screenHeight v)))
    by (now rewrite map_const, length_seq).
  apply map_ext_in. intros off Hoff. apply in_seq in Hoff.
  unfold phys_pixel, depth_expand. rewrite Hb, Hf. cbn [Nat.eqb].
  apply rd_repeat. rewrite Hsw. apply pixel_index_bound; [exact Hs|].
  rewrite <- Hsw, <- Hsh. lia.
Qed.

Section Agreement.
Variable v : VGA.
Let src := frameBuffer v (frameBufferIndex v).
Let fw := frameWidth v.
Let sw := screenWidth v.

Lemma bounce_fill_ref_s1b8 pos len :
  frameScale v = 1 -> colorBits v = 8 -> sw = fw -> 0 < fw ->
  bounce_fill v pos len = produce_ref v pos len.
Proof.
  intros Hs Hb Hsw Hfw. rewrite bounce_fill_s1b8 by assumption.
  apply rd_ext; [now rewrite length_slice, length_produce_ref|].
  intros j Hj. rewrite length_slice in Hj.
  unfold slice. rewrite (rd_map_seq (fun k => rd src (pos + k))) by exact Hj.
  rewrite rd_produce_ref by exact Hj.
  unfold phys_pixel, depth_expand. rewrite Hs, Hb. cbn -[Nat.div Nat.modulo].
  rewrite !Nat.div_1_r. fold sw src fw. rewrite Hsw.
  f_equal. pose proof (Nat.div_mod_eq (pos + j) fw). lia.
Qed.

Lemma bounce_fill_ref_s2b8 pos len :
  frameScale v = 2 -> colorBits v = 8 -> sw = 2 * fw -> 0 < fw ->
  fw mod 40 = 0 -> pos mod (2 * sw) = 0 -> len mod (2 * sw) = 0 ->
  bounce_fill v pos len = produce_ref v pos len.
Proof.
  intros Hs Hb Hsw Hfw Hu Hpos Hlen.
  rewrite bounce_fill_s2b8 by assumption. fold src fw.
  apply Nat.Div0.mod_divides in Hpos as [r ->].
  apply Nat.Div0.mod_divides in Hlen as [n ->].
  assert (Hp0 : 2 * sw * r / 4 = r * fw).
  { rewrite Hsw. replace (2 * (2 * fw) * r) with (r * fw * 4) by lia.
    apply Nat.div_mul; lia. }
  assert (Hn : 2 * sw * n / 4 / fw = n).
  { rewrite Hsw. replace (2 * (2 * fw) * n) with (n * fw * 4) by lia.
    rewrite !Nat.div_mul; lia. }
  rewrite Hp0, Hn.
  assert (HL : forall p, length (run twice src p fw) = sw).
  { intros p. rewrite (length_run twice 2) by apply length_twice. lia. }
  assert (Hline : forall i, i < n ->
    length (run twice src (r * fw + i * fw) fw ++ run twice src (r * fw + i * fw) fw)
    = 2 * sw).
  { intros i _. rewrite length_app, !HL. lia. }
  apply rd_ext.
  - rewrite (length_concat_uniform _ (2 * sw)) by exact Hline.
    rewrite length_produce_ref. lia.
  - intros j Hj. rewrite (length_concat_uniform _ (2 * sw)) in Hj by exact Hline.
    pose proof (Nat.mod_upper_bound j (2 * sw) ltac:(lia)) as Hm.
    rewrite (rd_concat_uniform _ (2 * sw) n) by assumption.
    rewrite rd_dup by (rewrite HL; lia). rewrite HL.
    pose proof (Nat.mod_upper_bound (j mod (2 * sw)) sw ltac:(lia)) as Hc.
    rewrite (rd_run twice 2) by (apply length_twice || lia).
    rewrite rd_twice by (apply Nat.mod_upper_bound; lia).
    rewrite rd_produce_ref by lia.
    unfold phys_pixel, depth_expand. rewrite Hb, Hs. cbn [Nat.eqb]. fold src fw sw.
    destruct (offset_split 2 sw r j) as [H1 H2]; [lia | lia |].
    replace (2 * sw * r + j) with (r * (2 * sw) + j) by lia.
    rewrite H1, H2, Nat.mul_add_distr_r. reflexivity.
Qed.

Lemma bounce_fill_ref_s1b3 pos len :
  frameScale v = 1 -> colorBits v = 3 -> sw = fw -> 0 < fw ->
  fw mod 10 = 0 -> pos mod sw = 0 -> len mod sw = 0 ->
  bounce_fill v pos len = produce_ref v pos len.
Proof.
  intros Hs Hb Hsw Hfw Hu Hpos Hlen.
  rewrite bounce_fill_s1b3 by assumption. fold src fw.
  apply Nat.Div0.mod_divides in Hpos as [r ->].
  apply Nat.Div0.mod_divides in Hlen as [n ->].
  assert (Hh : fw = 2 * (fw / 2)) by vlia.
  set (h := fw / 2) in *.
  assert (Hp0 : sw * r / 2 = r * h).
  { rewrite Hsw, Hh. replace (2 * h * r) with (r * h * 2) by lia.
    apply Nat.div_mul; lia. }
  assert (Hn : sw * n / fw = n).
  { rewrite Hsw. rewrite Nat.mul_comm. apply Nat.div_mul; lia. }
  rewrite Hp0, Hn.
  assert (HL : forall p, length (run nibbles src p h) = sw).
  { intros p. rewrite (length_run nibbles 2) by apply length_nibbles. lia. }
  apply rd_ext.
  - rewrite (length_concat_uniform _ sw) by (intros; apply HL).
    rewrite length_produce_ref. lia.
  - intros j Hj. rewrite (length_concat_uniform _ sw) in Hj by (intros; apply HL).
    rewrite (rd_concat_uniform _ sw n) by (intros; apply HL || lia).
    pose proof (Nat.mod_upper_bound j sw ltac:(lia)) as Hc.
    rewrite (rd_run nibbles 2) by (apply length_nibbles || lia).
    rewrite rd_nibbles by (apply Nat.mod_upper_bound; lia).
    rewrite rd_produce_ref by lia.
    unfold phys_pixel, depth_expand. rewrite Hb, Hs. cbn [Nat.eqb]. fold src fw sw.
    destruct (offset_split 1 sw r j) as [H1 H2]; [lia | lia |].
    replace (sw * r + j) with (r * (1 * sw) + j) by lia.
    rewrite H1, H2, !Nat.div_1_r, !Nat.mul_1_l, Nat.Div0.mod_mod.
    replace ((r + j / sw) * fw + j mod sw) with ((r + j / sw) * (2 * h) + j mod sw)
      by (rewrite <- Hh; reflexivity).
    destruct (half_split (r + j / sw) h (j mod sw)) as [H3 H4].
    rewrite H3, H4, Nat.mul_add_distr_r. reflexivity.
Qed.

Lemma bounce_fill_ref_s2b3 pos len :
  frameScale v = 2 -> colorBits v = 3 -> sw = 2 * fw -> 0 < fw ->
  fw mod 10 = 0 -> pos mod (2 * sw) = 0 -> len mod (2 * sw) = 0 ->
  bounce_fill v pos len = produce_ref v pos len.
Proof.
  intros Hs Hb Hsw Hfw Hu Hpos Hlen.
  rewrite bounce_fill_s2b3 by assumption. fold src fw.
  apply Nat.Div0.mod_divides in Hpos as [r ->].
  apply Nat.Div0.mod_divides in Hlen as [n ->].
  assert (Hh : fw = 2 * (fw / 2)) by vlia.
  set (h := fw / 2) in *.
  assert (Hp0 : 2 * sw * r / 8 = r * h).
  { rewrite Hsw, Hh. replace (2 * (2 * (2 * h)) * r) with (r * h * 8) by lia.
    apply Nat.div_mul; lia. }
  assert (Hn : 2 * sw * n / 4 / fw = n).
  { rewrite Hsw. replace (2 * (2 * fw) * n) with (n * fw * 4) by lia.
    rewrite !Nat.div_mul; lia. }
  rewrite Hp0, Hn.
  assert (HL : forall p, length (run nibbles_x2 src p h) = sw).
  { intros p. rewrite (length_run nibbles_x2 4) by apply length_nibbles_x2. lia. }
  assert (Hline : forall i, i < n ->
    length (run nibbles_x2 src (r * h + i * h) h ++ run nibbles_x2 src (r * h + i * h) h)
    = 2 * sw).
  { intros i _. rewrite length_app, !HL. lia. }
  apply rd_ext.
  - rewrite (length_concat_uniform _ (2 * sw)) by exact Hline.
    rewrite length_produce_ref. lia.
  - intros j Hj. rewrite (length_concat_uniform _ (2 * sw)) in Hj by exact Hline.
    pose proof (Nat.mod_upper_bound j (2 * sw) ltac:(lia)) as Hm.
    rewrite (rd_concat_uniform _ (2 * sw) n) by assumption.
    rewrite rd_dup by (rewrite HL; lia). rewrite HL.
    pose proof (Nat.mod_upper_bound (j mod (2 * sw)) sw ltac:(lia)) as Hc.
    rewrite (rd_run nibbles_x2 4) by (apply length_nibbles_x2 || lia).
    rewrite rd_nibbles_x2 by (apply Nat.mod_upper_bound; lia).
    rewrite rd_produce_ref by lia.
    unfold phys_pixel, depth_expand. rewrite Hb, Hs. cbn [Nat.eqb]. fold src fw sw.
    destruct (offset_split 2 sw r j) as [H1 H2]; [lia | lia |].
    replace (2 * sw * r + j) with (r * (2 * sw) + j) by lia.
    rewrite H1, H2.
    set (c := j mod (2 * sw) mod sw).
    replace ((r + j / (2 * sw)) * fw + c / 2)
      with ((r + j / (2 * sw)) * (2 * h) + c / 2) by (rewrite <- Hh; reflexivity).
    destruct (half_split (r + j / (2 * sw)) h (c / 2)) as [H3 H4].
    rewrite H3, H4, Nat.Div0.div_div, Nat.mul_add_distr_r.
    now rewrite mod4_div2.
Qed.
End Agreement.

(** ** The conversion contract *)

Lemma geometry_ok_cases v :
  geometry_ok v = true ->
  0 < frameWidth v /\ screenWidth v = frameScale v * frameWidth v /\
  ((frameScale v = 1 /\ colorBits v = 8)
   \/ (frameScale v = 1 /\ colorBits v = 3 /\ frameWidth v mod 10 = 0)
   \/ (frameScale v = 2 /\ colorBits v = 8 /\ frameWidth v mod 40 = 0)
   \/ (frameScale v = 2 /\ colorBits v = 3 /\ frameWidth v mod 10 = 0)).
Proof.
  unfold geometry_ok, supported, unroll. intros H.
  rewrite !andb_true_iff, !orb_true_iff in H.
  destruct H as [[[[Hs Hb] Hfw] Hsw] Hu].
  apply Nat.ltb_lt in Hfw. apply Nat.eqb_eq in Hsw, Hu.
  split; [exact Hfw|]. split; [exact Hsw|].
  destruct Hs as [Hs|Hs]; apply Nat.eqb_eq in Hs;
    destruct Hb as [Hb|Hb]; apply Nat.eqb_eq in Hb;
    rewrite Hs, Hb in Hu; cbn in Hu; tauto.
Qed.

(** The conversion agrees with the specification on whole logical lines. *)
Lemma bounce_fill_agrees v pos len :
  geometry_ok v = true -> aligned v pos len = true ->
  bounce_fill v pos len = produce_ref v pos len.
Proof.
  intros Hg Ha. apply geometry_ok_cases in Hg as (Hfw & Hsw & Hcase).
  unfold aligned in Ha. apply andb_true_iff in Ha as [Hp Hl].
  apply Nat.eqb_eq in Hp, Hl.
  destruct Hcase as [[Hs Hb]|[[Hs [Hb Hu]]|[[Hs [Hb Hu]]|[Hs [Hb Hu]]]]];
    rewrite Hs in Hsw, Hp, Hl; rewrite ?Nat.mul_1_l in *.
  - apply bounce_fill_ref_s1b8; auto.
  - apply bounce_fill_ref_s1b3; auto.
  - apply bounce_fill_ref_s2b8; auto.
  - apply bounce_fill_ref_s2b3; auto.
Qed.

(** The physical pixel [off] of the screen reads only the first [fbSize]
    bytes of the front buffer. *)
Lemma phys_pixel_ext v b off :
  geometry_ok v = true -> screenHeight v = frameScale v * frameHeight v ->
  frameBufferIndex v < 2 -> off < screenWidth v * screenHeight v ->
  (forall i, i < fbSize v -> rd b i = rd (frameBuffer v (frameBufferIndex v)) i) ->
  phys_pixel (set_frameBuffer v (frameBufferIndex v) b) off = phys_pixel v off.
Proof.
  intros Hg Hsh Hidx Hoff Hb.
  destruct (geometry_ok_cases v Hg) as (Hfw & Hsw & Hcase).
  assert (Hs : 0 < frameScale v) by (destruct Hcase as [[->]|[[->]|[[->]|[->]]]]; lia).
  assert (Hli : (off / screenWidth v) / frameScale v * frameWidth v
                + (off mod screenWidth v) / frameScale v < frameWidth v * frameHeight v).
  { rewrite Hsw. apply pixel_index_bound; [exact Hs|]. rewrite <- Hsw, <- Hsh. exact Hoff. }
  unfold phys_pixel, depth_expand, fbSize in *. cbn [screenWidth frameScale frameWidth
    colorBits frameBufferIndex set_frameBuffer] in *.
  replace (frameBuffer (set_frameBuffer v (frameBufferIndex v) b) (frameBufferIndex v)) with b
    by (destruct (frameBufferIndex v) as [|[|]]; [reflexivity | reflexivity | lia]).
  destruct (colorBits v =? 3) eqn:H3.
  - apply Nat.eqb_eq in H3. rewrite Hb; [reflexivity|].
    apply half_index; [exact Hli|]. apply even_product.
    destruct Hcase as [[_ H8]|[[_ [_ Hu]]|[[_ [H8 _]]|[_ [_ Hu]]]]];
      [lia | exact Hu | lia | exact Hu].
  - now rewrite Hb.
Qed.

(** C1. With a supported geometry and a request of whole logical lines,
    [bounceEvent] writes exactly the specified physical pixels. *)
Theorem bounce_fill_correct v pos len :
  geometry_ok v = true -> aligned v pos len = true ->
  bounce_fill v pos len = produce_ref v pos len.
Proof. apply bounce_fill_agrees. Qed.

(** ** Invariant of the packed branches: 3-bit output *)

Lemma pix3_emit_land x c :
  Forall pix3 (out c) -> Forall pix3 (out (emit (x &&& 7) c)).
Proof.
  intros H. cbn. apply Forall_app. split; [exact H|].
  constructor; [apply land7_range | constructor].
Qed.

Lemma pix3_unpack1 src c : Forall pix3 (out c) -> Forall pix3 (out (unpack1 src c)).
Proof. intros H. unfold unpack1, incr. cbn [out]. now do 2 apply pix3_emit_land. Qed.

Lemma pix3_unpack2 src c : Forall pix3 (out c) -> Forall pix3 (out (unpack2 src c)).
Proof. intros H. unfold unpack2, incr. cbn [out]. now do 4 apply pix3_emit_land. Qed.

Section LoopInvariant.
Variable P : list Z -> Prop.

Lemma iter_preserves (f : cursor -> cursor) n c :
  (forall c, P (out c) -> P (out (f c))) -> P (out c) -> P (out (Nat.iter n f c)).
Proof.
  intros Hf Hc. induction n as [|n IH]; [exact Hc|].
  change (P (out (f (Nat.iter n f c)))). now apply Hf.
Qed.

Lemma for_x_preserves fuel x fw stride body c :
  (forall c, P (out c) -> P (out (body c))) -> P (out c) ->
  P (out (for_x fuel x fw stride body c)).
Proof.
  intros Hb. revert x c. induction fuel as [|fuel IH]; intros x c Hc; [exact Hc|].
  cbn [for_x]. destruct (x <? fw); [apply IH, Hb, Hc | exact Hc].
Qed.

Lemma for_y_preserves lines f c :
  (forall c, P (out c) -> P (out (f c))) -> P (out c) -> P (out (for_y lines f c)).
Proof.
  intros Hf. revert c. induction lines as [|n IH]; intros c Hc; [exact Hc|].
  cbn [for_y]. apply IH, Hf, Hc.
Qed.
End LoopInvariant.

Lemma pix3_line_x2 fw sw stride body c :
  (forall c, Forall pix3 (out c) -> Forall pix3 (out (body c))) ->
  Forall pix3 (out c) -> Forall pix3 (out (line_x2 fw sw stride body c)).
Proof.
  intros Hb Hc. unfold line_x2, copy_line, x_loop. cbn [out].
  assert (H : Forall pix3 (out (for_x fw 0 fw stride body c)))
    by (apply for_x_preserves; assumption).
  apply Forall_app. split; [exact H|].
  apply Forall_slice; [exact H | unfold pix3; lia].
Qed.

(** C17. In 3-bit colour, every byte [bounceEvent] writes is a 3-bit pixel,
    whatever the geometry and the request. *)
Theorem bounce_fill_3bit_range v pos len :
  colorBits v = 3 -> Forall pix3 (bounce_fill v pos len).
Proof.
  intros Hb. unfold bounce_fill. rewrite Hb. cbn [Nat.eqb andb].
  assert (H0 : Forall pix3 []) by constructor.
  destruct (frameScale v =? 1); [|destruct (frameScale v =? 2)]; cbn -[Nat.div x_loop line_x2].
  - apply for_y_preserves; [|exact H0]. intros c Hc. unfold x_loop.
    apply for_x_preserves; [|exact Hc].
    intros c' Hc'. unfold body_s1_b3. apply iter_preserves; [apply pix3_unpack1 | exact Hc'].
  - apply for_y_preserves; [|exact H0]. intros c Hc. apply pix3_line_x2; [|exact Hc].
    intros c' Hc'. unfold body_s2_b3. apply iter_preserves; [apply pix3_unpack2 | exact Hc'].
  - exact H0.
Qed.

(** ** Scale 2: lines written twice, never more than requested *)

Lemma scale2_shape v pos len :
  frameScale v = 2 -> geometry_ok v = true ->
  exists F : nat -> list Z,
    (forall y, length (F y) = screenWidth v)
    /\ bounce_fill v pos len
       = concat (map (fun y => F y ++ F y) (seq 0 (len / 4 / frameWidth v))).
Proof.
  intros Hs2 Hg. apply geometry_ok_cases in Hg as (Hfw & Hsw & Hcase).
  rewrite Hs2 in Hsw.
  destruct Hcase as [[Hs Hb]|[[Hs [Hb Hu]]|[[Hs [Hb Hu]]|[Hs [Hb Hu]]]]];
    try (rewrite Hs in Hs2; discriminate).
  - eexists. split.
    2: (rewrite bounce_fill_s2b8 by assumption; reflexivity).
    intros y. cbv beta. rewrite (length_run twice 2) by apply length_twice. lia.
  - eexists. split.
    2: (rewrite bounce_fill_s2b3 by assumption; reflexivity).
    intros y. cbv beta. rewrite (length_run nibbles_x2 4) by apply length_nibbles_x2.
    rewrite Hsw. clear -Hu. vlia.
Qed.

(** C16. At scale 2, in a supported geometry ([geometry_ok]: 3 or 8
    bits, [screenWidth = 2 * frameWidth], a width that is a multiple of
    the unrolling), every physical line written is written again right
    after it: byte [k] of an even line equals byte [k + screenWidth]. *)
Theorem bounce_fill_line_doubled v pos len k :
  frameScale v = 2 -> geometry_ok v = true ->
  k < length (bounce_fill v pos len) ->
  k mod (2 * screenWidth v) < screenWidth v ->
  rd (bounce_fill v pos len) (k + screenWidth v) = rd (bounce_fill v pos len) k.
Proof.
  intros Hs Hg Hk Hm. destruct (scale2_shape v pos len Hs Hg) as [F [HF Hout]].
  rewrite Hout in *. apply rd_concat_dup; [exact HF | | exact Hm].
  rewrite (length_concat_uniform _ (2 * screenWidth v)) in Hk
    by (intros; rewrite length_app, HF; lia).
  exact Hk.
Qed.

(** C15. [bounceEvent] never writes more bytes than the chunk it was asked for,
    for any position and length, when the geometry is supported. *)
Theorem bounce_fill_within_len v pos len :
  geometry_ok v = true -> length (bounce_fill v pos len) <= len.
Proof.
  intros Hg. pose proof Hg as Hg'.
  apply geometry_ok_cases in Hg as (Hfw & Hsw & Hcase).
  destruct Hcase as [[Hs Hb]|[[Hs [Hb Hu]]|[[Hs [Hb Hu]]|[Hs [Hb Hu]]]]].
  - rewrite bounce_fill_s1b8, length_slice by assumption. lia.
  - rewrite bounce_fill_s1b3 by assumption.
    rewrite (length_concat_uniform _ (frameWidth v)).
    + pose proof (Nat.Div0.mul_div_le len (frameWidth v)). lia.
    + intros y _. rewrite (length_run nibbles 2) by apply length_nibbles.
      clear -Hu. vlia.
  - destruct (scale2_shape v pos len Hs Hg') as [F [HF ->]].
    rewrite (length_concat_uniform _ (2 * screenWidth v))
      by (intros; rewrite length_app, HF; lia).
    pose proof (Nat.Div0.mul_div_le (len / 4) (frameWidth v)). vlia.
  - destruct (scale2_shape v pos len Hs Hg') as [F [HF ->]].
    rewrite (length_concat_uniform _ (2 * screenWidth v))
      by (intros; rewrite length_app, HF; lia).
    pose proof (Nat.Div0.mul_div_le (len / 4) (frameWidth v)). vlia.
Qed.

(** ** Requests and geometries outside the contract *)

(** An unsupported scale or depth writes nothing (VGA.cpp 192-365 have
    no branch for it). *)
Lemma bounce_fill_unsupported v pos len :
  supported v = false -> bounce_fill v pos len = [].
Proof.
  unfold supported, bounce_fill. intros H.
  destruct (frameScale v =? 1), (frameScale v =? 2), (colorBits v =? 3), (colorBits v =? 8);
    try discriminate; reflexivity.
Qed.

(** C25. At scale 2 a request shorter than two physical lines converts
    nothing, so a single-line request (the spec's own example) gets no
    bytes. *)
Theorem bounce_fill_short_request v pos len :
  frameScale v = 2 -> screenWidth v = 2 * frameWidth v ->
  len < 2 * screenWidth v -> bounce_fill v pos len = [].
Proof.
  intros Hs Hsw Hl. unfold bounce_fill. rewrite Hs.
  replace (len / (2 * 2) / frameWidth v) with 0
    by (symmetry; rewrite Nat.Div0.div_div; apply Nat.div_small; lia).
  cbn -[Nat.div]. destruct (colorBits v =? 8), (colorBits v =? 3); reflexivity.
Qed.

(** At scale 2 a chunk of [35] lines (the 640x350 mode, whose bounce
    buffer holds [350 / 10] lines) starting at line 35 is converted as 34
    lines: the last physical line of the chunk is never written. *)
Theorem bounce_fill_odd_chunk_short v :
  frameScale v = 2 -> colorBits v = 8 -> frameWidth v = 320 -> screenWidth v = 640 ->
  length (bounce_fill v (35 * 640) (35 * 640)) = 34 * 640.
Proof.
  intros Hs Hb Hfw Hsw.
  rewrite bounce_fill_s2b8 by (rewrite ?Hs, ?Hb, ?Hfw, ?Hsw; reflexivity).
  rewrite (length_concat_uniform _ 1280).
  - rewrite Hfw. vlia.
  - intros i _. rewrite length_app, !(length_run twice 2) by apply length_twice.
    rewrite Hfw. reflexivity.
Qed.

(** C24. The length of what the scale-2, 8-bit branch writes
    (VGA.cpp 232-317): each line runs the unrolled body of 40 pixels
    [ceil (frameWidth / 40)] times, writing 80 bytes each time, then
    copies [screenWidth] bytes. When [frameWidth] is not a multiple of 40,
    a request of whole logical lines gets more bytes than it asked for:
    the last unrolled iteration runs past the end of the line, and
    [bounceEvent] writes past [bounce_buf]. *)
Theorem bounce_fill_overrun v pos len :
  frameScale v = 2 -> colorBits v = 8 -> screenWidth v = 2 * frameWidth v ->
  length (bounce_fill v pos len)
    = len / 4 / frameWidth v * (80 * ((frameWidth v + 39) / 40) + screenWidth v)
  /\ (frameWidth v mod 40 <> 0 -> 0 < len / 4 / frameWidth v ->
      len mod (4 * frameWidth v) = 0 -> len < length (bounce_fill v pos len)).
Proof.
  intros Hs Hb Hsw.
  assert (HL : length (bounce_fill v pos len)
               = len / 4 / frameWidth v * (80 * ((frameWidth v + 39) / 40) + screenWidth v)).
  { unfold bounce_fill. rewrite Hs, Hb. cbn -[Nat.div line_x2 body_s2_b8].
    rewrite (length_for_y _ _ ((frameWidth v + 40 - 1) / 40 * 40 * 2 + screenWidth v)).
    - cbn [out length]. replace (frameWidth v + 40 - 1) with (frameWidth v + 39) by lia. lia.
    - intros c. unfold body_s2_b8. rewrite (length_line_x2 _ twice 2 (frameBuffer v (frameBufferIndex v)));
        [lia | apply dup8_consume | apply length_twice | lia]. }
  split; [exact HL|]. intros Hm Hl Hd. rewrite HL, Hsw.
  rewrite Nat.Div0.div_div in Hl |- *.
  pose proof (Nat.div_mod_eq len (4 * frameWidth v)) as Hq. rewrite Hd, Nat.add_0_r in Hq.
  set (k := len / (4 * frameWidth v)) in *.
  assert (Hc : frameWidth v < 40 * ((frameWidth v + 39) / 40)) by (clear -Hm; vlia).
  rewrite Hq at 1. nia.
Qed.

(** C26. At scale 2 a request that starts on an odd physical line reads from
    the middle of a logical line: for a request at line 1 the first byte
    is logical pixel [frameWidth / 2], where the specification has
    logical pixel 0. *)
Theorem bounce_fill_odd_line v :
  frameScale v = 2 -> colorBits v = 8 -> screenWidth v = 2 * frameWidth v ->
  0 < frameWidth v -> frameWidth v mod 40 = 0 ->
  rd (bounce_fill v (screenWidth v) (2 * screenWidth v)) 0
    = rd (frameBuffer v (frameBufferIndex v)) (frameWidth v / 2)
  /\ rd (produce_ref v (screenWidth v) (2 * screenWidth v)) 0
    = rd (frameBuffer v (frameBufferIndex v)) 0.
Proof.
  intros Hs Hb Hsw Hfw Hu. split.
  - rewrite bounce_fill_s2b8 by assumption.
    replace (2 * screenWidth v / 4 / frameWidth v) with 1
      by (rewrite Hsw; replace (2 * (2 * frameWidth v)) with (1 * frameWidth v * 4) by lia;
          rewrite !Nat.div_mul; lia).
    replace (screenWidth v / 4) with (frameWidth v / 2) by (rewrite Hsw; clear -Hu; vlia).
    cbn [seq map concat]. rewrite app_nil_r.
    assert (HL : length (run twice (frameBuffer v (frameBufferIndex v))
                          (frameWidth v / 2 + 0 * frameWidth v) (frameWidth v))
                 = frameWidth v * 2)
      by (apply (length_run twice 2), length_twice).
    rewrite rd_app_l by lia.
    rewrite (rd_run twice 2) by (apply length_twice || lia).
    rewrite rd_twice by (cbn; lia). f_equal. cbn. lia.
  - rewrite rd_produce_ref by lia. unfold phys_pixel, depth_expand. rewrite Hs, Hb.
    cbn [Nat.eqb]. rewrite Nat.add_0_r, Nat.div_same, Nat.Div0.mod_same by lia.
    reflexivity.
Qed.

(** The two 3-bit fields of a packed byte, as the unrolled steps read
    them: [pixelBits & 0b111], then [(pixelBits >> 4) & 0b111]. *)
Lemma pix3_cases (x : Z) :
  (0 <= x < 8)%Z -> (x = 0 \/ x = 1 \/ x = 2 \/ x = 3 \/ x = 4 \/ x = 5 \/ x = 6 \/ x = 7)%Z.
Proof. lia. Qed.

Lemma pack3x2_lo a b : (0 <= a < 8)%Z -> (0 <= b < 8)%Z -> pack3x2 a b &&& 7 = a.
Proof.
  intros Ha Hb. apply pix3_cases in Ha, Hb.
  repeat destruct Ha as [->|Ha]; repeat destruct Hb as [->|Hb]; subst; reflexivity.
Qed.

Lemma pack3x2_hi a b : (0 <= a < 8)%Z -> (0 <= b < 8)%Z -> (pack3x2 a b >>> 4) &&& 7 = b.
Proof.
  intros Ha Hb. apply pix3_cases in Ha, Hb.
  repeat destruct Ha as [->|Ha]; repeat destruct Hb as [->|Hb]; subst; reflexivity.
Qed.

(** C29. Round trip of the packed format: the unrolled step of the 3-bit
    branch reads back, in column order, the two 3-bit pixels packed into
    a byte, and advances one source byte. *)
Theorem unpack1_pack3x2 a b :
  (0 <= a < 8)%Z -> (0 <= b < 8)%Z ->
  unpack1 [pack3x2 a b] (mkCursor 0 []) = mkCursor 1 [a; b].
Proof.
  intros Ha Hb. unfold unpack1, emit, incr. cbn [pptr out rd nth].
  now rewrite (pack3x2_lo a b Ha Hb), (pack3x2_hi a b Ha Hb).
Qed.

(** C30. Round trip at scale 2: the unrolled step of the scale-2, 3-bit
    branch (VGA.cpp 326-332) writes each of the two packed pixels twice,
    in column order, and advances one source byte. *)
Theorem unpack2_pack3x2 a b :
  (0 <= a < 8)%Z -> (0 <= b < 8)%Z ->
  unpack2 [pack3x2 a b] (mkCursor 0 []) = mkCursor 1 [a; a; b; b].
Proof.
  intros Ha Hb. unfold unpack2, emit, incr. cbn [pptr out rd nth].
  now rewrite (pack3x2_lo a b Ha Hb), (pack3x2_hi a b Ha Hb).
Qed.

(** C13. Memory safety of the conversion: for a request inside the
    contract, the bytes [bounceEvent] writes depend only on the first
    [fbSize] bytes of the front buffer. Whatever lies past the block
    [init] allocated, the output is the same, so no read leaves it. *)
Theorem bounce_fill_in_bounds v b pos len :
  geometry_ok v = true -> aligned v pos len = true ->
  screenHeight v = frameScale v * frameHeight v -> frameBufferIndex v < 2 ->
  pos + len <= screenWidth v * screenHeight v ->
  (forall i, i < fbSize v -> rd b i = rd (frameBuffer v (frameBufferIndex v)) i) ->
  bounce_fill (set_frameBuffer v (frameBufferIndex v) b) pos len = bounce_fill v pos len.
Proof.
  intros Hg Ha Hsh Hidx Hin Hb.
  rewrite (bounce_fill_agrees v) by assumption.
  rewrite (bounce_fill_agrees (set_frameBuffer v (frameBufferIndex v) b)) by assumption.
  unfold produce_ref. apply map_ext_in. intros off Hoff. apply in_seq in Hoff.
  apply phys_pixel_ext; auto. lia.
Qed.

End Convert.
