(* ===== verification/Sync.v ===== *)
(** * Sync: the frame hand-off between the drawing task and the interrupt

    VGA.cpp 162-166 ([vsyncWait]), 168-174 ([getDrawBuffer]) and 367-376
    (the end of [bounceEvent]). The drawing task and the bounce-buffer
    interrupt share the object: its two binary semaphores and the front
    index. [vsyncWait] is split at its two semaphore operations, because
    the interrupt can run between them. The system is a state ([sys]): the
    object and the task's program point. It moves by events ([step]): the
    task draws into the back buffer, gives [_sem_gui_ready], takes
    [_sem_vsync_end]; the interrupt converts a chunk and may swap.
    [reachable] is rule induction over [step]. The abstract machine
    [AFrame] is the rendezvous of the spec (section 4.3), and [matches]
    relates a system state to the abstract state it implements. *)

From S2P Require Import Prelude FrameStore Convert.
Import FrameStore Convert.

Module Sync.

(** ** FreeRTOS binary semaphores (a token or none) *)

(** [xSemaphoreGive]: [pdTRUE] and a token, or [pdFALSE] if one was
    already there. *)
Definition xSemaphoreGive (s : bool) : bool * bool := (negb s, true).

(** [xSemaphoreTakeFromISR]: never blocks; [pdTRUE] if a token was taken. *)
Definition xSemaphoreTakeFromISR (s : bool) : bool * bool :=
  if s then (true, false) else (false, false).

(** [xSemaphoreTake(s, portMAX_DELAY)]: returns only with a token; no
    token means the task stays blocked. *)
Definition xSemaphoreTake (s : bool) : option bool :=
  if s then Some false else None.

(** ** The operations *)

(** VGA.cpp 164: [xSemaphoreGive(_sem_gui_ready)]. *)
Definition vsyncWait_give (v : VGA) : VGA :=
  set_sems v (sem_vsync_end v) (snd (xSemaphoreGive (sem_gui_ready v))).

(** VGA.cpp 165: [xSemaphoreTake(_sem_vsync_end, portMAX_DELAY)]. *)
Definition vsyncWait_take (v : VGA) : option VGA :=
  match xSemaphoreTake (sem_vsync_end v) with
  | Some s => Some (set_sems v s (sem_gui_ready v))
  | None => None
  end.

(** VGA.cpp 367-376: on the chunk that starts in the last
    [bounceBufferLines] lines, take [_sem_gui_ready] if the task gave it,
    flip the front index and give [_sem_vsync_end]. *)
Definition swap_check (v : VGA) (pos_px : nat) : VGA :=
  if screenWidth v * (screenHeight v - bounceBufferLines v) <=? pos_px then
    let (taken, g) := xSemaphoreTakeFromISR (sem_gui_ready v) in
    if taken then
      let v1 := set_sems v (sem_vsync_end v) g in
      let v2 := set_frameBufferIndex v1 (if frameBufferIndex v1 =? 0 then 1 else 0) in
      set_sems v2 (snd (xSemaphoreGive (sem_vsync_end v2))) (sem_gui_ready v2)
    else v
  else v.

(** [VGA::bounceEvent] (VGA.cpp 180-379): the bytes written into the
    bounce buffer, and the object afterwards. *)
Definition bounceEvent (v : VGA) (pos_px len_bytes : nat) : list Z * VGA :=
  (bounce_fill v pos_px len_bytes, swap_check v pos_px).

(** [VGA::vsyncEvent] (VGA.cpp 176-178): registered as [on_vsync]; it
    changes nothing and returns [true]. *)
Definition vsyncEvent (v : VGA) : bool * VGA := (true, v).

(** ** The two contexts composed *)

(** Where the drawing task is: drawing the back buffer, or inside
    [vsyncWait] after its give, blocked on [_sem_vsync_end]. *)
Inductive pc := Drawing | Waiting.

Record sys := mkSys { vga : VGA; task : pc }.

Inductive event :=
| Draw (b : list Z)          (** the task writes the buffer of [getDrawBuffer] *)
| Give                       (** [vsyncWait], line 164 *)
| Take                       (** [vsyncWait], line 165 *)
| Chunk (pos len : nat).     (** the interrupt calls [bounceEvent] *)

(** One event: the next state and the bytes sent to the panel. [None]
    when the event cannot happen in this state. *)
Definition step (s : sys) (e : event) : option (sys * list Z) :=
  let v := vga s in
  match e, task s with
  | Draw b, Drawing =>
    if length b =? length (frameBuffer v (getDrawBuffer v))
    then Some (mkSys (set_frameBuffer v (getDrawBuffer v) b) Drawing, [])
    else None
  | Give, Drawing => Some (mkSys (vsyncWait_give v) Waiting, [])
  | Take, Waiting =>
    match vsyncWait_take v with
    | Some v' => Some (mkSys v' Drawing, [])
    | None => None
    end
  | Chunk pos len, t =>
    let (bytes, v') := bounceEvent v pos len in Some (mkSys v' t, bytes)
  | _, _ => None
  end.

Inductive reachable (s0 : sys) : sys -> Prop :=
| reach_init : reachable s0 s0
| reach_step s e s' o : reachable s0 s -> step s e = Some (s', o) -> reachable s0 s'.

(** The state [init] leaves, with the task about to draw. *)
Definition initial (v : VGA) : Prop :=
  frameBufferIndex v = 0 /\ sem_vsync_end v = false /\ sem_gui_ready v = false.

(** The invariant: the front index is 0 or 1; while the task draws no
    token is out; while it waits exactly one token is. *)
Definition sync_inv (s : sys) : Prop :=
  frameBufferIndex (vga s) < 2 /\
  match task s with
  | Drawing => sem_gui_ready (vga s) = false /\ sem_vsync_end (vga s) = false
  | Waiting => sem_gui_ready (vga s) = negb (sem_vsync_end (vga s))
  end.

(** The geometry fields, which no event changes. *)
Definition geometry (v : VGA) : list nat :=
  [frameWidth v; frameHeight v; screenWidth v; screenHeight v;
   frameScale v; colorBits v; bounceBufferLines v].

(** ** The abstract rendezvous (spec, section 4.3) *)

Inductive phase := ADrawing | AReady | AReleased.

Record AFrame := mkAFrame { front : nat; aphase : phase }.

Inductive astep : AFrame -> AFrame -> Prop :=
| a_signal f : astep (mkAFrame f ADrawing) (mkAFrame f AReady)
| a_swap f : astep (mkAFrame f AReady) (mkAFrame (1 - f) AReleased)
| a_resume f : astep (mkAFrame f AReleased) (mkAFrame f ADrawing).

(** The refinement relation between the system and the rendezvous: the
    front index is the abstract front, 0 or 1, and the token state of the
    two semaphores is the one of the abstract phase. Drawing: no token
    out. Ready ([_sem_gui_ready] given, not yet taken by the interrupt):
    only the [_sem_gui_ready] token. Released (swapped, the interrupt has
    given [_sem_vsync_end]): only the [_sem_vsync_end] token. *)
Definition tokens (t : pc) (ph : phase) (v : VGA) : bool :=
  match t, ph with
  | Drawing, ADrawing => negb (sem_gui_ready v) && negb (sem_vsync_end v)
  | Waiting, AReady => sem_gui_ready v && negb (sem_vsync_end v)
  | Waiting, AReleased => negb (sem_gui_ready v) && sem_vsync_end v
  | _, _ => false
  end.

Definition matches (s : sys) (a : AFrame) : bool :=
  (frameBufferIndex (vga s) =? front a) && (front a <? 2) && tokens (task s) (aphase a) (vga s).

(** Several events in order, with the bytes sent to the panel. *)
Fixpoint run (s : sys) (es : list event) : option (sys * list Z) :=
  match es with
  | [] => Some (s, [])
  | e :: es' =>
    match step s e with
    | Some (s1, o1) =>
      match run s1 es' with
      | Some (s2, o2) => Some (s2, o1 ++ o2)
      | None => None
      end
    | None => None
    end
  end.

(** ** The swap *)

Definition threshold (v : VGA) : nat :=
  screenWidth v * (screenHeight v - bounceBufferLines v).

Definition flip (i : nat) : nat := if i =? 0 then 1 else 0.

Lemma swap_check_spec v pos :
  swap_check v pos =
  if (threshold v <=? pos) && sem_gui_ready v
  then set_sems (set_frameBufferIndex (set_sems v (sem_vsync_end v) false)
                   (flip (frameBufferIndex v))) true false
  else v.
Proof.
  unfold swap_check, threshold, flip.
  destruct (_ <=? pos), (sem_gui_ready v); reflexivity.
Qed.

Lemma swap_check_geometry v pos : geometry (swap_check v pos) = geometry v.
Proof. rewrite swap_check_spec. now destruct (_ && _). Qed.

Lemma swap_check_buffers v pos i :
  frameBuffer (swap_check v pos) i = frameBuffer v i.
Proof. rewrite swap_check_spec. destruct (_ && _); [|reflexivity]. now destruct i as [|[|]]. Qed.

Lemma flip_lt2 i : flip i < 2.
Proof. unfold flip. destruct (i =? 0); lia. Qed.

Lemma flip_neq i : i < 2 -> flip i <> i.
Proof. unfold flip. destruct (Nat.eqb_spec i 0); lia. Qed.

(** ** The invariant *)

Lemma step_geometry s e s' o :
  step s e = Some (s', o) -> geometry (vga s') = geometry (vga s).
Proof.
  destruct s as [v t]. unfold step. cbn [vga task].
  destruct e, t; try discriminate;
    try (destruct (_ =? _); [|discriminate]);
    try (destruct (vsyncWait_take v) eqn:Ht; [|discriminate]);
    intros H; injection H as <- <-; cbn; try reflexivity.
  - unfold vsyncWait_take, xSemaphoreTake in Ht.
    destruct (sem_vsync_end v); [|discriminate]. now injection Ht as <-.
  - apply swap_check_geometry.
  - apply swap_check_geometry.
Qed.

Lemma step_sync_inv s e s' o :
  sync_inv s -> step s e = Some (s', o) -> sync_inv s'.
Proof.
  destruct s as [v t]. unfold sync_inv, step. cbn [vga task].
  intros [Hidx Ht]. destruct e; [destruct t | destruct t | destruct t | ];
    try discriminate.
  - destruct (_ =? _); [|discriminate]. intros H; injection H as <- <-. cbn. tauto.
  - intros H; injection H as <- <-. cbn. destruct Ht as [_ ->]. tauto.
  - unfold vsyncWait_take, xSemaphoreTake.
    destruct (sem_vsync_end v) eqn:Hv; [|discriminate].
    intros H; injection H as <- <-. cbn. tauto.
  - intros H; injection H as <- <-. cbn [vga task]. rewrite swap_check_spec.
    destruct ((threshold v <=? pos) && sem_gui_ready v) eqn:Hf; [|tauto].
    apply andb_true_iff in Hf as [_ Hg]. split; [apply flip_lt2|].
    destruct t; cbn; [destruct Ht; congruence | reflexivity].
Qed.


Lemma step_chunk s pos len :
  step s (Chunk pos len)
  = Some (mkSys (swap_check (vga s) pos) (task s), bounce_fill (vga s) pos len).
Proof. destruct s as [v []]; reflexivity. Qed.

Lemma reachable_inv v s :
  initial v -> reachable (mkSys v Drawing) s -> sync_inv s.
Proof.
  intros (Hi & Hv & Hg) Hr. induction Hr as [|s e s' o _ IH Hs].
  - unfold sync_inv. cbn. rewrite Hi. repeat split; auto.
  - exact (step_sync_inv s e s' o IH Hs).
Qed.

(** C3. Every state reachable from the state [init] leaves satisfies the
    invariant. *)
Theorem reachable_sync_inv v s :
  initial v -> reachable (mkSys v Drawing) s -> sync_inv s.
Proof. apply reachable_inv. Qed.

Lemma front_stable_step s e s' o :
  sync_inv s -> task s = Drawing -> step s e = Some (s', o) ->
  frameBufferIndex (vga s') = frameBufferIndex (vga s)
  /\ frameBuffer (vga s') (frameBufferIndex (vga s')) = frameBuffer (vga s) (frameBufferIndex (vga s)).
Proof.
  destruct s as [v t]. unfold sync_inv, step. cbn [vga task].
  intros [Hidx Ht] -> . destruct Ht as [Hg Hv].
  destruct e; try discriminate.
  - destruct (_ =? _); [|discriminate]. intros H; injection H as <- <-. cbn.
    split; [reflexivity|]. unfold getDrawBuffer.
    destruct (frameBufferIndex v) as [|[|]]; cbn; reflexivity || lia.
  - intros H; injection H as <- <-. cbn. now split.
  - intros H; injection H as <- <-. cbn [vga]. rewrite swap_check_spec, Hg, andb_false_r.
    now split.
Qed.

(** C5. While the task draws, no event changes the front buffer: neither its
    index nor its bytes. The picture being scanned out is never torn. *)
Theorem drawing_front_stable s e s' o :
  sync_inv s -> task s = Drawing -> step s e = Some (s', o) ->
  frameBufferIndex (vga s') = frameBufferIndex (vga s)
  /\ frameBuffer (vga s') (frameBufferIndex (vga s')) = frameBuffer (vga s) (frameBufferIndex (vga s)).
Proof. apply front_stable_step. Qed.

(** C4. The front index changes only in the interrupt, while the task is
    blocked in [vsyncWait] with its token given, and the same step gives
    the token that releases it. *)
Theorem swap_only_when_waiting s e s' o :
  sync_inv s -> step s e = Some (s', o) ->
  frameBufferIndex (vga s') <> frameBufferIndex (vga s) ->
  task s = Waiting /\ task s' = Waiting /\ sem_gui_ready (vga s) = true
  /\ sem_vsync_end (vga s') = true /\ exists pos len, e = Chunk pos len.
Proof.
  destruct s as [v t]. unfold step. cbn [vga task]. intros Hinv.
  destruct e; [destruct t | destruct t | destruct t | ]; try discriminate.
  - destruct (_ =? _); [|discriminate]. intros H; injection H as <- <-. cbn. tauto.
  - intros H; injection H as <- <-. cbn. tauto.
  - unfold vsyncWait_take, xSemaphoreTake.
    destruct (sem_vsync_end v); [|discriminate]. intros H; injection H as <- <-. cbn. tauto.
  - intros H; injection H as <- <-. cbn [vga task]. rewrite swap_check_spec.
    destruct ((threshold v <=? pos) && sem_gui_ready v) eqn:Hf; [|tauto].
    apply andb_true_iff in Hf as [_ Hg]. intros _.
    destruct t; [destruct Hinv as [_ [Hg' _]]; cbn in Hg'; congruence|].
    cbn. repeat split; eauto.
Qed.

Lemma draw_index_ne s :
  sync_inv s -> getDrawBuffer (vga s) <> frameBufferIndex (vga s).
Proof.
  intros [Hidx _]. unfold getDrawBuffer.
  destruct (Nat.eqb_spec (frameBufferIndex (vga s)) 0); lia.
Qed.

(** C19. [getDrawBuffer] never returns the buffer being scanned out. *)
Theorem draw_buffer_not_front v s :
  initial v -> reachable (mkSys v Drawing) s ->
  getDrawBuffer (vga s) <> frameBufferIndex (vga s).
Proof. intros Hi Hr. apply draw_index_ne. exact (reachable_inv v s Hi Hr). Qed.

(** C7. A waiting task is released by the first chunk at the boundary: after
    it, the take of [vsyncWait] succeeds and the task draws again. *)
Theorem boundary_releases s pos :
  sync_inv s -> task s = Waiting -> threshold (vga s) <= pos ->
  exists s'', step (mkSys (swap_check (vga s) pos) Waiting) Take = Some (s'', [])
              /\ task s'' = Drawing.
Proof.
  destruct s as [v t]. cbn [vga task]. intros [_ Ht] -> Hth. cbn in Ht.
  rewrite swap_check_spec. apply Nat.leb_le in Hth. rewrite Hth. cbn [andb].
  destruct (sem_gui_ready v); cbn in Ht.
  - eexists. split; reflexivity.
  - unfold step, vsyncWait_take, xSemaphoreTake. cbn [vga task].
    destruct (sem_vsync_end v); [|discriminate]. eexists. split; reflexivity.
Qed.

Lemma matches_spec v t f ph :
  matches (mkSys v t) (mkAFrame f ph) = true
  <-> frameBufferIndex v = f /\ f < 2 /\ tokens t ph v = true.
Proof.
  unfold matches. cbn [vga task front aphase].
  rewrite !andb_true_iff, Nat.eqb_eq, Nat.ltb_lt. tauto.
Qed.

(** One event, matched by a step or a stutter of the rendezvous. *)
Lemma step_matches s a e s' o :
  matches s a = true -> step s e = Some (s', o) ->
  exists a', matches s' a' = true /\ (a' = a \/ astep a a').
Proof.
  destruct s as [v t], a as [f ph]. rewrite matches_spec. intros (<- & Hlt & Hp).
  unfold step. cbn [vga task].
  destruct e; [destruct t | destruct t | destruct t | ]; try discriminate.
  - destruct (_ =? _); [|discriminate]. intros H; injection H as <- <-.
    exists (mkAFrame (frameBufferIndex v) ph). rewrite matches_spec. auto.
  - intros H; injection H as <- <-.
    exists (mkAFrame (frameBufferIndex v) AReady). rewrite matches_spec.
    destruct ph; cbn in Hp |- *; try discriminate.
    apply andb_true_iff in Hp as [_ He]. rewrite He.
    split; [auto | right; apply a_signal].
  - unfold vsyncWait_take, xSemaphoreTake.
    destruct (sem_vsync_end v) eqn:He; [|discriminate]. intros H; injection H as <- <-.
    exists (mkAFrame (frameBufferIndex v) ADrawing). rewrite matches_spec.
    destruct ph; cbn in Hp |- *; rewrite ?He, ?andb_false_r in Hp; try discriminate.
    rewrite andb_true_r in Hp. rewrite Hp. split; [auto | right; apply a_resume].
  - intros H; injection H as <- <-. rewrite swap_check_spec.
    destruct ((threshold v <=? pos) && sem_gui_ready v) eqn:Hs.
    + apply andb_true_iff in Hs as [_ Hg].
      exists (mkAFrame (1 - frameBufferIndex v) AReleased). rewrite matches_spec.
      destruct t, ph; cbn in Hp; rewrite ?Hg in Hp; cbn in Hp; try discriminate.
      split; [split; [|split] | right; apply a_swap]; [| lia | reflexivity].
      cbn [frameBufferIndex set_sems set_frameBufferIndex]. unfold flip.
      destruct (Nat.eqb_spec (frameBufferIndex v) 0); lia.
    + exists (mkAFrame (frameBufferIndex v) ph). rewrite matches_spec. auto.
Qed.

(** C6. Refinement, as a simulation: from a state that matches an abstract
    rendezvous state (same front index, and the token state of that
    phase), every event leads to a state that matches either the same
    abstract state or its successor by a signal, swap or resume step. A
    take that left its token, a give that put none, or a swap without
    the two token moves, has no matching abstract state. *)
Theorem step_refines s a e s' o :
  matches s a = true -> step s e = Some (s', o) ->
  exists a', matches s' a' = true /\ (a' = a \/ astep a a').
Proof. apply step_matches. Qed.

(** C18. Steady state: a task that never signals a frame never sees the front
    buffer change, however many chunks are scanned out and however much it
    draws. *)
Theorem no_give_steady es s s' o :
  sync_inv s -> task s = Drawing -> ~ In Give es -> run s es = Some (s', o) ->
  frameBufferIndex (vga s') = frameBufferIndex (vga s)
  /\ frameBuffer (vga s') (frameBufferIndex (vga s')) = frameBuffer (vga s) (frameBufferIndex (vga s)).
Proof.
  revert s o. induction es as [|e es IH]; intros s o Hinv Ht Hng Hrun.
  - cbn in Hrun. injection Hrun as <- <-. now split.
  - cbn in Hrun. destruct (step s e) as [[s1 o1]|] eqn:Hs; [|discriminate].
    destruct (run s1 es) as [[s2 o2]|] eqn:Hr; [|discriminate].
    injection Hrun as <- <-.
    assert (Ht1 : task s1 = Drawing).
    { destruct s as [v t]; cbn in Ht; subst t. unfold step in Hs. cbn [task vga] in Hs.
      destruct e; try discriminate.
      - destruct (_ =? _); [|discriminate]. now injection Hs as <- <-.
      - now elim Hng; left.
      - now injection Hs as <- <-. }
    destruct (front_stable_step s e s1 o1 Hinv Ht Hs) as [H1 H2].
    destruct (IH s1 o2 (step_sync_inv _ _ _ _ Hinv Hs) Ht1
                (fun H => Hng (or_intror H)) Hr) as [H3 H4].
    split; congruence.
Qed.

End Sync.
