(* ===== verification/Setup.v ===== *)
(** * Setup: [VGA::init] (VGA.cpp 22-160)

    [init] calls FreeRTOS (semaphore creation), ESP-IDF (the RGB panel
    driver) and the heap. They are the class [Platform]: each call gives
    its result, and for a call that is repeated the result depends on
    which call it is. [PlatformLaws] is what the heap promises: a block
    has the size that was asked for.

    [init] runs in [M], a monad of its own. A computation in [M] records
    the calls it makes to the platform ([call]) and either returns a
    value or aborts ([abort]). The program aborts at an [assert] that
    fails, at an [ESP_ERROR_CHECK] of an error code, at the division by
    [scale = 0] (undefined behaviour) and at a [memset] past the end of
    its block (undefined behaviour too). Each abort carries the source
    line that causes it. The [ESP_LOGI] calls write to the log only and
    are left out.

    The theorems are stated in a Section over an arbitrary [Platform].
    They say:
    - with every call successful, [init] returns the object the Sync and
      Scanout theorems start from;
    - whatever the platform answers, [init] makes its calls in the fixed
      source order. It registers the callbacks only if every earlier call
      succeeded, and returns only if every call succeeded;
    - the error paths: a [NULL] block, a panel error and the 3-bit
      [memset] overflow;
    - off the timing table, [init] still returns, with a 0 Hz pixel
      clock and zero porches. *)

From S2P Require Import Prelude FrameStore Sync.
Import FrameStore Sync.

Module Setup.

(** ** The configuration [init] builds *)

(** VGA.cpp 25-31: the geometry members. *)
Definition init_fields (width height scale bits : nat) (v : VGA) : VGA :=
  {| sem_vsync_end := sem_vsync_end v; sem_gui_ready := sem_gui_ready v;
     panel_handle := panel_handle v;
     frameBuffer0 := frameBuffer0 v; frameBuffer1 := frameBuffer1 v;
     frameBufferIndex := frameBufferIndex v;
     frameScale := scale;
     frameWidth := width / scale;
     frameHeight := height / scale;
     screenWidth := width;
     screenHeight := height;
     colorBits := bits;
     bounceBufferLines := height / 10;
     hBorder := hBorder v; vBorder := vBorder v;
     lastBounceBufferPos := lastBounceBufferPos v;
     frameBuffersInPsram := frameBuffersInPsram v |}.

(** VGA.cpp 33-42: the pixel clock; 0 for any other resolution. *)
Definition pixelClockHz (width height : nat) : Z :=
  if (width =? 800) && (height =? 600) then 40000000%Z
  else if (width =? 640) && (height =? 480) then 36000000%Z
  else if (width =? 640) && (height =? 400) then 25000000%Z
  else if (width =? 640) && (height =? 350) then 25000000%Z
  else 0%Z.

Record timings := mkTimings {
  hsync_back_porch : nat; hsync_front_porch : nat; hsync_pulse_width : nat;
  vsync_back_porch : nat; vsync_front_porch : nat; vsync_pulse_width : nat }.

(** VGA.cpp 89-117. The [memset] of line 52 cleared [panel_config], so
    any other resolution keeps all porches at 0. *)
Definition porches (width height : nat) : timings :=
  if (width =? 800) && (height =? 600) then mkTimings 88 40 128 23 1 4
  else if (width =? 640) && (height =? 480) then mkTimings 80 56 56 25 1 3
  else if (width =? 640) && (height =? 400) then mkTimings 48 16 96 35 12 2
  else if (width =? 640) && (height =? 350) then mkTimings 48 16 96 60 37 2
  else mkTimings 0 0 0 0 0 0.

(** The default data pins, [EXAMPLE_PIN_NUM_DATA0..7] (VGA.cpp 10-17). *)
Definition default_data_pins : list Z := [14; 13; 12; 11; 10; 39; 38; 45]%Z.

(** VGA.cpp 65-83. With a pin array, pins [0 .. bits-1] come from the
    caller's array and the others are unused (-1). Without one, the
    default pins. *)
Definition data_gpio_nums (pins : option (list Z)) (bits : nat) : list Z :=
  match pins with
  | Some p => map (fun i => if i <? bits then rd p i else (-1)%Z) (seq 0 8)
  | None => default_data_pins
  end.

(** The fields of [esp_lcd_rgb_panel_config_t] that [init] sets. The
    clock source, the PSRAM alignment and the idle levels are constants
    the model does not use. *)
Record panel_config := mkPanelConfig {
  data_width : nat;
  num_fbs : nat;
  bounce_buffer_size_px : nat;
  pclk_gpio_num : Z; vsync_gpio_num : Z; hsync_gpio_num : Z;
  de_gpio_num : Z; disp_gpio_num : Z;
  data_gpio : list Z;
  pclk_hz : Z; h_res : nat; v_res : nat;
  porch : timings;
  pclk_active_neg : bool;
  fb_in_psram : bool; double_fb : bool; no_fb : bool }.

(** VGA.cpp 51-125. *)
Definition panel_config_of (width height : nat) (v : VGA)
    (pins : option (list Z)) (bits : nat) : panel_config := {|
  data_width := 8;
  num_fbs := 0;
  bounce_buffer_size_px := bounceBufferLines v * screenWidth v;
  disp_gpio_num := -1; pclk_gpio_num := 9;
  vsync_gpio_num := 3; hsync_gpio_num := 4; de_gpio_num := 0;
  data_gpio := data_gpio_nums pins bits;
  pclk_hz := pixelClockHz width height;
  h_res := screenWidth v;
  v_res := screenHeight v;
  porch := porches width height;
  pclk_active_neg := true;
  fb_in_psram := false; double_fb := false; no_fb := true |}.

(** [memset(buf, val, n)]: [None] when it writes past the block. *)
Definition memset (buf : list Z) (val : Z) (n : nat) : option (list Z) :=
  if n <=? length buf then Some (repeat val n ++ skipn n buf) else None.

(** VGA.cpp 148-151: the callbacks handed to the driver, with [this] as
    their context. *)
Record callbacks := mkCallbacks {
  on_vsync : VGA -> bool * VGA;
  on_bounce_empty : VGA -> nat -> nat -> list Z * VGA }.

Definition cbs : callbacks :=
  {| on_vsync := vsyncEvent; on_bounce_empty := bounceEvent |}.

(** ** The platform *)

(** [ESP_OK]. *)
Definition ESP_OK : Z := 0.

Class Platform := {
  (** [xSemaphoreCreateBinary()] for the [i]-th semaphore: a handle, or
      [NULL] ([false]). *)
  xSemaphoreCreateBinary : nat -> bool;
  (** [esp_lcd_new_rgb_panel(&cfg, &h)]: the error code and [h]. *)
  esp_lcd_new_rgb_panel : panel_config -> Z * nat;
  esp_lcd_rgb_panel_register_event_callbacks : nat -> callbacks -> Z;
  esp_lcd_panel_reset : nat -> Z;
  esp_lcd_panel_init : nat -> Z;
  (** [heap_caps_malloc(n, MALLOC_CAP_SPIRAM)] and [malloc(n)] in
      iteration [i] of the allocation loop: a block, or [NULL]. *)
  heap_caps_malloc : nat -> nat -> option (list Z);
  malloc : nat -> nat -> option (list Z)
}.

Class PlatformLaws `{Platform} : Prop := {
  heap_caps_malloc_size i n b : heap_caps_malloc i n = Some b -> length b = n;
  malloc_size i n b : malloc i n = Some b -> length b = n
}.

(** The calls [init] makes, with the arguments the results depend on. *)
Inductive call :=
| CreateSemaphore (i : nat)
| NewRgbPanel (cfg : panel_config)
| HeapCapsMalloc (i n : nat)
| Malloc (i n : nat)
| Memset (n : nat)
| RegisterEventCallbacks (h : nat)
| PanelReset (h : nat)
| PanelInit (h : nat).

Inductive abort :=
| DivideByZero                   (** [width / 0], line 26 *)
| AssertFailed (line : nat)      (** [assert], lines 46, 48 and 142 *)
| ErrorCheckFailed (line : nat) (err : Z)
                                 (** [ESP_ERROR_CHECK], lines 127-156 *)
| HeapOverflow.                  (** [memset] past buffer 0, line 145 *)

(** ** The monad of [init]: calls made so far, and a result or an abort *)

Definition M (A : Type) : Type := (list call * (abort + A))%type.

Definition ret {A} (a : A) : M A := ([], inr a).

Definition bind {A B} (m : M A) (k : A -> M B) : M B :=
  match m with
  | (t, inl e) => (t, inl e)
  | (t, inr a) => let (t', r) := k a in (t ++ t', r)
  end.

Declare Scope init_scope.
Delimit Scope init_scope with init.
Notation "x <- m ;; k" := (bind m (fun x => k))
  (at level 61, m at next level, right associativity) : init_scope.
Notation "m ;; k" := (bind m (fun _ => k))
  (at level 61, right associativity) : init_scope.
Local Open Scope init_scope.

Definition trace {A} (m : M A) : list call := fst m.
Definition outcome {A} (m : M A) : abort + A := snd m.

Definition do_call (c : call) : M unit := ([c], inr tt).
Definition abort_with {A} (e : abort) : M A := ([], inl e).

Definition assert_ (line : nat) (b : bool) : M unit :=
  if b then ret tt else abort_with (AssertFailed line).

Definition ESP_ERROR_CHECK (line : nat) (err : Z) : M unit :=
  if (err =? ESP_OK)%Z then ret tt else abort_with (ErrorCheckFailed line err).

(** [m] makes the calls of [T] in order, possibly stopping early at an
    abort, and all of them when it returns. *)
Definition within {A} (m : M A) (T : list call) : Prop :=
  exists rest, trace m ++ rest = T /\ (forall a, outcome m = inr a -> rest = []).

(** Lines 135-141: the allocation call of iteration [i]. *)
Definition alloc_call (usePsram : bool) (i n : nat) : call :=
  if usePsram then HeapCapsMalloc i n else Malloc i n.

Section Init.
Context `{P : Platform}.

Definition alloc (usePsram : bool) (i n : nat) : option (list Z) :=
  if usePsram then heap_caps_malloc i n else malloc i n.

(** VGA.cpp 44-48: create both semaphores, each followed by its [assert].
    A new binary semaphore holds no token. *)
Definition create_semaphores (v : VGA) : M VGA :=
  do_call (CreateSemaphore 0) ;;
  assert_ 46 (xSemaphoreCreateBinary 0) ;;
  do_call (CreateSemaphore 1) ;;
  assert_ 48 (xSemaphoreCreateBinary 1) ;;
  ret (set_sems v false false).

(** VGA.cpp 134-143: [for (int i = 0; i < 2; i++)], allocate
    [_frameBuffers[i]] in SPI RAM or in main memory, then
    [assert(_frameBuffers[i])]. [k] is the number of iterations left. *)
Fixpoint alloc_loop (usePsram : bool) (n : nat) (i k : nat) (v : VGA) : M VGA :=
  match k with
  | 0 => ret v
  | S k' =>
    do_call (alloc_call usePsram i n) ;;
    match alloc usePsram i n with
    | None => abort_with (AssertFailed 142)
    | Some b => alloc_loop usePsram n (S i) k' (set_frameBuffer v i b)
    end
  end.

(** VGA.cpp 145: [memset(_frameBuffers[0], 255, _frameWidth*_frameHeight)]. *)
Definition fill_buffer0 (v : VGA) : M VGA :=
  let n := frameWidth v * frameHeight v in
  do_call (Memset n) ;;
  match memset (frameBuffer0 v) 255 n with
  | None => abort_with HeapOverflow
  | Some b => ret (set_frameBuffer v 0 b)
  end.

(** VGA.cpp 147-156: register the callbacks, reset and start the panel,
    each call checked by [ESP_ERROR_CHECK]. *)
Definition start_panel (h : nat) : M unit :=
  do_call (RegisterEventCallbacks h) ;;
  ESP_ERROR_CHECK 152 (esp_lcd_rgb_panel_register_event_callbacks h cbs) ;;
  do_call (PanelReset h) ;;
  ESP_ERROR_CHECK 155 (esp_lcd_panel_reset h) ;;
  do_call (PanelInit h) ;;
  ESP_ERROR_CHECK 156 (esp_lcd_panel_init h).

(** [VGA::init(width, height, scale, bits, pins, usePsram)] on the object
    [v0] (VGA.cpp 22-160): the object afterwards and the configuration
    handed to the driver, or the abort. It returns [true] when it
    returns. *)
Definition init (v0 : VGA) (width height scale bits : nat)
    (pins : option (list Z)) (usePsram : bool) : M (VGA * panel_config) :=
  if scale =? 0 then abort_with DivideByZero else
  let v1 := init_fields width height scale bits v0 in
  v2 <- create_semaphores v1 ;;
  let cfg := panel_config_of width height v2 pins bits in
  do_call (NewRgbPanel cfg) ;;
  let (err, h) := esp_lcd_new_rgb_panel cfg in
  ESP_ERROR_CHECK 127 err ;;
  let v3 := set_panel_handle v2 h in
  v4 <- alloc_loop usePsram (fbSize v3) 0 2 v3 ;;
  v5 <- fill_buffer0 v4 ;;
  start_panel h ;;
  ret (v5, cfg).

(** Every call of a run of [init] in which all of them succeed, in the
    source order. *)
Definition init_calls (v0 : VGA) (width height scale bits : nat)
    (pins : option (list Z)) (usePsram : bool) : list call :=
  let v := init_fields width height scale bits v0 in
  let cfg := panel_config_of width height v pins bits in
  let h := snd (esp_lcd_new_rgb_panel cfg) in
  let n := fbSize v in
  [CreateSemaphore 0; CreateSemaphore 1; NewRgbPanel cfg]
  ++ [alloc_call usePsram 0 n; alloc_call usePsram 1 n]
  ++ [Memset (frameWidth v * frameHeight v);
      RegisterEventCallbacks h; PanelReset h; PanelInit h].

End Init.

Create Rewrite HintDb setup.

(** ** The monad *)

Lemma bind_ok {A B} (m : M A) t a (k : A -> M B) :
  m = (t, inr a) -> bind m k = (t ++ trace (k a), outcome (k a)).
Proof. intros ->. cbn. now destruct (k a). Qed.

Lemma bind_err {A B} (m : M A) t e (k : A -> M B) :
  m = (t, inl e) -> bind m k = (t, inl e).
Proof. now intros ->. Qed.

Lemma bind_call {B} c (k : unit -> M B) :
  bind (do_call c) k = (c :: trace (k tt), outcome (k tt)).
Proof. exact (bind_ok (do_call c) [c] tt k eq_refl). Qed.

Lemma bind_ret {A B} (a : A) (k : A -> M B) : bind (ret a) k = k a.
Proof. cbn. now destruct (k a). Qed.

Lemma within_ret {A} (a : A) : within (ret a) [].
Proof. exists []. split; reflexivity. Qed.

Lemma within_call c : within (do_call c) [c].
Proof. exists []. split; reflexivity. Qed.

Lemma within_abort {A} e T : within (@abort_with A e) T.
Proof. exists T. split; [reflexivity | discriminate]. Qed.

Lemma within_assert line b : within (assert_ line b) [].
Proof. unfold assert_. destruct b; [apply within_ret | apply within_abort]. Qed.

Lemma within_check line err : within (ESP_ERROR_CHECK line err) [].
Proof.
  unfold ESP_ERROR_CHECK. destruct (err =? ESP_OK)%Z; [apply within_ret | apply within_abort].
Qed.

Lemma within_bind {A B} (m : M A) (k : A -> M B) T1 T2 T :
  within m T1 -> (forall a, outcome m = inr a -> within (k a) T2) -> T1 ++ T2 = T ->
  within (bind m k) T.
Proof.
  unfold within, trace, outcome. intros (r1 & H1 & Ho1) Hk <-.
  destruct m as [t [e|a]]; cbn [fst snd bind] in *.
  - exists (r1 ++ T2). split; [now rewrite app_assoc, H1 | discriminate].
  - rewrite (Ho1 a eq_refl), app_nil_r in H1. subst t.
    destruct (Hk a eq_refl) as (r2 & H2 & Ho2). destruct (k a) as [t2 o2].
    cbn [fst snd] in *. exists r2. split; [now rewrite <- app_assoc, H2 | exact Ho2].
Qed.

(** A call in the trace of [bind m k] is made by [m], or by [k] after [m]
    returned; [bind m k] returns only after [m] and [k] both return. *)
Lemma in_trace_bind {A B} (m : M A) (k : A -> M B) c :
  In c (trace (bind m k)) ->
  In c (trace m) \/ exists a, outcome m = inr a /\ In c (trace (k a)).
Proof.
  destruct m as [t [e|a]]; cbn [bind trace fst outcome snd]; [now left|].
  destruct (k a) as [t' r] eqn:Hk. cbn [fst]. intros H. apply in_app_or in H as [H|H].
  - now left.
  - right. exists a. now rewrite Hk.
Qed.

Lemma outcome_bind {A B} (m : M A) (k : A -> M B) b :
  outcome (bind m k) = inr b -> exists a, outcome m = inr a /\ outcome (k a) = inr b.
Proof.
  destruct m as [t [e|a]]; cbn [bind outcome snd]; [discriminate|].
  intros H. exists a. split; [reflexivity|]. destruct (k a). exact H.
Qed.

Lemma within_in {A} (m : M A) T c : within m T -> In c (trace m) -> In c T.
Proof. intros (rest & <- & _) H. apply in_or_app. now left. Qed.

Lemma ESP_ERROR_CHECK_inr line err u :
  outcome (ESP_ERROR_CHECK line err) = inr u -> err = ESP_OK.
Proof. unfold ESP_ERROR_CHECK. destruct (Z.eqb_spec err ESP_OK); easy. Qed.

Ltac within_auto :=
  repeat match goal with
  | |- within (bind _ _) _ => eapply within_bind; [ | intros ? ? | ]
  | |- within (do_call _) _ => apply within_call
  | |- within (ret _) _ => apply within_ret
  | |- within (assert_ _ _) _ => apply within_assert
  | |- within (ESP_ERROR_CHECK _ _) _ => apply within_check
  | |- within (abort_with _) _ => apply within_abort
  | |- _ ++ _ = _ => reflexivity
  end.

Lemma ESP_ERROR_CHECK_ok line : ESP_ERROR_CHECK line ESP_OK = ret tt.
Proof. reflexivity. Qed.

Lemma ESP_ERROR_CHECK_err line err :
  err <> ESP_OK -> ESP_ERROR_CHECK line err = abort_with (ErrorCheckFailed line err).
Proof. intros H. unfold ESP_ERROR_CHECK. now rewrite (proj2 (Z.eqb_neq _ _) H). Qed.

(** ** What the configuration depends on *)

Lemma panel_config_of_set_sems width height v a b pins bits :
  panel_config_of width height (set_sems v a b) pins bits
  = panel_config_of width height v pins bits.
Proof. reflexivity. Qed.

Lemma fbSize_set_panel_handle v h : fbSize (set_panel_handle v h) = fbSize v.
Proof. reflexivity. Qed.

Lemma fbSize_set_sems v a b : fbSize (set_sems v a b) = fbSize v.
Proof. reflexivity. Qed.

Lemma fbSize_init_fields width height scale bits v :
  fbSize (init_fields width height scale bits v)
  = if bits =? 3 then width / scale * (height / scale) / 2
    else width / scale * (height / scale).
Proof. reflexivity. Qed.

#[export] Hint Rewrite panel_config_of_set_sems fbSize_set_panel_handle fbSize_set_sems
  fbSize_init_fields : setup.

(** ** The stages of [init] *)

Section Stages.
Context `{P : Platform}.

Lemma alloc_size `{!PlatformLaws} usePsram i n b :
  alloc usePsram i n = Some b -> length b = n.
Proof.
  unfold alloc. destruct usePsram; [apply heap_caps_malloc_size | apply malloc_size].
Qed.

Lemma create_semaphores_ok v :
  xSemaphoreCreateBinary 0 = true -> xSemaphoreCreateBinary 1 = true ->
  create_semaphores v
  = ([CreateSemaphore 0; CreateSemaphore 1], inr (set_sems v false false)).
Proof. intros H0 H1. unfold create_semaphores, assert_. now rewrite H0, H1. Qed.

Lemma alloc_loop_two usePsram n i v b0 b1 :
  alloc usePsram i n = Some b0 -> alloc usePsram (S i) n = Some b1 ->
  alloc_loop usePsram n i 2 v
  = ([alloc_call usePsram i n; alloc_call usePsram (S i) n],
     inr (set_frameBuffer (set_frameBuffer v i b0) (S i) b1)).
Proof. intros H0 H1. cbn [alloc_loop]. now rewrite H0, H1. Qed.

Lemma fill_buffer0_ok v :
  length (frameBuffer0 v) = frameWidth v * frameHeight v ->
  fill_buffer0 v
  = ([Memset (frameWidth v * frameHeight v)],
     inr (set_frameBuffer v 0 (repeat 255%Z (frameWidth v * frameHeight v)))).
Proof.
  intros Hl. unfold fill_buffer0, memset. rewrite Hl, Nat.leb_refl, skipn_all2 by lia.
  now rewrite app_nil_r.
Qed.

Lemma fill_buffer0_overflow v :
  length (frameBuffer0 v) < frameWidth v * frameHeight v ->
  fill_buffer0 v = ([Memset (frameWidth v * frameHeight v)], inl HeapOverflow).
Proof.
  intros Hl. unfold fill_buffer0, memset.
  now rewrite (proj2 (Nat.leb_gt _ _) Hl).
Qed.

Lemma start_panel_ok h :
  esp_lcd_rgb_panel_register_event_callbacks h cbs = ESP_OK ->
  esp_lcd_panel_reset h = ESP_OK -> esp_lcd_panel_init h = ESP_OK ->
  start_panel h = ([RegisterEventCallbacks h; PanelReset h; PanelInit h], inr tt).
Proof. intros H1 H2 H3. unfold start_panel. now rewrite H1, H2, H3. Qed.

Lemma create_semaphores_within v :
  within (create_semaphores v) [CreateSemaphore 0; CreateSemaphore 1].
Proof. unfold create_semaphores. within_auto. Qed.

Lemma create_semaphores_result v a :
  outcome (create_semaphores v) = inr a -> a = set_sems v false false.
Proof.
  unfold create_semaphores, assert_.
  destruct (xSemaphoreCreateBinary 0), (xSemaphoreCreateBinary 1); cbn;
    congruence.
Qed.

Lemma alloc_loop_within usePsram n i k v :
  within (alloc_loop usePsram n i k v) (map (fun j => alloc_call usePsram j n) (seq i k)).
Proof.
  revert i v. induction k as [|k IH]; intros i v; [apply within_ret|].
  cbn [alloc_loop seq map]. eapply within_bind; [apply within_call | intros [] _ | reflexivity].
  destruct (alloc usePsram i n); [apply IH | apply within_abort].
Qed.

Lemma alloc_loop_geometry usePsram n i k v a :
  outcome (alloc_loop usePsram n i k v) = inr a -> geometry a = geometry v.
Proof.
  revert i v. induction k as [|k IH]; intros i v; cbn [alloc_loop].
  - intros H. now injection H as <-.
  - destruct (alloc usePsram i n) as [b|] eqn:Ha; rewrite bind_call; cbn [outcome snd].
    + intros H. now rewrite (IH _ _ H).
    + discriminate.
Qed.

Lemma fill_buffer0_within v :
  within (fill_buffer0 v) [Memset (frameWidth v * frameHeight v)].
Proof.
  unfold fill_buffer0. eapply within_bind; [apply within_call | intros [] _ | reflexivity].
  destruct (memset _ _ _); [apply within_ret | apply within_abort].
Qed.

Lemma start_panel_within h :
  within (start_panel h) [RegisterEventCallbacks h; PanelReset h; PanelInit h].
Proof. unfold start_panel. within_auto. Qed.

(** What a stage has checked when it returns. *)
Lemma create_semaphores_inr v a :
  outcome (create_semaphores v) = inr a ->
  xSemaphoreCreateBinary 0 = true /\ xSemaphoreCreateBinary 1 = true /\ a = set_sems v false false.
Proof.
  unfold create_semaphores, assert_.
  destruct (xSemaphoreCreateBinary 0), (xSemaphoreCreateBinary 1); cbn; try discriminate.
  intros H. injection H as <-. auto.
Qed.

Lemma alloc_loop_inr usePsram n i v a :
  outcome (alloc_loop usePsram n i 2 v) = inr a ->
  exists b0 b1, alloc usePsram i n = Some b0 /\ alloc usePsram (S i) n = Some b1
                /\ a = set_frameBuffer (set_frameBuffer v i b0) (S i) b1.
Proof.
  cbn [alloc_loop]. rewrite bind_call. cbn [trace outcome snd].
  destruct (alloc usePsram i n) as [b0|]; [|discriminate].
  rewrite bind_call. cbn [outcome snd].
  destruct (alloc usePsram (S i) n) as [b1|]; [|discriminate].
  intros H. injection H as <-. eauto.
Qed.

Lemma fill_buffer0_inr v a :
  outcome (fill_buffer0 v) = inr a -> frameWidth v * frameHeight v <= length (frameBuffer0 v).
Proof.
  unfold fill_buffer0, memset. rewrite bind_call. cbn [outcome snd].
  destruct (Nat.leb_spec (frameWidth v * frameHeight v) (length (frameBuffer0 v)));
    easy.
Qed.

Lemma start_panel_inr h u :
  outcome (start_panel h) = inr u ->
  esp_lcd_rgb_panel_register_event_callbacks h cbs = ESP_OK
  /\ esp_lcd_panel_reset h = ESP_OK /\ esp_lcd_panel_init h = ESP_OK.
Proof.
  unfold start_panel. intros H.
  apply outcome_bind in H as ([] & _ & H). apply outcome_bind in H as ([] & H1 & H).
  apply outcome_bind in H as ([] & _ & H). apply outcome_bind in H as ([] & H2 & H).
  apply outcome_bind in H as ([] & _ & H3).
  apply ESP_ERROR_CHECK_inr in H1, H2, H3. auto.
Qed.

(** [init] once the semaphores and the panel exist: the calls so far,
    then the allocation, the [memset] and the start of the panel. *)
Lemma init_after_panel v0 width height scale bits pins usePsram h :
  0 < scale -> xSemaphoreCreateBinary 0 = true -> xSemaphoreCreateBinary 1 = true ->
  let cfg := panel_config_of width height (init_fields width height scale bits v0) pins bits in
  esp_lcd_new_rgb_panel cfg = (ESP_OK, h) ->
  let v3 := set_panel_handle (set_sems (init_fields width height scale bits v0) false false) h in
  let m := (v4 <- alloc_loop usePsram (fbSize v3) 0 2 v3 ;;
            v5 <- fill_buffer0 v4 ;; start_panel h ;; ret (v5, cfg)) in
  init v0 width height scale bits pins usePsram
  = ([CreateSemaphore 0; CreateSemaphore 1; NewRgbPanel cfg] ++ trace m, outcome m).
Proof.
  intros Hs H0 H1 cfg Hp v3 m. unfold init.
  replace (scale =? 0) with false by (symmetry; apply Nat.eqb_neq; lia).
  rewrite (bind_ok _ _ _ _ (create_semaphores_ok _ H0 H1)). cbv beta zeta.
  rewrite bind_call, panel_config_of_set_sems. fold cfg. rewrite Hp. cbv beta iota.
  rewrite ESP_ERROR_CHECK_ok, bind_ret. reflexivity.
Qed.

End Stages.

(** The timing table of [init]: off it, no clock and no porches. *)
Lemma pixelClockHz_off_table width height :
  ~ In (width, height) [(800, 600); (640, 480); (640, 400); (640, 350)] ->
  pixelClockHz width height = 0%Z /\ porches width height = mkTimings 0 0 0 0 0 0.
Proof.
  intros Hm. unfold pixelClockHz, porches.
  destruct (Nat.eqb_spec width 800), (Nat.eqb_spec height 600);
  destruct (Nat.eqb_spec width 640); destruct (Nat.eqb_spec height 480);
  destruct (Nat.eqb_spec height 400); destruct (Nat.eqb_spec height 350);
  subst; cbn in Hm |- *; first [split; reflexivity | tauto | congruence].
Qed.

(** ** Properties of [init] *)

Section InitProperties.
Context `{P : Platform}.

(** A run of [init] in which every call succeeds. *)
Lemma init_ok_result `{!PlatformLaws} v0 width height scale bits pins (usePsram : bool)
    h b0 b1 :
  0 < scale -> bits <> 3 ->
  let n := width / scale * (height / scale) in
  let cfg := panel_config_of width height (init_fields width height scale bits v0) pins bits in
  xSemaphoreCreateBinary 0 = true -> xSemaphoreCreateBinary 1 = true ->
  esp_lcd_new_rgb_panel cfg = (ESP_OK, h) ->
  alloc usePsram 0 n = Some b0 -> alloc usePsram 1 n = Some b1 ->
  esp_lcd_rgb_panel_register_event_callbacks h cbs = ESP_OK ->
  esp_lcd_panel_reset h = ESP_OK -> esp_lcd_panel_init h = ESP_OK ->
  exists v,
    init v0 width height scale bits pins usePsram
    = (init_calls v0 width height scale bits pins usePsram, inr (v, cfg))
    /\ frameBuffer0 v = repeat 255%Z n /\ frameBuffer1 v = b1
    /\ frameBufferIndex v = frameBufferIndex v0
    /\ sem_vsync_end v = false /\ sem_gui_ready v = false
    /\ panel_handle v = Some h
    /\ geometry v = [width / scale; height / scale; width; height; scale; bits; height / 10]
    /\ frameBuffersInPsram v = frameBuffersInPsram v0.
Proof.
  intros Hs Hb n cfg H0 H1 Hp Ha0 Ha1 Hr Hre Hi.
  assert (Hl : length b0 = n) by (eapply alloc_size; exact Ha0).
  rewrite (init_after_panel _ _ _ _ _ _ _ _ Hs H0 H1 Hp). unfold init_calls.
  autorewrite with setup. replace (bits =? 3) with false by (symmetry; apply Nat.eqb_neq; lia).
  fold n. fold cfg. rewrite Hp.
  rewrite (bind_ok _ _ _ _ (alloc_loop_two _ _ _ _ _ _ Ha0 Ha1)).
  erewrite bind_ok by (apply fill_buffer0_ok; exact Hl).
  rewrite (bind_ok _ _ _ _ (start_panel_ok _ Hr Hre Hi)).
  eexists. split; [reflexivity|]. cbn. repeat split; reflexivity.
Qed.

(** C12. With both semaphores created, the panel created, both blocks
    allocated and the three panel calls successful, an 8-bit [init] makes
    every call of [init_calls] in the source order and returns the object
    the Sync theorems start from: buffer 0 filled with 255, buffer 1 the
    fresh block, the front index unchanged, both semaphores empty, the
    panel handle stored and the geometry of the arguments.
    [_frameBuffersInPsram] is not updated, whatever [usePsram] is. *)
Theorem init_success `{!PlatformLaws} v0 width height scale bits pins (usePsram : bool)
    h b0 b1 :
  0 < scale -> bits <> 3 ->
  let n := width / scale * (height / scale) in
  let cfg := panel_config_of width height (init_fields width height scale bits v0) pins bits in
  xSemaphoreCreateBinary 0 = true -> xSemaphoreCreateBinary 1 = true ->
  esp_lcd_new_rgb_panel cfg = (ESP_OK, h) ->
  alloc usePsram 0 n = Some b0 -> alloc usePsram 1 n = Some b1 ->
  esp_lcd_rgb_panel_register_event_callbacks h cbs = ESP_OK ->
  esp_lcd_panel_reset h = ESP_OK -> esp_lcd_panel_init h = ESP_OK ->
  exists v,
    init v0 width height scale bits pins usePsram
    = (init_calls v0 width height scale bits pins usePsram, inr (v, cfg))
    /\ frameBuffer0 v = repeat 255%Z n /\ frameBuffer1 v = b1
    /\ frameBufferIndex v = frameBufferIndex v0
    /\ sem_vsync_end v = false /\ sem_gui_ready v = false
    /\ panel_handle v = Some h
    /\ geometry v = [width / scale; height / scale; width; height; scale; bits; height / 10]
    /\ frameBuffersInPsram v = frameBuffersInPsram v0.
Proof. apply init_ok_result. Qed.

(** The calls of [init] are a prefix of [init_calls]. *)
Lemma init_within v0 width height scale bits pins usePsram :
  within (init v0 width height scale bits pins usePsram)
         (init_calls v0 width height scale bits pins usePsram).
Proof.
  unfold init, init_calls. destruct (scale =? 0); [apply within_abort|].
  eapply within_bind; [apply create_semaphores_within | intros v2 Hv2 | reflexivity].
  rewrite (create_semaphores_result _ _ Hv2), panel_config_of_set_sems.
  eapply within_bind; [apply within_call | intros [] _ | reflexivity].
  destruct (esp_lcd_new_rgb_panel _) as [err h]. cbn [snd].
  eapply within_bind; [apply within_check | intros [] _ | reflexivity].
  autorewrite with setup.
  eapply within_bind; [apply alloc_loop_within | intros v4 Hv4 | reflexivity].
  pose proof (alloc_loop_geometry _ _ _ _ _ _ Hv4) as Hg. injection Hg as Hfw Hfh _.
  eapply within_bind; [apply fill_buffer0_within | intros v5 _ | ].
  - eapply within_bind; [apply start_panel_within | intros [] _ | ]; [apply within_ret | reflexivity].
  - rewrite Hfw, Hfh. reflexivity.
Qed.

(** What [init] has checked when it registers the callbacks with the
    handle [h']: every call before succeeded. *)
Lemma init_register_pre v0 width height scale bits pins usePsram h' :
  let v := init_fields width height scale bits v0 in
  let cfg := panel_config_of width height v pins bits in
  In (RegisterEventCallbacks h') (trace (init v0 width height scale bits pins usePsram)) ->
  xSemaphoreCreateBinary 0 = true /\ xSemaphoreCreateBinary 1 = true
  /\ esp_lcd_new_rgb_panel cfg = (ESP_OK, h')
  /\ exists b0 b1, alloc usePsram 0 (fbSize v) = Some b0 /\ alloc usePsram 1 (fbSize v) = Some b1
                   /\ frameWidth v * frameHeight v <= length b0.
Proof.
  intros v cfg. unfold init. fold v. destruct (scale =? 0); [cbn; tauto|].
  intros H. apply in_trace_bind in H as [H | (v2 & Hv2 & H)].
  { apply (within_in _ _ _ (create_semaphores_within _)) in H. cbn in H. intuition discriminate. }
  destruct (create_semaphores_inr _ _ Hv2) as (H0 & H1 & ->).
  rewrite panel_config_of_set_sems, bind_call in H. fold cfg in H |- *.
  destruct H as [H|H]; [discriminate|].
  destruct (esp_lcd_new_rgb_panel cfg) as [err h] eqn:Hp.
  apply in_trace_bind in H as [H | ([] & He & H)].
  { now apply (within_in _ _ _ (within_check 127 err)) in H. }
  apply ESP_ERROR_CHECK_inr in He. subst err.
  apply in_trace_bind in H as [H | (v4 & Hv4 & H)].
  { apply (within_in _ _ _ (alloc_loop_within _ _ _ _ _)) in H. cbn in H.
    unfold alloc_call in H. destruct usePsram; intuition discriminate. }
  rewrite fbSize_set_panel_handle, fbSize_set_sems in Hv4.
  destruct (alloc_loop_inr _ _ _ _ _ Hv4) as (b0 & b1 & Ha0 & Ha1 & ->).
  apply in_trace_bind in H as [H | (v5 & Hv5 & H)].
  { apply (within_in _ _ _ (fill_buffer0_within _)) in H. cbn in H. intuition discriminate. }
  apply fill_buffer0_inr in Hv5.
  apply in_trace_bind in H as [H | ([] & _ & H)]; [|cbn in H; contradiction].
  apply (within_in _ _ _ (start_panel_within _)) in H. cbn in H.
  destruct H as [H | [H | [H | []]]]; try discriminate. injection H as ->.
  repeat split; auto. exists b0, b1. repeat split; auto.
Qed.

(** What [init] has checked when it returns: the three panel calls
    succeeded too. *)
Lemma init_inr_panel v0 width height scale bits pins usePsram r :
  let cfg := panel_config_of width height (init_fields width height scale bits v0) pins bits in
  let h := snd (esp_lcd_new_rgb_panel cfg) in
  outcome (init v0 width height scale bits pins usePsram) = inr r ->
  esp_lcd_rgb_panel_register_event_callbacks h cbs = ESP_OK
  /\ esp_lcd_panel_reset h = ESP_OK /\ esp_lcd_panel_init h = ESP_OK.
Proof.
  intros cfg h. unfold init. destruct (scale =? 0); [discriminate|].
  intros H. apply outcome_bind in H as (v2 & Hv2 & H).
  rewrite (create_semaphores_result _ _ Hv2), panel_config_of_set_sems in H. fold cfg in H.
  apply outcome_bind in H as ([] & _ & H). fold h.
  destruct (esp_lcd_new_rgb_panel cfg) as [err h0]. cbn [snd] in h |- *.
  apply outcome_bind in H as ([] & _ & H). apply outcome_bind in H as (v4 & _ & H).
  apply outcome_bind in H as (v5 & _ & H). apply outcome_bind in H as ([] & H & _).
  now apply start_panel_inr in H.
Qed.

(** C11. Whatever the platform answers, [init] makes its calls in the
    order of [init_calls], and returns only after making all of them.
    It stops at the first call that fails. It registers [bounceEvent]
    with the driver only if both semaphores were created, the panel was
    created with that handle, and both frame buffers were allocated with
    buffer 0 large enough for the [memset] of line 145, so the callback
    never reads a buffer that does not exist. It returns only if the
    three panel calls after it succeeded too. *)
Theorem init_call_order v0 width height scale bits pins usePsram :
  let v := init_fields width height scale bits v0 in
  let cfg := panel_config_of width height v pins bits in
  let h := snd (esp_lcd_new_rgb_panel cfg) in
  (exists rest,
    trace (init v0 width height scale bits pins usePsram) ++ rest
    = init_calls v0 width height scale bits pins usePsram
    /\ (forall r, outcome (init v0 width height scale bits pins usePsram) = inr r -> rest = []))
  /\ (forall h', In (RegisterEventCallbacks h') (trace (init v0 width height scale bits pins usePsram)) ->
      xSemaphoreCreateBinary 0 = true /\ xSemaphoreCreateBinary 1 = true
      /\ esp_lcd_new_rgb_panel cfg = (ESP_OK, h')
      /\ exists b0 b1, alloc usePsram 0 (fbSize v) = Some b0 /\ alloc usePsram 1 (fbSize v) = Some b1
                       /\ frameWidth v * frameHeight v <= length b0)
  /\ (forall r, outcome (init v0 width height scale bits pins usePsram) = inr r ->
      esp_lcd_rgb_panel_register_event_callbacks h cbs = ESP_OK
      /\ esp_lcd_panel_reset h = ESP_OK /\ esp_lcd_panel_init h = ESP_OK).
Proof.
  intros v cfg h. split; [apply init_within|]. split.
  - intros h'. apply init_register_pre.
  - intros r. apply init_inr_panel.
Qed.

(** C22. If [esp_lcd_new_rgb_panel] returns an error, [ESP_ERROR_CHECK]
    at line 127 aborts: no frame buffer is allocated and no callback is
    registered. *)
Theorem init_panel_error v0 width height scale bits pins usePsram err h :
  0 < scale -> xSemaphoreCreateBinary 0 = true -> xSemaphoreCreateBinary 1 = true ->
  let cfg := panel_config_of width height (init_fields width height scale bits v0) pins bits in
  esp_lcd_new_rgb_panel cfg = (err, h) -> err <> ESP_OK ->
  init v0 width height scale bits pins usePsram
  = ([CreateSemaphore 0; CreateSemaphore 1; NewRgbPanel cfg], inl (ErrorCheckFailed 127 err)).
Proof.
  intros Hs H0 H1 cfg Hp He. unfold init.
  replace (scale =? 0) with false by (symmetry; apply Nat.eqb_neq; lia).
  rewrite (bind_ok _ _ _ _ (create_semaphores_ok _ H0 H1)). cbv beta zeta.
  rewrite bind_call, panel_config_of_set_sems. fold cfg. rewrite Hp. cbv beta iota.
  rewrite (ESP_ERROR_CHECK_err _ _ He). reflexivity.
Qed.

(** C21. If an allocation returns [NULL], [init] aborts at the [assert]
    of line 142, right after that allocation and before any [memset]. *)
Theorem init_alloc_failure v0 width height scale bits pins usePsram h :
  0 < scale -> xSemaphoreCreateBinary 0 = true -> xSemaphoreCreateBinary 1 = true ->
  let cfg := panel_config_of width height (init_fields width height scale bits v0) pins bits in
  let n := fbSize (init_fields width height scale bits v0) in
  esp_lcd_new_rgb_panel cfg = (ESP_OK, h) ->
  (alloc usePsram 0 n = None ->
   init v0 width height scale bits pins usePsram
   = ([CreateSemaphore 0; CreateSemaphore 1; NewRgbPanel cfg; alloc_call usePsram 0 n],
      inl (AssertFailed 142)))
  /\ (forall b0, alloc usePsram 0 n = Some b0 -> alloc usePsram 1 n = None ->
      init v0 width height scale bits pins usePsram
      = ([CreateSemaphore 0; CreateSemaphore 1; NewRgbPanel cfg;
          alloc_call usePsram 0 n; alloc_call usePsram 1 n], inl (AssertFailed 142))).
Proof.
  intros Hs H0 H1 cfg n Hp.
  rewrite (init_after_panel _ _ _ _ _ _ _ _ Hs H0 H1 Hp).
  rewrite fbSize_set_panel_handle, fbSize_set_sems. fold n.
  split; [intros Ha0 | intros b0 Ha0 Ha1]; cbn [alloc_loop]; rewrite bind_call, Ha0;
    [|rewrite bind_call, Ha1]; reflexivity.
Qed.

(** C20. With 3-bit colour, [init] allocates [fbSize] =
    [frameWidth * frameHeight / 2] bytes per buffer, but then [memset]s
    [frameWidth * frameHeight] bytes of buffer 0: a heap overflow for
    every non-empty frame, which is where [init] goes wrong. *)
Theorem init_3bit_overflow `{!PlatformLaws} v0 width height scale pins usePsram h b0 b1 :
  0 < scale -> xSemaphoreCreateBinary 0 = true -> xSemaphoreCreateBinary 1 = true ->
  let cfg := panel_config_of width height (init_fields width height scale 3 v0) pins 3 in
  let n := width / scale * (height / scale) in
  0 < n ->
  esp_lcd_new_rgb_panel cfg = (ESP_OK, h) ->
  alloc usePsram 0 (n / 2) = Some b0 -> alloc usePsram 1 (n / 2) = Some b1 ->
  init v0 width height scale 3 pins usePsram
  = ([CreateSemaphore 0; CreateSemaphore 1; NewRgbPanel cfg;
      alloc_call usePsram 0 (n / 2); alloc_call usePsram 1 (n / 2); Memset n],
     inl HeapOverflow).
Proof.
  intros Hs H0 H1 cfg n Hn Hp Ha0 Ha1.
  assert (Hl : length b0 = n / 2) by (eapply alloc_size; exact Ha0).
  rewrite (init_after_panel _ _ _ _ _ _ _ _ Hs H0 H1 Hp).
  autorewrite with setup. cbn [Nat.eqb]. fold n.
  rewrite (bind_ok _ _ _ _ (alloc_loop_two _ _ _ _ _ _ Ha0 Ha1)).
  erewrite bind_err by (apply fill_buffer0_overflow; cbn; rewrite Hl; fold n; vlia).
  reflexivity.
Qed.

(** C28. [init] does not check the resolution against its timing table
    (VGA.cpp 33-42 and 89-117). For any other width and height, an
    [init] in which every platform call succeeds returns normally, and
    the configuration it hands to [esp_lcd_new_rgb_panel] has a pixel
    clock of 0 Hz and all six porches 0, as the [memset] of line 52 left
    them. *)
Theorem init_unknown_mode `{!PlatformLaws} v0 width height scale bits pins (usePsram : bool)
    h b0 b1 :
  0 < scale -> bits <> 3 ->
  ~ In (width, height) [(800, 600); (640, 480); (640, 400); (640, 350)] ->
  let n := width / scale * (height / scale) in
  let cfg := panel_config_of width height (init_fields width height scale bits v0) pins bits in
  xSemaphoreCreateBinary 0 = true -> xSemaphoreCreateBinary 1 = true ->
  esp_lcd_new_rgb_panel cfg = (ESP_OK, h) ->
  alloc usePsram 0 n = Some b0 -> alloc usePsram 1 n = Some b1 ->
  esp_lcd_rgb_panel_register_event_callbacks h cbs = ESP_OK ->
  esp_lcd_panel_reset h = ESP_OK -> esp_lcd_panel_init h = ESP_OK ->
  exists v c,
    init v0 width height scale bits pins usePsram
    = (init_calls v0 width height scale bits pins usePsram, inr (v, c))
    /\ pclk_hz c = 0%Z /\ porch c = mkTimings 0 0 0 0 0 0.
Proof.
  intros Hs Hb Hm n cfg H0 H1 Hp Ha0 Ha1 Hr Hre Hi.
  destruct (init_ok_result v0 width height scale bits pins usePsram h b0 b1
              Hs Hb H0 H1 Hp Ha0 Ha1 Hr Hre Hi) as (v & Hinit & _).
  exists v, cfg. split; [exact Hinit|].
  destruct (pixelClockHz_off_table width height Hm) as [Hc Ht]. split; assumption.
Qed.

End InitProperties.

End Setup.
