(* ===== verification/Scanout.v ===== *)
(** * Scanout: one frame of bounce-buffer chunks

    The LCD peripheral (ESP-IDF, not in this repository) calls
    [bounceEvent] once per chunk of [bounceBufferLines] physical lines, in
    screen order: [frame_chunks]. The drawing task runs between any two
    chunks. [chunks_of] picks the chunk requests out of a sequence of
    events. The theorems say: over a frame every chunk is converted from
    the buffer that was in front when the frame began, so the panel gets
    [produce_ref] of that buffer. Once the task has signalled, exactly one
    chunk of each frame, the last, swaps the front buffer in the swap
    check of [bounceEvent]. Boot applies them to the object [init] returns. *)

From S2P Require Import Prelude FrameStore Convert Sync.
Import FrameStore Convert Sync.

Module Scanout.

(** The chunk requests of one frame: position and length in bytes. *)
Definition frame_chunks (v : VGA) : list (nat * nat) :=
  let blk := bounceBufferLines v * screenWidth v in
  map (fun k => (k * blk, blk)) (seq 0 (screenHeight v / bounceBufferLines v)).

Fixpoint chunks_of (es : list event) : list (nat * nat) :=
  match es with
  | [] => []
  | Chunk p l :: es' => (p, l) :: chunks_of es'
  | _ :: es' => chunks_of es'
  end.

(** The events of a list of chunk requests. *)
Definition chunk_events (cs : list (nat * nat)) : list event :=
  map (fun c => Chunk (fst c) (snd c)) cs.

(** The buffer being scanned out. *)
Definition front_buffer (v : VGA) : list Z := frameBuffer v (frameBufferIndex v).

(** Chunks cover the screen in whole logical lines. *)
Definition frame_ok (v : VGA) : bool :=
  (0 <? bounceBufferLines v)
  && (screenHeight v mod bounceBufferLines v =? 0)
  && (bounceBufferLines v mod frameScale v =? 0).

(** ** What the conversion depends on *)

Lemma geometry_fields v v' :
  geometry v = geometry v' ->
  frameWidth v = frameWidth v' /\ frameHeight v = frameHeight v'
  /\ screenWidth v = screenWidth v' /\ screenHeight v = screenHeight v'
  /\ frameScale v = frameScale v' /\ colorBits v = colorBits v'
  /\ bounceBufferLines v = bounceBufferLines v'.
Proof. unfold geometry. intros H. injection H. tauto. Qed.

Lemma bounce_fill_ext v v' pos len :
  geometry v = geometry v' -> front_buffer v = front_buffer v' ->
  bounce_fill v pos len = bounce_fill v' pos len.
Proof.
  intros Hg Hf. destruct (geometry_fields v v' Hg) as (H1 & _ & H3 & _ & H5 & H6 & _).
  unfold bounce_fill. change (frameBuffer v (frameBufferIndex v)) with (front_buffer v).
  change (frameBuffer v' (frameBufferIndex v')) with (front_buffer v').
  now rewrite H1, H3, H5, H6, Hf.
Qed.

Lemma threshold_ext v v' : geometry v = geometry v' -> threshold v = threshold v'.
Proof.
  intros Hg. destruct (geometry_fields v v' Hg) as (_ & _ & H3 & H4 & _ & _ & H7).
  unfold threshold. now rewrite H3, H4, H7.
Qed.

(** ** Events before the boundary keep the front buffer *)

Lemma step_front_stable s e s' o :
  sync_inv s -> step s e = Some (s', o) ->
  (forall p l, e = Chunk p l -> p < threshold (vga s)) ->
  front_buffer (vga s') = front_buffer (vga s).
Proof.
  intros Hinv Hs Hb. pose proof (draw_index_ne s Hinv) as Hd.
  destruct Hinv as [Hidx _]. destruct s as [v t]. cbn [vga task] in *.
  unfold step in Hs. cbn [vga task] in Hs. unfold front_buffer.
  destruct e; [destruct t | destruct t | destruct t | ]; try discriminate.
  - destruct (_ =? _); [|discriminate]. injection Hs as <- <-. cbn [vga].
    unfold getDrawBuffer in *.
    destruct (frameBufferIndex v) as [|[|]] eqn:Hi; cbn; rewrite ?Hi; cbn;
      reflexivity || lia.
  - injection Hs as <- <-. reflexivity.
  - unfold vsyncWait_take, xSemaphoreTake in Hs.
    destruct (sem_vsync_end v); [|discriminate]. injection Hs as <- <-. reflexivity.
  - injection Hs as <- <-. cbn [vga]. rewrite swap_check_spec.
    specialize (Hb pos len eq_refl). cbn in Hb.
    replace (threshold v <=? pos) with false by (symmetry; apply Nat.leb_gt; lia).
    reflexivity.
Qed.

Lemma step_output_nochunk s e s' o :
  step s e = Some (s', o) -> (forall p l, e <> Chunk p l) -> o = [].
Proof.
  intros Hs Hn. destruct s as [v t]. unfold step in Hs. cbn [vga task] in Hs.
  destruct e; [destruct t | destruct t | destruct t | ]; try discriminate.
  - destruct (_ =? _); [|discriminate]. now injection Hs as <- <-.
  - now injection Hs as <- <-.
  - destruct (vsyncWait_take v); [|discriminate]. now injection Hs as <- <-.
  - now elim (Hn pos len).
Qed.

Lemma run_no_chunks s es s' o :
  chunks_of es = [] -> run s es = Some (s', o) -> o = [].
Proof.
  revert s s' o. induction es as [|e es IH]; intros s s' o Hc Hr.
  - now injection Hr as _ <-.
  - cbn in Hr. destruct (step s e) as [[s1 o1]|] eqn:Hs; [|discriminate].
    destruct (run s1 es) as [[s2 o2]|] eqn:Hr2; [|discriminate].
    injection Hr as _ <-. destruct e; try discriminate;
      rewrite (step_output_nochunk _ _ _ _ Hs) by discriminate;
      apply (IH s1 s2 o2 Hc Hr2).
Qed.

(** The bytes of a sequence of events in which only the last chunk may
    reach the boundary: each chunk converted from the starting state. *)
Lemma run_output s es s' o :
  sync_inv s -> run s es = Some (s', o) ->
  Forall (fun c => fst c < threshold (vga s)) (removelast (chunks_of es)) ->
  o = concat (map (fun c => bounce_fill (vga s) (fst c) (snd c)) (chunks_of es)).
Proof.
  revert s s' o. induction es as [|e es IH]; intros s s' o Hinv Hr Hb.
  - now injection Hr as _ <-.
  - cbn in Hr. destruct (step s e) as [[s1 o1]|] eqn:Hs; [|discriminate].
    destruct (run s1 es) as [[s2 o2]|] eqn:Hr2; [|discriminate].
    injection Hr as _ <-.
    pose proof (step_sync_inv _ _ _ _ Hinv Hs) as Hinv1.
    pose proof (step_geometry _ _ _ _ Hs) as Hg1.
    destruct e as [b| | |p l].
    1-3: assert (Hf : front_buffer (vga s1) = front_buffer (vga s))
           by (apply (step_front_stable s _ s1 o1 Hinv Hs); intros ? ? H; discriminate H);
         rewrite (step_output_nochunk _ _ _ _ Hs) by discriminate;
         cbn [chunks_of app] in *;
         rewrite (IH s1 s2 o2 Hinv1 Hr2)
           by (eapply Forall_impl; [|exact Hb]; intros c Hc;
               rewrite (threshold_ext _ _ Hg1); exact Hc);
         f_equal; apply map_ext; intros c; now apply bounce_fill_ext.
    rewrite step_chunk in Hs. injection Hs as <- <-. cbn [chunks_of] in *.
    destruct (chunks_of es) as [|c cs] eqn:Hc.
    + rewrite (run_no_chunks _ _ _ _ Hc Hr2). cbn. reflexivity.
    + change (removelast ((p, l) :: c :: cs)) with ((p, l) :: removelast (c :: cs)) in Hb.
      apply Forall_cons_iff in Hb as [Hp Hb]. cbn [fst] in Hp.
      rewrite swap_check_spec in Hr2, Hinv1.
      replace (threshold (vga s) <=? p) with false in Hr2, Hinv1
        by (symmetry; apply Nat.leb_gt; exact Hp).
      cbn [andb] in Hr2, Hinv1. destruct s as [v t]. cbn [vga task] in *.
      rewrite (IH _ _ _ Hinv1 Hr2 Hb). reflexivity.
Qed.

(** ** Whole frames *)

Lemma produce_ref_app v p a b :
  produce_ref v p (a + b) = produce_ref v p a ++ produce_ref v (p + a) b.
Proof. unfold produce_ref. now rewrite seq_app, map_app. Qed.

Lemma produce_ref_blocks v m K :
  concat (map (fun k => produce_ref v (k * m) m) (seq 0 K)) = produce_ref v 0 (K * m).
Proof.
  induction K as [|K IH]; [reflexivity|].
  rewrite seq_S, map_app, concat_app, IH. cbn [map concat]. rewrite app_nil_r.
  replace (S K * m) with (K * m + m) by lia. now rewrite produce_ref_app.
Qed.

Lemma frame_ok_facts v :
  frame_ok v = true ->
  0 < bounceBufferLines v
  /\ screenHeight v = screenHeight v / bounceBufferLines v * bounceBufferLines v
  /\ exists t, bounceBufferLines v = frameScale v * t.
Proof.
  unfold frame_ok. rewrite !andb_true_iff, Nat.ltb_lt, !Nat.eqb_eq.
  intros [[HB Hh] Hs]. split; [exact HB|]. split.
  - pose proof (Nat.div_mod_eq (screenHeight v) (bounceBufferLines v)). lia.
  - apply Nat.Div0.mod_divides in Hs as [t Ht]. now exists t.
Qed.

(** Every chunk of a frame but the last starts before the boundary. *)
Lemma frame_chunks_before_boundary v :
  frame_ok v = true -> 0 < screenWidth v ->
  Forall (fun c => fst c < threshold v) (removelast (frame_chunks v)).
Proof.
  intros Hf Hsw. destruct (frame_ok_facts v Hf) as (HB & HK & _).
  unfold frame_chunks, threshold.
  set (B := bounceBufferLines v) in *. set (K := screenHeight v / B) in *.
  destruct (Nat.eq_dec K 0) as [H0|H0]; [rewrite H0; constructor|].
  replace K with (S (K - 1)) at 1 by lia. rewrite seq_S, map_app. cbn [map].
  rewrite removelast_last.
  apply Forall_map, Forall_forall. intros k Hk. apply in_seq in Hk. cbn [fst].
  rewrite HK, last_chunk_start by lia.
  replace (B * screenWidth v) with (B * screenWidth v) by reflexivity.
  apply chunk_before_last; [nia | lia].
Qed.

(** The bytes of one frame from a state satisfying the invariant. *)
Lemma frame_output s es s' o :
  sync_inv s -> geometry_ok (vga s) = true -> frame_ok (vga s) = true ->
  chunks_of es = frame_chunks (vga s) -> run s es = Some (s', o) ->
  o = produce_ref (vga s) 0 (screenWidth (vga s) * screenHeight (vga s)).
Proof.
  intros Hinv Hg Hf Hc Hr.
  pose proof (geometry_ok_cases _ Hg) as (Hfw & Hsw & Hcase).
  assert (Hsw0 : 0 < screenWidth (vga s))
    by (destruct Hcase as [[Hs _]|[[Hs _]|[[Hs _]|[Hs _]]]]; rewrite Hsw, Hs; lia).
  rewrite (run_output s es s' o Hinv Hr)
    by (rewrite Hc; now apply frame_chunks_before_boundary).
  destruct (frame_ok_facts _ Hf) as (HB & HK & t & Ht).
  rewrite Hc. unfold frame_chunks. rewrite map_map. cbn [fst snd].
  set (v := vga s) in *. set (B := bounceBufferLines v) in *.
  rewrite (map_ext (fun k => bounce_fill v (k * (B * screenWidth v)) (B * screenWidth v))
                   (fun k => produce_ref v (k * (B * screenWidth v)) (B * screenWidth v))).
  - rewrite produce_ref_blocks. f_equal. rewrite HK at 2. ring.
  - intros k. apply bounce_fill_agrees; [exact Hg|]. unfold aligned.
    rewrite Ht. apply andb_true_iff. split; apply Nat.eqb_eq.
    + apply block_multiple.
    + pose proof (block_multiple 1 (frameScale v) t (screenWidth v)) as H1.
      now rewrite Nat.mul_1_l in H1.
Qed.

(** C2. No tearing: over one frame of chunk requests, with any drawing, any
    [vsyncWait] and any swap in between, the panel receives exactly the
    specified picture of the buffer that was in front when the frame
    began. *)
Theorem frame_no_tearing s es s' o :
  sync_inv s -> geometry_ok (vga s) = true -> frame_ok (vga s) = true ->
  chunks_of es = frame_chunks (vga s) -> run s es = Some (s', o) ->
  o = produce_ref (vga s) 0 (screenWidth (vga s) * screenHeight (vga s)).
Proof. apply frame_output. Qed.

(** The last chunk of a frame, and it is at the boundary. *)
Lemma last_frame_chunk v :
  frame_ok v = true -> 0 < screenWidth v -> 0 < screenHeight v ->
  let B := bounceBufferLines v in
  let K := screenHeight v / B in
  frame_chunks v = removelast (frame_chunks v) ++ [((K - 1) * (B * screenWidth v), B * screenWidth v)]
  /\ threshold v <= (K - 1) * (B * screenWidth v).
Proof.
  intros Hf Hsw Hh B K. destruct (frame_ok_facts v Hf) as (HB & HK & _).
  fold B K in HB, HK. assert (HK0 : 0 < K) by nia.
  unfold frame_chunks. fold B K.
  replace K with (S (K - 1)) at 1 2 by lia. rewrite seq_S, map_app. cbn [map].
  rewrite removelast_last. replace (S (K - 1) - 1) with (K - 1) by lia.
  split; [reflexivity|].
  unfold threshold. fold B. rewrite HK at 1. rewrite last_chunk_start by lia. lia.
Qed.

(** Whether the swap check of [bounceEvent] at [pos] changes the front
    index. Once the task has given its token, it does exactly when [pos]
    is past the threshold. *)
Lemma swap_check_moves v pos :
  sem_gui_ready v = true -> frameBufferIndex v < 2 ->
  negb (frameBufferIndex (swap_check v pos) =? frameBufferIndex v) = (threshold v <=? pos).
Proof.
  intros Hg Hi. rewrite swap_check_spec, Hg, andb_true_r.
  destruct (threshold v <=? pos); cbn [frameBufferIndex set_sems set_frameBufferIndex].
  - apply negb_true_iff, Nat.eqb_neq, flip_neq, Hi.
  - now rewrite Nat.eqb_refl.
Qed.

(** C14. Once the task has given [_sem_gui_ready], exactly one chunk of
    a frame swaps the front buffer when [bounceEvent] runs its swap
    check on it (VGA.cpp 367-376): the last chunk, at the top of the last
    bounce buffer of the screen. The statement asks that the chunks tile
    the frame ([frame_ok]), the screen is not empty and the front index
    is 0 or 1. *)
Theorem frame_one_boundary v :
  frame_ok v = true -> 0 < screenWidth v -> 0 < screenHeight v ->
  sem_gui_ready v = true -> frameBufferIndex v < 2 ->
  filter (fun c => negb (frameBufferIndex (swap_check v (fst c)) =? frameBufferIndex v))
         (frame_chunks v)
  = [((screenHeight v / bounceBufferLines v - 1) * (bounceBufferLines v * screenWidth v),
      bounceBufferLines v * screenWidth v)].
Proof.
  intros Hf Hsw Hh Hg Hi. pose proof (frame_chunks_before_boundary v Hf Hsw) as Hbefore.
  destruct (last_frame_chunk v Hf Hsw Hh) as [Hlast Hth].
  rewrite (filter_ext _ (fun c => threshold v <=? fst c))
    by (intros c; now apply swap_check_moves).
  rewrite Hlast, filter_app, filter_none.
  - cbn [filter fst app]. now rewrite (proj2 (Nat.leb_le _ _) Hth).
  - eapply Forall_impl; [|exact Hbefore]. intros c Hc. now apply Nat.leb_gt.
Qed.

(** ** The chunks of a frame *)

Lemma nth_frame_chunk v k :
  k < screenHeight v / bounceBufferLines v ->
  nth k (frame_chunks v) (0, 0)
  = (k * (bounceBufferLines v * screenWidth v), bounceBufferLines v * screenWidth v).
Proof.
  intros Hk. unfold frame_chunks. now rewrite nth_map_seq.
Qed.

(** ** Handing a frame over *)

Lemma run_app_some s es1 es2 s' o :
  run s (es1 ++ es2) = Some (s', o) ->
  exists s1 o1 o2, run s es1 = Some (s1, o1) /\ run s1 es2 = Some (s', o2) /\ o = o1 ++ o2.
Proof.
  revert s o. induction es1 as [|e es1 IH]; intros s o Hr.
  - exists s, [], o. auto.
  - cbn [app run] in *. destruct (step s e) as [[s1 o1]|]; [|discriminate].
    destruct (run s1 (es1 ++ es2)) as [[s2 o2]|] eqn:Hr2; [|discriminate].
    injection Hr as <- <-. destruct (IH s1 o2 Hr2) as (s3 & o3 & o4 & H3 & H4 & ->).
    exists s3, (o1 ++ o3), o4. rewrite H3. repeat split; [exact H4 | apply app_assoc].
Qed.

(** While the task waits with its token given, chunks before the boundary
    change nothing, and no other event can happen. *)
Lemma run_waiting_idle s es s' o :
  task s = Waiting -> sem_vsync_end (vga s) = false ->
  Forall (fun c => fst c < threshold (vga s)) (chunks_of es) ->
  run s es = Some (s', o) -> s' = s.
Proof.
  revert s' o. induction es as [|e es IH]; intros s' o Ht Hv Hc Hr.
  - now injection Hr as <- _.
  - cbn [run] in Hr. destruct (step s e) as [[s1 o1]|] eqn:Hs; [|discriminate].
    destruct (run s1 es) as [[s2 o2]|] eqn:Hr2; [|discriminate]. injection Hr as <- _.
    assert (Hc' : Forall (fun c => fst c < threshold (vga s)) (chunks_of es))
      by (destruct e; cbn in Hc; [exact Hc .. | now inversion Hc]).
    enough (s1 = s) by (subst s1; exact (IH s2 o2 Ht Hv Hc' Hr2)).
    destruct e as [b| | |p l].
    1-3: destruct s as [v t]; cbn in Ht; subst t; unfold step in Hs; cbn in Hs;
         try discriminate; unfold vsyncWait_take, xSemaphoreTake in Hs;
         cbn in Hv; rewrite Hv in Hs; discriminate.
    rewrite step_chunk in Hs. injection Hs as <- _.
    cbn [chunks_of] in Hc. inversion Hc as [|? ? Hp _]; subst. cbn [fst] in Hp.
    rewrite swap_check_spec, (proj2 (Nat.leb_gt _ _) Hp). destruct s; cbn in *; congruence.
Qed.

(** C9. Swap correctness: a task that draws [b], calls [vsyncWait] and is
    released finds [b] on the screen. After the drawing, the give, any
    events before the boundary, the boundary chunk and the take, the front
    buffer holds exactly the bytes drawn, and [getDrawBuffer] now returns
    the buffer that was in front before. *)
Theorem frame_handoff s b es pos len s' o :
  sync_inv s -> task s = Drawing ->
  Forall (fun c => fst c < threshold (vga s)) (chunks_of es) -> threshold (vga s) <= pos ->
  run s (Draw b :: Give :: es ++ [Chunk pos len; Take]) = Some (s', o) ->
  task s' = Drawing
  /\ frameBufferIndex (vga s') = getDrawBuffer (vga s)
  /\ front_buffer (vga s') = b
  /\ getDrawBuffer (vga s') = frameBufferIndex (vga s).
Proof.
  destruct s as [v t]. intros (Hidx & Hinv) Ht Hc Hp Hr. cbn [task vga] in *. subst t.
  destruct Hinv as [Hg He].
  cbn [run step vga task] in Hr.
  destruct (length b =? length (frameBuffer v (getDrawBuffer v))); [|discriminate].
  cbn [vga task] in Hr.
  set (v2 := vsyncWait_give (set_frameBuffer v (getDrawBuffer v) b)) in Hr.
  destruct (run (mkSys v2 Waiting) (es ++ [Chunk pos len; Take])) as [[s3 o3]|] eqn:Hr3;
    [|discriminate].
  injection Hr as <- _.
  destruct (run_app_some _ _ _ _ _ Hr3) as (s4 & o4 & o5 & H4 & H5 & _).
  assert (Hth : threshold v2 = threshold v) by reflexivity.
  assert (Hc2 : Forall (fun c => fst c < threshold (vga (mkSys v2 Waiting))) (chunks_of es))
    by (cbn [vga]; rewrite Hth; exact Hc).
  rewrite (run_waiting_idle (mkSys v2 Waiting) es s4 o4 eq_refl He Hc2 H4) in H5.
  cbn [run] in H5. rewrite step_chunk in H5. cbn [vga task] in H5.
  rewrite swap_check_spec, Hth, (proj2 (Nat.leb_le _ _) Hp) in H5. cbn in H5.
  injection H5 as <- _. subst v2. cbn. unfold getDrawBuffer, flip, front_buffer.
  destruct (frameBufferIndex v) as [|[|]]; cbn; repeat split; reflexivity || lia.
Qed.

Lemma run_app s es1 es2 :
  run s (es1 ++ es2)
  = match run s es1 with
    | Some (s1, o1) =>
      match run s1 es2 with Some (s2, o2) => Some (s2, o1 ++ o2) | None => None end
    | None => None
    end.
Proof.
  revert s. induction es1 as [|e es1 IH]; intros s; cbn [app run].
  - destruct (run s es2) as [[]|]; reflexivity.
  - destruct (step s e) as [[s1 o1]|]; [|reflexivity]. rewrite IH.
    destruct (run s1 es1) as [[s2 o2]|]; [|reflexivity].
    destruct (run s2 es2) as [[s3 o3]|]; [|reflexivity]. now rewrite app_assoc.
Qed.

(** Chunks before the boundary never block and, while the task waits
    with its token given, change nothing. *)
Lemma run_chunks_idle s cs :
  task s = Waiting -> Forall (fun c => fst c < threshold (vga s)) cs ->
  exists o, run s (chunk_events cs) = Some (s, o).
Proof.
  intros Ht Hc. induction Hc as [|[p l] cs Hp _ IH]; [now exists []|].
  destruct IH as [o Ho]. cbn [chunk_events map run fst snd]. rewrite step_chunk, swap_check_spec.
  cbn [fst] in Hp. rewrite (proj2 (Nat.leb_gt _ _) Hp). cbn [andb].
  destruct s as [v t]. cbn [vga task] in *. fold (chunk_events cs). rewrite Ho.
  now exists (bounce_fill v p l ++ o).
Qed.

(** C10. Liveness of the hand-off: a task waiting in [vsyncWait] with its
    token given is released within one frame. The chunk requests of a
    frame never block, the last one swaps the buffers and gives
    [_sem_vsync_end], and the take of [vsyncWait] then returns. *)
Theorem frame_releases s :
  sync_inv s -> task s = Waiting -> sem_gui_ready (vga s) = true ->
  frame_ok (vga s) = true -> 0 < screenWidth (vga s) -> 0 < screenHeight (vga s) ->
  exists s' o,
    run s (chunk_events (frame_chunks (vga s))) = Some (s', o)
    /\ frameBufferIndex (vga s') = flip (frameBufferIndex (vga s))
    /\ exists s'', step s' Take = Some (s'', []) /\ task s'' = Drawing.
Proof.
  intros Hinv Ht Hg Hf Hsw Hsh.
  pose proof (frame_chunks_before_boundary _ Hf Hsw) as Hbefore.
  destruct (last_frame_chunk _ Hf Hsw Hsh) as [Hlast Hth].
  destruct (run_chunks_idle s _ Ht Hbefore) as [o1 Ho1].
  rewrite Hlast. unfold chunk_events. rewrite map_app, run_app.
  fold (chunk_events (removelast (frame_chunks (vga s)))). rewrite Ho1.
  cbn [map run fst snd]. rewrite step_chunk, swap_check_spec, Hg, (proj2 (Nat.leb_le _ _) Hth).
  cbn [andb]. eexists. eexists. split; [reflexivity|].
  destruct s as [v t]. cbn [vga task] in *. subst t. split; [reflexivity|].
  eexists. split; reflexivity.
Qed.

End Scanout.
