(* ===== verification/Boot.v ===== *)
(** * Boot: [init] followed by the first frames

    This file composes Setup with Sync and Scanout. The object a
    successful [init] returns, with the task about to draw, satisfies the
    synchronisation invariant. In the resolutions of the timing table,
    at scale 1 or 2 with 8-bit colour, it also has the geometry the
    conversion and scanout theorems ask for. So the first frame after
    [init] is buffer 0 as [init] filled it: 255 in every byte, whatever
    the task draws meanwhile. The 640x350 mode at scale 2 is the one
    mode of the table whose bounce buffer does not tile the frame. An
    unsupported scale or depth passes [init] and then gets no bytes
    from [bounceEvent]. *)

From S2P Require Import Prelude FrameStore Convert Sync Setup Scanout.
Import FrameStore Convert Sync Setup Scanout.

Module Boot.

(** The modes of the timing table that [init] sets up with a bounce
    buffer of whole logical lines. *)
Definition boot_modes : list (nat * nat * nat) :=
  [(800, 600, 1); (800, 600, 2); (640, 480, 1); (640, 480, 2);
   (640, 400, 1); (640, 400, 2); (640, 350, 1)].

(** ** The geometry [init] sets in these modes *)

Lemma boot_mode_geometry v width height scale :
  In (width, height, scale) boot_modes ->
  geometry v = [width / scale; height / scale; width; height; scale; 8; height / 10] ->
  geometry_ok v = true /\ frame_ok v = true /\ 0 < frameScale v
  /\ screenWidth v = frameScale v * frameWidth v
  /\ screenHeight v = frameScale v * frameHeight v
  /\ screenWidth v = width /\ screenHeight v = height /\ colorBits v = 8.
Proof.
  intros Hm Hg. unfold geometry in Hg.
  injection Hg as Hfw Hfh Hsw Hsh Hs Hb HB.
  unfold geometry_ok, frame_ok, supported, unroll.
  rewrite Hfw, Hfh, Hsw, Hsh, Hs, Hb, HB.
  cbn in Hm. repeat destruct Hm as [Hm|Hm]; try contradiction;
    injection Hm as <- <- <-; repeat split; (reflexivity || lia).
Qed.

Section Boot.
Context `{P : Platform} `{!PlatformLaws}.

(** The first frame after [init] in one of [boot_modes]. *)
Lemma boot_first_frame v width height scale es s' o :
  In (width, height, scale) boot_modes ->
  geometry v = [width / scale; height / scale; width; height; scale; 8; height / 10] ->
  frameBufferIndex v = 0 -> sem_vsync_end v = false -> sem_gui_ready v = false ->
  frameBuffer0 v = repeat 255%Z (width / scale * (height / scale)) ->
  chunks_of es = frame_chunks v -> run (mkSys v Drawing) es = Some (s', o) ->
  o = repeat 255%Z (width * height).
Proof.
  intros Hm Hg Hi He Hr Hf Hc Hrun.
  destruct (boot_mode_geometry v _ _ _ Hm Hg)
    as (Hgo & Hfo & Hs & Hsw & Hsh & Hw & Hh & Hb).
  assert (Hinv : sync_inv (mkSys v Drawing)) by (unfold sync_inv; cbn; split; [lia | auto]).
  rewrite (frame_output (mkSys v Drawing) es s' o Hinv Hgo Hfo Hc Hrun).
  cbn [vga]. rewrite <- Hw, <- Hh. apply produce_ref_const; try assumption.
  unfold geometry in Hg. injection Hg as Hfw Hfh _ _ _ _ _.
  unfold frameBuffer. rewrite Hi, Hf, Hfw, Hfh. reflexivity.
Qed.

(** C8. End to end: in a mode of [boot_modes], after an [init] in which
    every platform call succeeds, the first frame the panel receives is
    the [memset] of buffer 0, 255 in each of its [width * height] bytes.
    This holds for any sequence of drawing, [vsyncWait] and chunk events
    in which the chunks are those of one frame. *)
Theorem init_first_frame width height scale pins (usePsram : bool) h b0 b1 :
  In (width, height, scale) boot_modes ->
  let n := width / scale * (height / scale) in
  let cfg := panel_config_of width height (init_fields width height scale 8 VGA_default) pins 8 in
  xSemaphoreCreateBinary 0 = true -> xSemaphoreCreateBinary 1 = true ->
  esp_lcd_new_rgb_panel cfg = (ESP_OK, h) ->
  alloc usePsram 0 n = Some b0 -> alloc usePsram 1 n = Some b1 ->
  esp_lcd_rgb_panel_register_event_callbacks h cbs = ESP_OK ->
  esp_lcd_panel_reset h = ESP_OK -> esp_lcd_panel_init h = ESP_OK ->
  exists v,
    init VGA_default width height scale 8 pins usePsram
    = (init_calls VGA_default width height scale 8 pins usePsram, inr (v, cfg))
    /\ forall es s' o,
       chunks_of es = frame_chunks v -> run (mkSys v Drawing) es = Some (s', o) ->
       o = repeat 255%Z (width * height).
Proof.
  intros Hm n cfg H0 H1 Hp Ha0 Ha1 Hr Hre Hi.
  assert (Hs : 0 < scale)
    by (cbn in Hm; repeat destruct Hm as [Hm|Hm]; try contradiction; injection Hm; lia).
  destruct (init_ok_result VGA_default width height scale 8 pins usePsram h b0 b1
              Hs ltac:(lia) H0 H1 Hp Ha0 Ha1 Hr Hre Hi)
    as (v & Hinit & Hf0 & _ & Hidx & He & Hg & _ & Hgeo & _).
  exists v. split; [exact Hinit|]. intros es s' o Hc Hrun.
  apply (boot_first_frame v width height scale es s' o); assumption.
Qed.

(** C23. [init] accepts 640x350 at scale 2 (a mode of its timing table),
    but its bounce buffer of [350 / 10 = 35] lines is not a whole number
    of logical lines. The chunks do not tile the frame ([frame_ok]
    fails), and the second chunk of every frame is converted one physical
    line short, leaving stale bytes on the screen. *)
Theorem mode_640x350_broken pins (usePsram : bool) h b0 b1 :
  let n := 640 / 2 * (350 / 2) in
  let cfg := panel_config_of 640 350 (init_fields 640 350 2 8 VGA_default) pins 8 in
  xSemaphoreCreateBinary 0 = true -> xSemaphoreCreateBinary 1 = true ->
  esp_lcd_new_rgb_panel cfg = (ESP_OK, h) ->
  alloc usePsram 0 n = Some b0 -> alloc usePsram 1 n = Some b1 ->
  esp_lcd_rgb_panel_register_event_callbacks h cbs = ESP_OK ->
  esp_lcd_panel_reset h = ESP_OK -> esp_lcd_panel_init h = ESP_OK ->
  exists v,
    init VGA_default 640 350 2 8 pins usePsram
    = (init_calls VGA_default 640 350 2 8 pins usePsram, inr (v, cfg))
    /\ frame_ok v = false
    /\ nth 1 (frame_chunks v) (0, 0) = (35 * 640, 35 * 640)
    /\ length (bounce_fill v (35 * 640) (35 * 640)) < 35 * 640.
Proof.
  intros n cfg H0 H1 Hp Ha0 Ha1 Hr Hre Hi.
  destruct (init_ok_result VGA_default 640 350 2 8 pins usePsram h b0 b1
              ltac:(lia) ltac:(lia) H0 H1 Hp Ha0 Ha1 Hr Hre Hi)
    as (v & Hinit & _ & _ & _ & _ & _ & _ & Hgeo & _).
  unfold geometry in Hgeo. injection Hgeo as Hfw Hfh Hsw Hsh Hs Hb HB.
  exists v. split; [exact Hinit|]. split; [|split].
  - unfold frame_ok. rewrite Hsh, HB, Hs. reflexivity.
  - rewrite nth_frame_chunk by (rewrite Hsh, HB; apply Nat.ltb_lt; reflexivity).
    rewrite HB, Hsw. f_equal; vlia.
  - rewrite bounce_fill_odd_chunk_short; [lia | exact Hs | exact Hb | | exact Hsw].
    rewrite Hfw. reflexivity.
Qed.

(** C27. [init] accepts any scale and colour depth: with a scale other
    than 1 or 2, or a depth other than 3 or 8 bits, an [init] in which
    every platform call succeeds returns normally, and then every
    [bounceEvent] writes no byte into the bounce buffer, so the panel
    shows whatever the buffer held. Nothing rejects the geometry at
    set-up. *)
Theorem init_unsupported_blank width height scale bits pins (usePsram : bool) h b0 b1 :
  0 < scale -> bits <> 3 -> ((scale <> 1 /\ scale <> 2) \/ bits <> 8) ->
  let n := width / scale * (height / scale) in
  let cfg := panel_config_of width height (init_fields width height scale bits VGA_default) pins bits in
  xSemaphoreCreateBinary 0 = true -> xSemaphoreCreateBinary 1 = true ->
  esp_lcd_new_rgb_panel cfg = (ESP_OK, h) ->
  alloc usePsram 0 n = Some b0 -> alloc usePsram 1 n = Some b1 ->
  esp_lcd_rgb_panel_register_event_callbacks h cbs = ESP_OK ->
  esp_lcd_panel_reset h = ESP_OK -> esp_lcd_panel_init h = ESP_OK ->
  exists v,
    init VGA_default width height scale bits pins usePsram
    = (init_calls VGA_default width height scale bits pins usePsram, inr (v, cfg))
    /\ forall pos len, bounce_fill v pos len = [].
Proof.
  intros Hs Hb Hu n cfg H0 H1 Hp Ha0 Ha1 Hr Hre Hi.
  destruct (init_ok_result VGA_default width height scale bits pins usePsram h b0 b1
              Hs Hb H0 H1 Hp Ha0 Ha1 Hr Hre Hi)
    as (v & Hinit & _ & _ & _ & _ & _ & _ & Hgeo & _).
  exists v. split; [exact Hinit|]. intros pos len. apply bounce_fill_unsupported.
  unfold geometry in Hgeo. injection Hgeo as _ _ _ _ Hsc Hbits _.
  unfold supported. rewrite Hsc, Hbits.
  destruct (Nat.eqb_spec scale 1), (Nat.eqb_spec scale 2), (Nat.eqb_spec bits 3),
    (Nat.eqb_spec bits 8); cbn; lia || reflexivity.
Qed.

End Boot.

End Boot.
