(* ===== verification/Witnesses.v ===== *)
(** * Witnesses: the theorems applied to small concrete configurations

    Each witness instantiates one theorem on a concrete object, and
    discharges the theorem's hypotheses by evaluation. The objects are
    scaled-down versions of the driver's modes: a 20x20 screen at scale 2
    with 3-bit colour ([ex3]) and an 80x20 screen at scale 2 with 8-bit
    colour ([ex8]). Both have a bounce buffer of 2 lines, as [init] computes
    it ([screenHeight / 10]). The [init] theorems are applied on three
    platforms: [ex_platform], where every call succeeds; [ex_no_heap],
    where every allocation returns [NULL]; and [ex_no_panel], where
    [esp_lcd_new_rgb_panel] fails. *)

From S2P Require Import Prelude FrameStore Convert Sync Setup Scanout Boot.
Import FrameStore Convert Sync Setup Scanout Boot.

Module Witnesses.

Definition ex_buf (n : nat) : list Z := map (fun i => Z.of_nat (i mod 251)) (seq 0 n).

Definition ex_vga (s b fw fh : nat) : VGA := {|
  frameBuffer0 := ex_buf (if b =? 3 then fw * fh / 2 else fw * fh);
  frameBuffer1 := repeat 7%Z (if b =? 3 then fw * fh / 2 else fw * fh);
  frameBufferIndex := 0;
  frameWidth := fw; frameHeight := fh;
  screenWidth := s * fw; screenHeight := s * fh;
  frameScale := s; colorBits := b; bounceBufferLines := s * fh / 10;
  sem_vsync_end := false; sem_gui_ready := false;
  panel_handle := Some 1; hBorder := 0; vBorder := 0; lastBounceBufferPos := 0;
  frameBuffersInPsram := false |}.

Definition ex3 : VGA := ex_vga 2 3 10 10.
Definition ex8 : VGA := ex_vga 2 8 40 10.

(** The task has drawn and given its token. *)
Definition ex_waiting : sys := mkSys (vsyncWait_give ex3) Waiting.

(** A platform on which every call succeeds; the heap returns zeroed
    blocks. *)
Definition ex_platform : Platform := {|
  xSemaphoreCreateBinary := fun _ => true;
  esp_lcd_new_rgb_panel := fun _ => (ESP_OK, 1);
  esp_lcd_rgb_panel_register_event_callbacks := fun _ _ => ESP_OK;
  esp_lcd_panel_reset := fun _ => ESP_OK;
  esp_lcd_panel_init := fun _ => ESP_OK;
  heap_caps_malloc := fun _ n => Some (repeat 0%Z n);
  malloc := fun _ n => Some (repeat 0%Z n) |}.

(** The same with no heap left. *)
Definition ex_no_heap : Platform := {|
  xSemaphoreCreateBinary := fun _ => true;
  esp_lcd_new_rgb_panel := fun _ => (ESP_OK, 1);
  esp_lcd_rgb_panel_register_event_callbacks := fun _ _ => ESP_OK;
  esp_lcd_panel_reset := fun _ => ESP_OK;
  esp_lcd_panel_init := fun _ => ESP_OK;
  heap_caps_malloc := fun _ _ => None;
  malloc := fun _ _ => None |}.

(** The same, where [esp_lcd_new_rgb_panel] fails with [ESP_FAIL] (-1). *)
Definition ex_no_panel : Platform := {|
  xSemaphoreCreateBinary := fun _ => true;
  esp_lcd_new_rgb_panel := fun _ => ((-1)%Z, 0);
  esp_lcd_rgb_panel_register_event_callbacks := fun _ _ => ESP_OK;
  esp_lcd_panel_reset := fun _ => ESP_OK;
  esp_lcd_panel_init := fun _ => ESP_OK;
  heap_caps_malloc := fun _ n => Some (repeat 0%Z n);
  malloc := fun _ n => Some (repeat 0%Z n) |}.

Definition result_state (r : option (sys * list Z)) : sys :=
  match r with Some (s, _) => s | None => mkSys ex3 Drawing end.
Definition result_bytes (r : option (sys * list Z)) : list Z :=
  match r with Some (_, o) => o | None => [] end.

(** A frame of [ex3] with the task drawing, signalling, and being released
    at the end. *)
Definition ex_frame_events : list event :=
  Draw (repeat 1%Z 50) :: Give
  :: map (fun c => Chunk (fst c) (snd c)) (frame_chunks ex3) ++ [Take].

Definition ex_handoff_events : list event :=
  Draw (repeat 1%Z 50) :: Give :: [Chunk 0 40] ++ [Chunk 360 40; Take].

Definition ex_steady_events : list event :=
  [Chunk 0 40; Draw (repeat 2%Z 50); Chunk 360 40].

Lemma ex_platform_laws : @PlatformLaws ex_platform.
Proof. split; intros i n b H; injection H as <-; apply repeat_length. Qed.

Lemma bounce_fill_correct_witness :
  bounce_fill ex3 40 80 = produce_ref ex3 40 80.
Proof. apply bounce_fill_correct; reflexivity. Defined.

Lemma frame_no_tearing_witness :
  result_bytes (run (mkSys ex3 Drawing) ex_frame_events)
  = produce_ref ex3 0 (screenWidth ex3 * screenHeight ex3).
Proof.
  apply (frame_no_tearing (mkSys ex3 Drawing) ex_frame_events
           (result_state (run (mkSys ex3 Drawing) ex_frame_events))).
  - split; [cbn; lia | split; reflexivity].
  - reflexivity.
  - reflexivity.
  - vm_compute. reflexivity.
  - vm_compute. reflexivity.
Defined.

Lemma reachable_sync_inv_witness : sync_inv ex_waiting.
Proof.
  apply (reachable_sync_inv ex3).
  - split; [reflexivity | split; reflexivity].
  - apply (reach_step _ (mkSys ex3 Drawing) Give ex_waiting []); [apply reach_init | reflexivity].
Defined.

Lemma swap_only_when_waiting_witness :
  task ex_waiting = Waiting /\ task (result_state (step ex_waiting (Chunk 360 40))) = Waiting
  /\ sem_gui_ready (vga ex_waiting) = true
  /\ sem_vsync_end (vga (result_state (step ex_waiting (Chunk 360 40)))) = true
  /\ exists pos len, Chunk 360 40 = Chunk pos len.
Proof.
  apply (swap_only_when_waiting ex_waiting (Chunk 360 40) _
           (result_bytes (step ex_waiting (Chunk 360 40)))).
  - split; [cbn; lia | reflexivity].
  - vm_compute. reflexivity.
  - vm_compute. discriminate.
Defined.

Lemma drawing_front_stable_witness :
  let r := step (mkSys ex3 Drawing) (Draw (repeat 4%Z 50)) in
  frameBufferIndex (vga (result_state r)) = frameBufferIndex ex3
  /\ frameBuffer (vga (result_state r)) (frameBufferIndex (vga (result_state r)))
     = frameBuffer ex3 (frameBufferIndex ex3).
Proof.
  apply (drawing_front_stable (mkSys ex3 Drawing) (Draw (repeat 4%Z 50)) _
           (result_bytes (step (mkSys ex3 Drawing) (Draw (repeat 4%Z 50))))).
  - split; [cbn; lia | split; reflexivity].
  - reflexivity.
  - vm_compute. reflexivity.
Defined.

Lemma step_refines_witness :
  exists a', matches (result_state (step ex_waiting (Chunk 360 40))) a' = true
             /\ (a' = mkAFrame 0 AReady \/ astep (mkAFrame 0 AReady) a').
Proof.
  apply (step_refines ex_waiting (mkAFrame 0 AReady) (Chunk 360 40) _
           (result_bytes (step ex_waiting (Chunk 360 40)))).
  - reflexivity.
  - vm_compute. reflexivity.
Defined.

Lemma boundary_releases_witness :
  exists s'', step (mkSys (swap_check (vga ex_waiting) 360) Waiting) Take = Some (s'', [])
              /\ task s'' = Drawing.
Proof.
  apply (boundary_releases ex_waiting 360).
  - split; [cbn; lia | reflexivity].
  - reflexivity.
  - cbn. lia.
Defined.

Lemma frame_one_boundary_witness :
  filter (fun c => negb (frameBufferIndex (swap_check (vga ex_waiting) (fst c))
                         =? frameBufferIndex (vga ex_waiting)))
         (frame_chunks (vga ex_waiting))
  = [((screenHeight (vga ex_waiting) / bounceBufferLines (vga ex_waiting) - 1)
        * (bounceBufferLines (vga ex_waiting) * screenWidth (vga ex_waiting)),
      bounceBufferLines (vga ex_waiting) * screenWidth (vga ex_waiting))].
Proof.
  apply frame_one_boundary; [reflexivity | cbn; lia | cbn; lia | reflexivity | cbn; lia].
Defined.

Lemma bounce_fill_within_len_witness : length (bounce_fill ex8 30 370) <= 370.
Proof. apply bounce_fill_within_len. reflexivity. Defined.

Lemma bounce_fill_line_doubled_witness :
  rd (bounce_fill ex8 0 320) (3 + screenWidth ex8) = rd (bounce_fill ex8 0 320) 3.
Proof.
  apply bounce_fill_line_doubled; [reflexivity | reflexivity | vm_compute; lia | cbn; lia].
Defined.

Lemma bounce_fill_3bit_range_witness : Forall pix3 (bounce_fill ex3 20 60).
Proof. apply bounce_fill_3bit_range. reflexivity. Defined.

Lemma no_give_steady_witness :
  frameBufferIndex (vga (result_state (run (mkSys ex3 Drawing) ex_steady_events)))
    = frameBufferIndex ex3
  /\ frameBuffer (vga (result_state (run (mkSys ex3 Drawing) ex_steady_events)))
       (frameBufferIndex (vga (result_state (run (mkSys ex3 Drawing) ex_steady_events))))
     = frameBuffer ex3 (frameBufferIndex ex3).
Proof.
  apply (no_give_steady ex_steady_events (mkSys ex3 Drawing) _
           (result_bytes (run (mkSys ex3 Drawing) ex_steady_events))).
  - split; [cbn; lia | split; reflexivity].
  - reflexivity.
  - cbn. intros [H | [H | [H | H]]]; discriminate || contradiction.
  - vm_compute. reflexivity.
Defined.

Lemma draw_buffer_not_front_witness :
  getDrawBuffer (vga ex_waiting) <> frameBufferIndex (vga ex_waiting).
Proof.
  apply (draw_buffer_not_front ex3).
  - split; [reflexivity | split; reflexivity].
  - apply (reach_step _ (mkSys ex3 Drawing) Give ex_waiting []); [apply reach_init | reflexivity].
Defined.

Lemma init_success_witness :
  exists v,
    @init ex_platform VGA_default 20 20 2 8 None false
    = (@init_calls ex_platform VGA_default 20 20 2 8 None false,
       inr (v, panel_config_of 20 20 (init_fields 20 20 2 8 VGA_default) None 8))
    /\ frameBuffer0 v = repeat 255%Z (20 / 2 * (20 / 2))
    /\ frameBuffer1 v = repeat 0%Z (20 / 2 * (20 / 2))
    /\ frameBufferIndex v = frameBufferIndex VGA_default
    /\ sem_vsync_end v = false /\ sem_gui_ready v = false
    /\ panel_handle v = Some 1
    /\ geometry v = [20 / 2; 20 / 2; 20; 20; 2; 8; 20 / 10]
    /\ frameBuffersInPsram v = frameBuffersInPsram VGA_default.
Proof.
  apply (@init_success ex_platform ex_platform_laws VGA_default 20 20 2 8 None false 1
           (repeat 0%Z (20 / 2 * (20 / 2))) (repeat 0%Z (20 / 2 * (20 / 2))));
    reflexivity || lia.
Defined.

Lemma init_panel_error_witness :
  @init ex_no_panel VGA_default 20 20 2 8 None false
  = ([CreateSemaphore 0; CreateSemaphore 1;
      NewRgbPanel (panel_config_of 20 20 (init_fields 20 20 2 8 VGA_default) None 8)],
     inl (ErrorCheckFailed 127 (-1)%Z)).
Proof.
  apply (@init_panel_error ex_no_panel VGA_default 20 20 2 8 None false (-1)%Z 0);
    reflexivity || lia || discriminate.
Defined.

Lemma init_3bit_overflow_witness :
  @init ex_platform VGA_default 20 20 2 3 None false
  = ([CreateSemaphore 0; CreateSemaphore 1;
      NewRgbPanel (panel_config_of 20 20 (init_fields 20 20 2 3 VGA_default) None 3);
      alloc_call false 0 (20 / 2 * (20 / 2) / 2); alloc_call false 1 (20 / 2 * (20 / 2) / 2);
      Memset (20 / 2 * (20 / 2))], inl HeapOverflow).
Proof.
  apply (@init_3bit_overflow ex_platform ex_platform_laws VGA_default 20 20 2 None false 1
           (repeat 0%Z (20 / 2 * (20 / 2) / 2)) (repeat 0%Z (20 / 2 * (20 / 2) / 2)));
    reflexivity || (cbn; lia).
Defined.

Lemma init_alloc_failure_witness :
  @init ex_no_heap VGA_default 20 20 2 8 None false
  = ([CreateSemaphore 0; CreateSemaphore 1;
      NewRgbPanel (panel_config_of 20 20 (init_fields 20 20 2 8 VGA_default) None 8);
      alloc_call false 0 (fbSize (init_fields 20 20 2 8 VGA_default))], inl (AssertFailed 142)).
Proof.
  apply (proj1 (@init_alloc_failure ex_no_heap VGA_default 20 20 2 8 None false 1
                  ltac:(lia) eq_refl eq_refl eq_refl)).
  reflexivity.
Defined.

Lemma init_first_frame_witness :
  exists v,
    @init ex_platform VGA_default 640 480 2 8 None false
    = (@init_calls ex_platform VGA_default 640 480 2 8 None false,
       inr (v, panel_config_of 640 480 (init_fields 640 480 2 8 VGA_default) None 8))
    /\ forall es s' o,
       chunks_of es = frame_chunks v -> run (mkSys v Drawing) es = Some (s', o) ->
       o = repeat 255%Z (640 * 480).
Proof.
  apply (@init_first_frame ex_platform ex_platform_laws 640 480 2 None false 1
           (repeat 0%Z (640 / 2 * (480 / 2))) (repeat 0%Z (640 / 2 * (480 / 2))));
    [do 3 right; left; reflexivity | reflexivity ..].
Defined.

Lemma mode_640x350_broken_witness :
  exists v,
    @init ex_platform VGA_default 640 350 2 8 None false
    = (@init_calls ex_platform VGA_default 640 350 2 8 None false,
       inr (v, panel_config_of 640 350 (init_fields 640 350 2 8 VGA_default) None 8))
    /\ frame_ok v = false
    /\ nth 1 (frame_chunks v) (0, 0) = (35 * 640, 35 * 640)
    /\ length (bounce_fill v (35 * 640) (35 * 640)) < 35 * 640.
Proof.
  apply (@mode_640x350_broken ex_platform ex_platform_laws None false 1
           (repeat 0%Z (640 / 2 * (350 / 2))) (repeat 0%Z (640 / 2 * (350 / 2))));
    reflexivity.
Defined.

Lemma bounce_fill_short_request_witness : bounce_fill ex8 0 80 = [].
Proof. apply bounce_fill_short_request; [reflexivity | reflexivity | cbn; lia]. Defined.

Lemma bounce_fill_overrun_witness :
  length (bounce_fill (ex_vga 2 8 20 10) 0 160) = 160 / 4 / 20 * (80 * ((20 + 39) / 40) + 40)
  /\ (20 mod 40 <> 0 -> 0 < 160 / 4 / 20 -> 160 mod (4 * 20) = 0 ->
      160 < length (bounce_fill (ex_vga 2 8 20 10) 0 160)).
Proof. apply (bounce_fill_overrun (ex_vga 2 8 20 10) 0 160); reflexivity. Defined.

Lemma init_unsupported_blank_witness :
  exists v,
    @init ex_platform VGA_default 30 30 3 8 None false
    = (@init_calls ex_platform VGA_default 30 30 3 8 None false,
       inr (v, panel_config_of 30 30 (init_fields 30 30 3 8 VGA_default) None 8))
    /\ forall pos len, bounce_fill v pos len = [].
Proof.
  apply (@init_unsupported_blank ex_platform ex_platform_laws 30 30 3 8 None false 1
           (repeat 0%Z (30 / 3 * (30 / 3))) (repeat 0%Z (30 / 3 * (30 / 3))));
    reflexivity || lia.
Defined.

Lemma init_unknown_mode_witness :
  exists v c,
    @init ex_platform VGA_default 20 20 2 8 None false
    = (@init_calls ex_platform VGA_default 20 20 2 8 None false, inr (v, c))
    /\ pclk_hz c = 0%Z /\ porch c = mkTimings 0 0 0 0 0 0.
Proof.
  apply (@init_unknown_mode ex_platform ex_platform_laws VGA_default 20 20 2 8 None false 1
           (repeat 0%Z (20 / 2 * (20 / 2))) (repeat 0%Z (20 / 2 * (20 / 2))));
    (reflexivity || lia || (cbn; intuition discriminate)).
Defined.

Lemma bounce_fill_odd_line_witness :
  rd (bounce_fill ex8 (screenWidth ex8) (2 * screenWidth ex8)) 0
    = rd (frameBuffer ex8 (frameBufferIndex ex8)) (frameWidth ex8 / 2)
  /\ rd (produce_ref ex8 (screenWidth ex8) (2 * screenWidth ex8)) 0
    = rd (frameBuffer ex8 (frameBufferIndex ex8)) 0.
Proof. apply bounce_fill_odd_line; (reflexivity || (cbn; lia)). Defined.

Lemma unpack1_pack3x2_witness : unpack1 [pack3x2 2 7] (mkCursor 0 []) = mkCursor 1 [2; 7]%Z.
Proof. apply unpack1_pack3x2; lia. Defined.

Lemma frame_handoff_witness :
  task (result_state (run (mkSys ex3 Drawing) ex_handoff_events)) = Drawing
  /\ frameBufferIndex (vga (result_state (run (mkSys ex3 Drawing) ex_handoff_events)))
     = getDrawBuffer ex3
  /\ front_buffer (vga (result_state (run (mkSys ex3 Drawing) ex_handoff_events)))
     = repeat 1%Z 50
  /\ getDrawBuffer (vga (result_state (run (mkSys ex3 Drawing) ex_handoff_events)))
     = frameBufferIndex ex3.
Proof.
  apply (frame_handoff (mkSys ex3 Drawing) (repeat 1%Z 50) [Chunk 0 40] 360 40
           (result_state (run (mkSys ex3 Drawing) ex_handoff_events))
           (result_bytes (run (mkSys ex3 Drawing) ex_handoff_events))).
  - split; [cbn; lia | split; reflexivity].
  - reflexivity.
  - constructor; [cbn; lia | constructor].
  - cbn. lia.
  - vm_compute. reflexivity.
Defined.

Lemma frame_releases_witness :
  exists s' o,
    run ex_waiting (chunk_events (frame_chunks (vga ex_waiting))) = Some (s', o)
    /\ frameBufferIndex (vga s') = flip (frameBufferIndex (vga ex_waiting))
    /\ exists s'', step s' Take = Some (s'', []) /\ task s'' = Drawing.
Proof.
  apply frame_releases.
  - unfold sync_inv. cbn. split; [lia | reflexivity].
  - reflexivity.
  - reflexivity.
  - reflexivity.
  - cbn. lia.
  - cbn. lia.
Defined.

Lemma bounce_fill_in_bounds_witness :
  bounce_fill (set_frameBuffer ex8 (frameBufferIndex ex8) (frameBuffer ex8 0 ++ [9%Z; 9%Z])) 0 160
  = bounce_fill ex8 0 160.
Proof.
  apply bounce_fill_in_bounds.
  - reflexivity.
  - reflexivity.
  - reflexivity.
  - cbn. lia.
  - cbn. lia.
  - intros i Hi. apply rd_app_l. vm_compute in Hi |- *. lia.
Defined.

Lemma unpack2_pack3x2_witness :
  unpack2 [pack3x2 2 7] (mkCursor 0 []) = mkCursor 1 [2; 2; 7; 7]%Z.
Proof. apply unpack2_pack3x2; lia. Defined.

End Witnesses.
